(** * Trading checklist dashboard: the stock-data module [lib/stock-api.ts]

    A shallow embedding of the data-access shim, the indicator calculator and
    the recommendation engine of [lib/stock-api.ts], and the properties the
    specification states about them.

    Numbers.  A JavaScript [number] is modelled by [number]: an exact
    rational ([Qc], canonical fractions, so equality is Leibniz equality and
    every operation computes), or one of the three non-finite values
    [PosInf], [NegInf], [NaN] that the code can produce from finite inputs by
    dividing by zero or by reading [undefined].  Binary64 rounding, overflow
    and the sign of zero are not modelled by [number]: what is stated over
    it repeats the operations of the code in the order of the code, compares
    numbers, or bounds a result with a margin.  Where rounding decides what
    the specification says, the function is embedded a second time over
    binary64 numbers (module [Binary64], on Rocq's primitive floats, which
    compute as IEEE 754 prescribes) and evaluated there.  Arrays of samples
    handed to the
    indicator functions hold finite numbers ([list Qc]); an index outside the
    array reads [undefined], which every arithmetic operator turns into
    [NaN].  Period and array lengths are natural numbers.

    Host functions.  [String.prototype.toUpperCase], number formatting,
    [Math.log] and [Math.sqrt] are ECMAScript built-ins, not code of this
    module; they are the methods of the class [Host] and every theorem holds
    for any implementation of them.

    Effects.  [Math.random], [Date.now] and [fetch] read the [World]; an
    [async] function is a state-passing computation that resolves or
    rejects.  [console.log] has no bearing on results and is left out. *)

From Stdlib Require Import QArith Qcanon Qabs Qcabs Qround ZArith.
From Stdlib Require Import String Ascii DecimalString Bool Arith.
From Stdlib Require Import Lia Lra Psatz List.
From Stdlib Require PrimFloat Uint63.
Import ListNotations.

(** ** Numbers *)

Module Num.

Inductive number : Type :=
| Fin (q : Qc)
| PosInf
| NegInf
| NaN.

(** A numeric literal of the source, [lit 0.72] for [0.72]. *)
Definition lit (q : Q) : number := Fin (Q2Qc q).

(** An array length or loop counter used as a number. *)
Definition of_nat (n : nat) : number := Fin (Q2Qc (inject_Z (Z.of_nat n))).

(** [sign q] is [Gt], [Eq] or [Lt] as [q] is positive, zero or negative. *)
Definition sign (q : Qc) : comparison := (q ?= Q2Qc 0)%Qc.

(** [c * Infinity], where [0 * Infinity] is [NaN]. *)
Definition signed_inf (c : comparison) : number :=
  match c with Gt => PosInf | Lt => NegInf | Eq => NaN end.

Definition neg (x : number) : number :=
  match x with
  | Fin q => Fin (- q)%Qc
  | PosInf => NegInf
  | NegInf => PosInf
  | NaN => NaN
  end.

Definition add (x y : number) : number :=
  match x, y with
  | Fin a, Fin b => Fin (a + b)%Qc
  | NaN, _ | _, NaN => NaN
  | PosInf, NegInf | NegInf, PosInf => NaN
  | PosInf, _ | _, PosInf => PosInf
  | NegInf, _ | _, NegInf => NegInf
  end.

Definition sub (x y : number) : number := add x (neg y).

Definition mul (x y : number) : number :=
  match x, y with
  | Fin a, Fin b => Fin (a * b)%Qc
  | NaN, _ | _, NaN => NaN
  | Fin a, PosInf | PosInf, Fin a => signed_inf (sign a)
  | Fin a, NegInf | NegInf, Fin a => signed_inf (CompOpp (sign a))
  | PosInf, PosInf | NegInf, NegInf => PosInf
  | PosInf, NegInf | NegInf, PosInf => NegInf
  end.

(** Division never throws: a finite number over zero is an infinity of the
    sign of the numerator, and [0 / 0] is [NaN]. *)
Definition div (x y : number) : number :=
  match x, y with
  | NaN, _ | _, NaN => NaN
  | Fin a, Fin b =>
      if Qc_eq_bool b (Q2Qc 0) then signed_inf (sign a) else Fin (a / b)%Qc
  | Fin _, (PosInf | NegInf) => Fin (Q2Qc 0)
  | PosInf, Fin b => match sign b with Lt => NegInf | _ => PosInf end
  | NegInf, Fin b => match sign b with Lt => PosInf | _ => NegInf end
  | (PosInf | NegInf), (PosInf | NegInf) => NaN
  end.

(** [x < y]; every comparison with [NaN] is false. *)
Definition lt (x y : number) : bool :=
  match x, y with
  | Fin a, Fin b => match (a ?= b)%Qc with Lt => true | _ => false end
  | NegInf, (Fin _ | PosInf) => true
  | Fin _, PosInf => true
  | _, _ => false
  end.

Definition gt (x y : number) : bool := lt y x.

(** [ToBoolean]: zero and [NaN] are falsy. *)
Definition truthy (x : number) : bool :=
  match x with
  | Fin q => negb (Qc_eq_bool q (Q2Qc 0))
  | PosInf | NegInf => true
  | NaN => false
  end.

(** [x || y] on numbers. *)
Definition or_else (x y : number) : number := if truthy x then x else y.

(** [Math.floor] and [Math.round] (halves round towards [+Infinity]). *)
Definition Math_floor (x : number) : number :=
  match x with
  | Fin q => Fin (Q2Qc (inject_Z (Qfloor q)))
  | _ => x
  end.

Definition Math_round (x : number) : number :=
  match x with
  | Fin q => Fin (Q2Qc (inject_Z (Qfloor (q + Q2Qc (1 # 2))%Qc)))
  | _ => x
  end.

(** [Math.pow(x, n)] for a natural exponent. *)
Fixpoint Math_pow (x : number) (n : nat) : number :=
  match n with
  | O => lit 1
  | S k => mul x (Math_pow x k)
  end.

(** [a[i]] on an array of finite numbers: [undefined], which arithmetic
    reads as [NaN], outside [0 .. length-1]. *)
Definition get (a : list Qc) (i : Z) : number :=
  if (i <? 0)%Z then NaN
  else match nth_error a (Z.to_nat i) with
       | Some q => Fin q
       | None => NaN
       end.

End Num.
Export Num.

Declare Scope js_scope.
Delimit Scope js_scope with js.
Bind Scope js_scope with number.
Infix "+" := add : js_scope.
Infix "-" := sub : js_scope.
Infix "*" := mul : js_scope.
Infix "/" := div : js_scope.
Infix "<" := lt : js_scope.
Infix ">" := gt : js_scope.
Infix "||" := or_else : js_scope.

(** ** JSON values and host functions *)

(** What [response.json()] can produce.  An object lists its properties in
    insertion order. *)
Unset Elimination Schemes.
Inductive Json : Type :=
| JNull
| JBool (b : bool)
| JNumber (q : Qc)
| JString (s : string)
| JArray (items : list Json)
| JObject (fields : list (string * Json)).
Set Elimination Schemes.

(** The ECMAScript built-ins the module calls.  Nothing is assumed about
    them. *)
Class Host : Type := {
  (** [String.prototype.toUpperCase] *)
  toUpperCase : string -> string;
  (** [ToString] of a number, as a template literal applies it *)
  numberToString : number -> string;
  (** [Number.prototype.toFixed] *)
  toFixed : number -> nat -> string;
  (** [Math.log] and [Math.sqrt] *)
  Math_log : number -> number;
  Math_sqrt : number -> number;
  (** [ToNumber] of a string, an array or an object *)
  coerceToNumber : Json -> number
}.

(** ** Indicator calculator *)

Module Indicators.
Local Open Scope js_scope.

Definition default_period : nat := 14.

(** One iteration of the loop of [calculateRSI], [i] running from 1 to
    [period]; the state is [(gains, losses)]. *)
Definition rsi_step (prices : list Qc) (acc : number * number) (i : nat)
  : number * number :=
  let '(gains, losses) := acc in
  let len := Z.of_nat (length prices) in
  let change :=
    get prices (len - Z.of_nat i) - get prices (len - Z.of_nat i - 1) in
  if change > lit 0 then (gains + change, losses)
  else (gains, losses - change).

Definition rsi_loop (prices : list Qc) (period : nat) : number * number :=
  fold_left (rsi_step prices) (seq 1 period) (lit 0, lit 0).

Definition rsi_avgGain (prices : list Qc) (period : nat) : number :=
  fst (rsi_loop prices period) / of_nat period.

Definition rsi_avgLoss (prices : list Qc) (period : nat) : number :=
  snd (rsi_loop prices period) / of_nat period.

Definition rsi_rs (prices : list Qc) (period : nat) : number :=
  rsi_avgGain prices period / rsi_avgLoss prices period.

Definition calculateRSI (prices : list Qc) (period : nat) : number :=
  if (length prices <? period + 1)%nat then lit 50
  else
    let rs := rsi_rs prices period in
    lit 100 - lit 100 / (lit 1 + rs).

Definition calculateEMA (prices : list Qc) (period : nat) : number :=
  if (length prices <? period)%nat
  then get prices (Z.of_nat (length prices) - 1) || lit 0
  else
    let multiplier := lit 2 / (of_nat period + lit 1) in
    let ema :=
      fold_left (fun sum price => sum + Fin price)
                (firstn period prices) (lit 0) / of_nat period in
    fold_left
      (fun ema i =>
         get prices (Z.of_nat i) * multiplier + ema * (lit 1 - multiplier))
      (seq period (length prices - period)) ema.

(** One iteration of the loop of [calculateVWAP]; the state is
    [(totalVolume, totalVolumePrice)]. *)
Definition vwap_step (closes volumes highs lows : list Qc)
           (acc : number * number) (i : nat) : number * number :=
  let '(totalVolume, totalVolumePrice) := acc in
  let typicalPrice :=
    (get highs (Z.of_nat i) + get lows (Z.of_nat i) + get closes (Z.of_nat i))
    / lit 3 in
  let volume := get volumes (Z.of_nat i) || lit 0 in
  (totalVolume + volume, totalVolumePrice + typicalPrice * volume).

Definition calculateVWAP (closes volumes highs lows : list Qc) : number :=
  if (length closes =? 0)%nat then lit 0
  else
    let '(totalVolume, totalVolumePrice) :=
      fold_left (vwap_step closes volumes highs lows)
                (seq 0 (length closes)) (lit 0, lit 0) in
    if totalVolume > lit 0 then totalVolumePrice / totalVolume
    else get closes (Z.of_nat (length closes) - 1).

Section Volatility.
Context {host : Host}.

(** The array [returns] after the first loop of [calculateVolatility]. *)
Definition volatility_returns (prices : list Qc) : list number :=
  fold_left
    (fun returns i =>
       returns ++
       [Math_log (get prices (Z.of_nat i) / get prices (Z.of_nat i - 1))])
    (seq 1 (length prices - 1)) [].

(** The parameter [days] is not used by the source either. *)
Definition calculateVolatility (prices : list Qc) (days : number) : number :=
  if (length prices <? 2)%nat then lit 0
  else
    let returns := volatility_returns prices in
    let mean :=
      fold_left (fun sum ret => sum + ret) returns (lit 0)
      / of_nat (length returns) in
    let variance :=
      fold_left (fun sum ret => sum + Math_pow (ret - mean) 2)
                returns (lit 0)
      / of_nat (length returns) in
    let dailyVol := Math_sqrt variance in
    let annualizedVol := dailyVol * Math_sqrt (lit 252) * lit 100 in
    annualizedVol.
End Volatility.

End Indicators.
Export Indicators.

(** ** The world, promises and exceptions *)

Module Effects.

Record Response : Type := {
  ok : bool;                   (* status in 200..299 *)
  status : nat;
  body_text : string;          (* what [response.text()] resolves with *)
  body_json : option Json      (* [None]: the body is not valid JSON *)
}.

(** [fetch] rejects on a network failure and resolves with a response
    otherwise, whatever its status. *)
Inductive FetchResult : Type :=
| NetworkFailure
| Responded (r : Response).

Record World : Type := {
  random_draws : nat -> Qc;    (* the successive results of [Math.random] *)
  random_count : nat;          (* how many were drawn so far *)
  now : Qc;                    (* [Date.now()] *)
  network : string -> FetchResult
}.

Inductive Exn : Type :=
| FetchFailed
| ApiRequestFailed (status : nat) (errorText : string)
| InvalidJson
| TypeError
| ApiError (error : option Json).

Inductive Settled (A : Type) : Type :=
| Resolved (a : A)
| Rejected (e : Exn).
Arguments Resolved {A} a.
Arguments Rejected {A} e.

(** A computation that reads and advances the world and then returns
    (resolves) or throws (rejects).  The world survives a throw. *)
Definition Async (A : Type) : Type := World -> Settled A * World.

Definition ret {A} (a : A) : Async A := fun w => (Resolved a, w).

Definition throw {A} (e : Exn) : Async A := fun w => (Rejected e, w).

Definition bind {A B} (c : Async A) (k : A -> Async B) : Async B :=
  fun w =>
    match c w with
    | (Resolved a, w') => k a w'
    | (Rejected e, w') => (Rejected e, w')
    end.

Definition try_catch {A} (body : Async A) (handler : Exn -> Async A)
  : Async A :=
  fun w =>
    match body w with
    | (Resolved a, w') => (Resolved a, w')
    | (Rejected e, w') => handler e w'
    end.

Definition Math_random : Async number :=
  fun w =>
    (Resolved (Fin (random_draws w (random_count w))),
     {| random_draws := random_draws w;
        random_count := S (random_count w);
        now := now w;
        network := network w |}).

Definition Date_now : Async number := fun w => (Resolved (Fin (now w)), w).

Definition fetch (url : string) : Async Response :=
  fun w =>
    match network w url with
    | NetworkFailure => (Rejected FetchFailed, w)
    | Responded r => (Resolved r, w)
    end.

Definition Response_text (r : Response) : Async string := ret (body_text r).

Definition Response_json (r : Response) : Async Json :=
  match body_json r with
  | Some data => ret data
  | None => throw InvalidJson
  end.

(** The last entry for [key] wins, as in [JSON.parse]. *)
Fixpoint lookup (key : string) (fields : list (string * Json)) : option Json :=
  match fields with
  | [] => None
  | (k, v) :: rest =>
      match lookup key rest with
      | Some v' => Some v'
      | None => if String.eqb k key then Some v else None
      end
  end.

(** [data.key] for one of the keys the module reads ([error], [price]):
    a [TypeError] on [null], [undefined] ([None]) on a value that has no
    such property. *)
Definition get_property (data : Json) (key : string) : Async (option Json) :=
  match data with
  | JNull => throw TypeError
  | JObject fields => ret (lookup key fields)
  | _ => ret None
  end.

(** [ToBoolean] of a property that may be [undefined]. *)
Definition truthy_value (v : option Json) : bool :=
  match v with
  | None | Some JNull => false
  | Some (JBool b) => b
  | Some (JNumber q) => negb (Qc_eq_bool q (Q2Qc 0))
  | Some (JString s) => negb (String.eqb s EmptyString)
  | Some (JArray _) | Some (JObject _) => true
  end.

(** [ToNumber] of a property that may be [undefined]. *)
Definition ToNumber {host : Host} (v : option Json) : number :=
  match v with
  | None => NaN
  | Some JNull => lit 0
  | Some (JBool b) => if b then lit 1 else lit 0
  | Some (JNumber q) => Fin q
  | Some other => coerceToNumber other
  end.

End Effects.
Export Effects.

Declare Scope async_scope.
Delimit Scope async_scope with async.
Notation "x <- c1 ;; c2" := (bind c1 (fun x => c2))
  (at level 61, c1 at next level, right associativity) : async_scope.

(** ** Data access shim *)

(** Two interfaces of the source have a field [vwap]; the one of
    [TechnicalIndicators] is [ti_vwap] here. *)

Module Shim.
Local Open Scope js_scope.
Local Open Scope async_scope.

Record StockData : Type := {
  symbol : string;
  price : number;
  change : number;
  changePercent : number;
  volume : number;
  marketCap : option number;
  high : number;
  low : number;
  open : number;
  previousClose : number;
  vwap : option number;
  timestamp : number
}.

Record TechnicalIndicators : Type := {
  rsi : number;
  ema9 : number;
  ema20 : number;
  adx : number;
  ti_vwap : number;
  sma50 : number;
  sma200 : number
}.

(** What the promise of [fetchStockData] resolves with: the parsed body
    of the proxy's response, returned as it is, or a generated record. *)
Inductive StockResult : Type :=
| FromApi (data : Json)
| Generated (d : StockData).

Section WithHost.
Context {host : Host}.

Definition generateFallbackStockData (symbol : string) : Async StockData :=
  r <- Math_random ;;
  let basePrice := lit 150 + r * lit 300 in
  r <- Math_random ;;
  let changePercent := (r - lit 0.5) * lit 10 in
  let change := basePrice * (changePercent / lit 100) in
  let previousClose := basePrice - change in
  r_volume <- Math_random ;;
  r_high <- Math_random ;;
  r_low <- Math_random ;;
  r_open <- Math_random ;;
  r_cap <- Math_random ;;
  t <- Date_now ;;
  ret {| symbol := toUpperCase symbol;
         price := basePrice;
         change := change;
         changePercent := changePercent;
         volume := Math_floor (r_volume * lit 10000000) + lit 1000000;
         high := basePrice + r_high * lit 10;
         low := basePrice - r_low * lit 10;
         open := previousClose + (r_open - lit 0.5) * lit 5;
         previousClose := previousClose;
         marketCap :=
           Some (Math_floor (r_cap * lit 1000000000000) + lit 100000000000);
         vwap := None;
         timestamp := t |}.

Definition fetchStockData (symbol : string) : Async StockResult :=
  try_catch
    (let apiUrl := ("/api/stock/" ++ symbol)%string in
     response <- fetch apiUrl ;;
     if negb (ok response) then
       errorText <- Response_text response ;;
       throw (ApiRequestFailed (status response) errorText)
     else
       data <- Response_json response ;;
       error <- get_property data "error" ;;
       if truthy_value error then
         throw (ApiError error)
       else ret (FromApi data))
    (fun error =>
       d <- generateFallbackStockData symbol ;;
       ret (Generated d)).

(** [stockData.price], as the arithmetic of [fetchTechnicalIndicators]
    reads it. *)
Definition price_of (stockData : StockResult) : Async number :=
  match stockData with
  | Generated d => ret (price d)
  | FromApi data =>
      p <- get_property data "price" ;;
      ret (ToNumber p)
  end.

Definition fetchTechnicalIndicators (symbol : string)
  : Async TechnicalIndicators :=
  try_catch
    (stockData <- fetchStockData symbol ;;
     currentPrice <- price_of stockData ;;
     r <- Math_random ;;
     let vwap := currentPrice * (lit 0.995 + r * lit 0.01) in
     r <- Math_random ;;
     let ema9 := currentPrice * (lit 0.99 + r * lit 0.02) in
     r <- Math_random ;;
     let ema20 := currentPrice * (lit 0.985 + r * lit 0.03) in
     r <- Math_random ;;
     let sma50 := currentPrice * (lit 0.97 + r * lit 0.06) in
     r <- Math_random ;;
     let sma200 := currentPrice * (lit 0.9 + r * lit 0.2) in
     r_rsi <- Math_random ;;
     r_adx <- Math_random ;;
     ret {| rsi := lit 45 + r_rsi * lit 20;
            ema9 := ema9;
            ema20 := ema20;
            adx := lit 15 + r_adx * lit 20;
            ti_vwap := vwap;
            sma50 := sma50;
            sma200 := sma200 |})
    (fun error =>
       ret {| rsi := lit 50;
              ema9 := lit 200;
              ema20 := lit 195;
              adx := lit 25;
              ti_vwap := lit 198;
              sma50 := lit 190;
              sma200 := lit 180 |}).
End WithHost.

End Shim.
Export Shim.

(** ** Recommendation engine *)

(** Field names that several interfaces of the source share carry a prefix
    here: [oc_] in [OptionContract], [tsp_] in [TermStructurePoint], [od_]
    in [OptionsData] and [tr_] in [TradeRecommendation]. *)

Module Engine.
Local Open Scope js_scope.
Local Open Scope string_scope.

Record OptionContract : Type := {
  strike : number;
  bid : number;
  ask : number;
  last : number;
  oc_volume : number;
  openInterest : number;
  oc_impliedVolatility : number;
  delta : number;
  gamma : number;
  theta : number;
  vega : number;
  rho : number
}.

Record OptionsChain : Type := {
  expiration : string;
  calls : list OptionContract;
  puts : list OptionContract
}.

Record TermStructurePoint : Type := {
  tsp_expiration : string;
  daysToExpiry : number;
  tsp_impliedVolatility : number
}.

Record OptionsData : Type := {
  od_symbol : string;
  expirationDates : list string;
  chains : list OptionsChain;
  impliedVolatility : number;
  ivRank : number;
  ivPercentile : number;
  skew : number;
  termStructure : list TermStructurePoint
}.

Record FundamentalData : Type := {
  eps : number;
  revenue : number;
  netIncome : number;
  ebitda : number;
  peRatio : number;
  priceToSales : number;
  grossMargin : number;
  operatingMargin : number;
  freeCashFlowYield : number;
  pegRatio : number;
  forwardPE : number
}.

Record AlternativeData : Type := {
  socialSentiment : number;
  newsScore : number;
  googleTrends : number;
  analystRating : number;
  targetPrice : number;
  upgrades : number;
  downgrades : number
}.

Record TradeRecommendation : Type := {
  ticker : string;
  tr_strategy : string;
  legs : string;
  thesis : string;
  pop : number;
  maxLoss : number;
  creditRatio : number;
  modelScore : number;
  sector : string
}.

(** The five horizons of [HistoricalVolatilityData.timeframes] and
    [.averageMoves]. *)
Record Timeframes : Type := {
  oneDay : number;
  oneWeek : number;
  oneMonth : number;
  threeMonths : number;
  sixMonths : number
}.

Inductive Level : Type := Low | Medium | High.

Record OptionTradeRecommendation : Type := {
  strategy : string;
  description : string;
  reasoning : string;
  expectedMove : number;
  timeframe : string;
  riskLevel : Level;
  profitPotential : Level
}.

(** [array.push(item, ...)] *)
Definition push {A} (array items : list A) : list A := (array ++ items)%list.

Section WithHost.
Context {host : Host}.

(** The array [recommendations] of [generateOptionRecommendations] when
    the function reaches its [return]. *)
Definition option_recommendations_pushed
           (volatilities averageMoves : Timeframes) (currentPrice : number)
  : list OptionTradeRecommendation :=
  let recommendations : list OptionTradeRecommendation := [] in
  (* High volatility strategies *)
  let recommendations :=
    if oneMonth volatilities > lit 30 then
      let recommendations :=
        push recommendations
        [ {| strategy := "Short Straddle";
             description := "Sell ATM call and put (30-45 DTE)";
             reasoning :=
               "High implied volatility ("
               ++ toFixed (oneMonth volatilities) 1
               ++ "%) suggests premium is expensive. Profit from volatility contraction.";
             expectedMove := oneMonth averageMoves;
             timeframe := "30-45 days";
             riskLevel := High;
             profitPotential := High |} ] in
      push recommendations
      [ {| strategy := "Iron Condor";
           description :=
             "Sell " ++ toFixed (currentPrice * lit 0.97) 0 ++ "/"
             ++ toFixed (currentPrice * lit 1.03) 0 ++ " strikes";
           reasoning :=
             "High IV environment favors premium selling with defined risk.";
           expectedMove := oneMonth averageMoves;
           timeframe := "30-45 days";
           riskLevel := Medium;
           profitPotential := Medium |} ]
    else recommendations in
  (* Low volatility strategies *)
  let recommendations :=
    if oneMonth volatilities < lit 20 then
      push recommendations
      [ {| strategy := "Long Straddle";
           description := "Buy ATM call and put (30-45 DTE)";
           reasoning :=
             "Low implied volatility ("
             ++ toFixed (oneMonth volatilities) 1
             ++ "%) suggests options are cheap. Profit from volatility expansion.";
           expectedMove := oneMonth averageMoves;
           timeframe := "30-45 days";
           riskLevel := Medium;
           profitPotential := High |} ]
    else recommendations in
  (* Trending strategies based on recent vs longer-term volatility *)
  let recommendations :=
    if oneWeek volatilities > threeMonths volatilities * lit 1.2 then
      push recommendations
      [ {| strategy := "Calendar Spread";
           description := "Sell short-term, buy long-term options";
           reasoning :=
             "Recent volatility spike suggests short-term premium is elevated.";
           expectedMove := oneWeek averageMoves;
           timeframe := "2-4 weeks";
           riskLevel := Low;
           profitPotential := Medium |} ]
    else recommendations in
  (* Conservative income strategies *)
  let recommendations :=
    push recommendations
    [ {| strategy := "Cash-Secured Put";
         description :=
           "Sell " ++ toFixed (currentPrice * lit 0.95) 0 ++ " put (30-45 DTE)";
         reasoning :=
           "Collect premium while potentially acquiring shares at "
           ++ toFixed
                (((currentPrice * lit 0.95) / currentPrice) * lit 100 - lit 100) 1
           ++ "% discount.";
         expectedMove := oneMonth averageMoves;
         timeframe := "30-45 days";
         riskLevel := Low;
         profitPotential := Low |} ] in
  recommendations.

Definition generateOptionRecommendations
           (volatilities averageMoves : Timeframes) (currentPrice : number)
  : list OptionTradeRecommendation :=
  let recommendations :=
    option_recommendations_pushed volatilities averageMoves currentPrice in
  firstn 5 recommendations.

Definition generateTradeRecommendations
           (symbol : string) (stockData : StockData) (optionsData : OptionsData)
           (fundamentalData : FundamentalData)
           (alternativeData : AlternativeData)
           (technicalData : TechnicalIndicators)
  : list TradeRecommendation :=
  let trades : list TradeRecommendation := [] in
  let currentPrice := price stockData in
  (* Bull Call Spread *)
  let trades :=
    if (rsi technicalData < lit 70)
       && (socialSentiment alternativeData > lit 0)
       && (changePercent stockData > lit 0)
    then
      let strike1 := Math_round currentPrice in
      let strike2 := Math_round (currentPrice * lit 1.05) in
      push trades
      [ {| ticker := symbol;
           tr_strategy := "Bull Call Spread";
           legs :=
             "Buy " ++ numberToString strike1 ++ "C / Sell "
             ++ numberToString strike2 ++ "C (30 DTE)";
           thesis := "Strong momentum, positive sentiment, RSI not overbought";
           pop := lit 0.72;
           maxLoss := lit 250;
           creditRatio := lit 0.4;
           modelScore := lit 0.85;
           sector := "Technology" |} ]
    else trades in
  (* Cash Secured Put *)
  let trades :=
    if (rsi technicalData > lit 30)
       && (ivPercentile optionsData > lit 50)
       && (analystRating alternativeData > lit 3)
    then
      let strike := Math_round (currentPrice * lit 0.95) in
      push trades
      [ {| ticker := symbol;
           tr_strategy := "Cash Secured Put";
           legs := "Sell " ++ numberToString strike ++ "P (45 DTE)";
           thesis := "High IV, strong support level, analyst upgrades";
           pop := lit 0.68;
           maxLoss := lit 480;
           creditRatio := lit 0.35;
           modelScore := lit 0.78;
           sector := "Technology" |} ]
    else trades in
  (* Iron Condor *)
  let trades :=
    if (adx technicalData < lit 25) && (ivPercentile optionsData > lit 60)
    then
      let strike1 := Math_round (currentPrice * lit 0.95) in
      let strike2 := Math_round (currentPrice * lit 0.98) in
      let strike3 := Math_round (currentPrice * lit 1.02) in
      let strike4 := Math_round (currentPrice * lit 1.05) in
      push trades
      [ {| ticker := symbol;
           tr_strategy := "Iron Condor";
           legs :=
             "Sell " ++ numberToString strike2 ++ "P/"
             ++ numberToString strike3 ++ "C, Buy "
             ++ numberToString strike1 ++ "P/"
             ++ numberToString strike4 ++ "C (30 DTE)";
           thesis := "Low volatility environment, range-bound price action";
           pop := lit 0.65;
           maxLoss := lit 350;
           creditRatio := lit 0.42;
           modelScore := lit 0.71;
           sector := "Technology" |} ]
    else trades in
  firstn 5 trades.
End WithHost.

End Engine.
Export Engine.

(** ** The formulas of the specification

    Definitions written from the words of the specification, on lists and
    sums rather than on indices and loops; the theorems below compare them
    with the functions above. *)

Module Spec.
Local Open Scope Qc_scope.

Definition Qcltb (a b : Qc) : bool :=
  match a ?= b with Lt => true | _ => false end.

Definition Qcsum (l : list Qc) : Qc := fold_right Qcplus (Q2Qc 0) l.

(** The consecutive price changes [p1 - p0, p2 - p1, ...]. *)
Fixpoint changes (prices : list Qc) : list Qc :=
  match prices with
  | a :: (b :: _) as rest => (b - a) :: changes rest
  | _ => []
  end.

(** The last [n] elements of a list (all of them if it is shorter). *)
Definition most_recent {A} (n : nat) (l : list A) : list A :=
  skipn (length l - n) l.

Definition sum_gains (cs : list Qc) : Qc :=
  Qcsum (filter (fun c => Qcltb (Q2Qc 0) c) cs).

Definition sum_losses (cs : list Qc) : Qc :=
  Qcsum (map Qcabs (filter (fun c => Qcltb c (Q2Qc 0)) cs)).

(** [100 - 100/(1+RS)], [RS] the average gain over the average loss: the
    sum of the positive changes and the sum of the absolute negative changes
    of the last [period] changes, each divided by [period]. *)
Definition rsi_average_formula (prices : list Qc) (period : nat) : number :=
  let window := most_recent period (changes prices) in
  let averageGain := (Fin (sum_gains window) / of_nat period)%js in
  let averageLoss := (Fin (sum_losses window) / of_nat period)%js in
  let RS := (averageGain / averageLoss)%js in
  (lit 100 - lit 100 / (lit 1 + RS))%js.

(** Some change of the window is strictly negative. *)
Definition window_has_loss (prices : list Qc) (period : nat) : bool :=
  existsb (fun c => Qcltb c (Q2Qc 0)) (most_recent period (changes prices)).

Definition mean (l : list Qc) : number :=
  (Fin (Qcsum l) / of_nat (length l))%js.

(** Seed with the mean of the first [period] prices, then fold the later
    prices with [ema' = p*k + ema*(1-k)], [k = 2/(period+1)]. *)
Definition ema_formula (prices : list Qc) (period : nat) : number :=
  let k := (lit 2 / (of_nat period + lit 1))%js in
  fold_left (fun ema p => (Fin p * k + ema * (lit 1 - k))%js)
            (skipn period prices) (mean (firstn period prices)).

Definition typical_price (h l c : Qc) : Qc := (h + l + c) / Q2Qc 3.

(** The sum over [i] of [((high[i]+low[i]+close[i])/3) * volume[i]]. *)
Fixpoint volume_price_sum (closes volumes highs lows : list Qc) : Qc :=
  match closes, volumes, highs, lows with
  | c :: cs, v :: vs, h :: hs, l :: ls =>
      typical_price h l c * v + volume_price_sum cs vs hs ls
  | _, _, _, _ => Q2Qc 0
  end.

Section WithHost.
Context {host : Host}.
Local Open Scope js_scope.

(** The log returns [log(p1/p0), log(p2/p1), ...]. *)
Fixpoint log_returns (prices : list Qc) : list number :=
  match prices with
  | a :: (b :: _) as rest => Math_log (Fin b / Fin a) :: log_returns rest
  | _ => []
  end.

Definition total (xs : list number) : number := fold_right add (lit 0) xs.

Definition average (xs : list number) : number :=
  total xs / of_nat (length xs).

(** The square root of the mean squared deviation from the mean. *)
Definition population_stddev (xs : list number) : number :=
  Math_sqrt (average (map (fun x => Math_pow (x - average xs) 2) xs)).

Definition volatility_formula (prices : list Qc) : number :=
  population_stddev (log_returns prices) * Math_sqrt (lit 252) * lit 100.
End WithHost.

(** The numbers of a trade template: strategy, pop, maxLoss, creditRatio
    and modelScore. *)
Definition template : Type := (string * number * number * number * number)%type.

Definition summary (t : TradeRecommendation) : template :=
  (tr_strategy t, pop t, maxLoss t, creditRatio t, modelScore t).

Definition bull_call_spread : template :=
  ("Bull Call Spread"%string, lit 0.72, lit 250, lit 0.4, lit 0.85).
Definition cash_secured_put : template :=
  ("Cash Secured Put"%string, lit 0.68, lit 480, lit 0.35, lit 0.78).
Definition iron_condor : template :=
  ("Iron Condor"%string, lit 0.65, lit 350, lit 0.42, lit 0.71).

Definition bull_call_spread_applies
           (stockData : StockData) (alternativeData : AlternativeData)
           (technicalData : TechnicalIndicators) : bool :=
  (rsi technicalData < lit 70)%js
  && (socialSentiment alternativeData > lit 0)%js
  && (changePercent stockData > lit 0)%js.

Definition cash_secured_put_applies
           (optionsData : OptionsData) (alternativeData : AlternativeData)
           (technicalData : TechnicalIndicators) : bool :=
  (rsi technicalData > lit 30)%js
  && (ivPercentile optionsData > lit 50)%js
  && (analystRating alternativeData > lit 3)%js.

Definition iron_condor_applies
           (optionsData : OptionsData) (technicalData : TechnicalIndicators)
  : bool :=
  (adx technicalData < lit 25)%js && (ivPercentile optionsData > lit 60)%js.

(** The templates whose conditions hold, in the order of the catalog. *)
Definition expected_templates
           (stockData : StockData) (optionsData : OptionsData)
           (alternativeData : AlternativeData)
           (technicalData : TechnicalIndicators) : list template :=
  (if bull_call_spread_applies stockData alternativeData technicalData
   then [bull_call_spread] else [])
  ++ (if cash_secured_put_applies optionsData alternativeData technicalData
      then [cash_secured_put] else [])
  ++ (if iron_condor_applies optionsData technicalData
      then [iron_condor] else []).

(** The URL [fetchStockData] requests. *)
Definition stock_url (symbol : string) : string := ("/api/stock/" ++ symbol)%string.

(** The [error] property of a parsed body, [None] where it has none. *)
Definition error_property (data : Json) : option Json :=
  match data with
  | JObject fields => lookup "error" fields
  | _ => None
  end.

(** The request fully succeeds: [fetch] resolves, the status is ok, and the
    body parses to a JSON value other than [null] whose [error] property is
    absent or falsy ([null], [false], [0], the empty string).  The result is
    the parsed body. *)
Definition proxied_data (res : FetchResult) : option Json :=
  match res with
  | NetworkFailure => None
  | Responded r =>
      if ok r then
        match body_json r with
        | None | Some JNull => None
        | Some data =>
            if truthy_value (error_property data) then None else Some data
        end
      else None
  end.

(** The request fails in one of the three ways the specification names:
    [fetch] rejects (a network error), the status is not ok, or the body is
    JSON carrying an [error] field, which the guard [if (data.error)] reads
    as a truthy one. *)
Definition request_failed (res : FetchResult) : Prop :=
  res = NetworkFailure
  \/ (exists r, res = Responded r /\ ok r = false)
  \/ (exists r data,
        res = Responded r /\ body_json r = Some data
        /\ truthy_value (error_property data) = true).

(** The numbers [generateTradeRecommendations] reads of its arguments. *)
Record TradeInputs : Type := {
  read_price : number;
  read_changePercent : number;
  read_ivPercentile : number;
  read_socialSentiment : number;
  read_analystRating : number;
  read_rsi : number;
  read_adx : number
}.

Definition trade_inputs
           (stockData : StockData) (optionsData : OptionsData)
           (alternativeData : AlternativeData)
           (technicalData : TechnicalIndicators) : TradeInputs :=
  {| read_price := price stockData;
     read_changePercent := changePercent stockData;
     read_ivPercentile := ivPercentile optionsData;
     read_socialSentiment := socialSentiment alternativeData;
     read_analystRating := analystRating alternativeData;
     read_rsi := rsi technicalData;
     read_adx := adx technicalData |}.

(** The indicators as functions of the fetched price and of the seven
    results [r 0 .. r 6] of [Math.random] drawn after the fetch. *)
Definition indicators_of (currentPrice : number) (r : nat -> number)
  : TechnicalIndicators :=
  {| rsi := lit 45 + r 5%nat * lit 20;
     ema9 := currentPrice * (lit 0.99 + r 1%nat * lit 0.02);
     ema20 := currentPrice * (lit 0.985 + r 2%nat * lit 0.03);
     adx := lit 15 + r 6%nat * lit 20;
     ti_vwap := currentPrice * (lit 0.995 + r 0%nat * lit 0.01);
     sma50 := currentPrice * (lit 0.97 + r 3%nat * lit 0.06);
     sma200 := currentPrice * (lit 0.9 + r 4%nat * lit 0.2) |}%js.

(** The [i]-th result of [Math.random] from world [w] on. *)
Definition draw_from (w : World) (i : nat) : number :=
  Fin (random_draws w (i + random_count w)).

End Spec.
Export Spec.

(** ** Sample host and inputs

    A stand-in for the host functions and a few concrete inputs, used to run
    the functions above.  [sample_host] upper-cases ASCII letters and prints
    integers in decimal and [toFixed] in exact arithmetic; logarithms and
    square roots have no rational value and are left as [NaN]. *)

Module Samples.
Local Open Scope string_scope.

Definition upper_ascii (c : ascii) : ascii :=
  let n := nat_of_ascii c in
  if ((97 <=? n) && (n <=? 122))%nat then ascii_of_nat (n - 32) else c.

Fixpoint upper_string (s : string) : string :=
  match s with
  | EmptyString => EmptyString
  | String c rest => String (upper_ascii c) (upper_string rest)
  end.

Definition string_of_Z (z : Z) : string := NilZero.string_of_int (Z.to_int z).

Fixpoint zeros (n : nat) : string :=
  match n with O => EmptyString | S k => String "0"%char (zeros k) end.

Definition sample_numberToString (x : number) : string :=
  match x with
  | Fin q =>
      if (Z.pos (Qden q) =? 1)%Z then string_of_Z (Qnum q)
      else (string_of_Z (Qnum q) ++ "/" ++ string_of_Z (Z.pos (Qden q)))%string
  | PosInf => "Infinity"
  | NegInf => "-Infinity"
  | NaN => "NaN"
  end.

Definition sample_toFixed (x : number) (digits : nat) : string :=
  match x with
  | Fin q =>
      let scale := (10 ^ Z.of_nat digits)%Z in
      let n := Qfloor (Qabs q * inject_Z scale + (1 # 2)) in
      let whole := string_of_Z (n / scale) in
      let frac := string_of_Z (n mod scale) in
      let sign := match (q ?= Q2Qc 0)%Qc with Lt => "-" | _ => "" end in
      (sign ++ whole
       ++ match digits with
          | O => ""
          | _ => "." ++ zeros (digits - String.length frac) ++ frac
          end)%string
  | _ => sample_numberToString x
  end.

Definition sample_host : Host :=
  {| toUpperCase := upper_string;
     numberToString := sample_numberToString;
     toFixed := sample_toFixed;
     Math_log := fun _ => NaN;
     Math_sqrt := fun _ => NaN;
     coerceToNumber := fun _ => NaN |}.

Definition sample_prices : list Qc := map Q2Qc [1; 2; 1; 2; 3; 2; 2.5]%Q.
Definition flat_prices : list Qc := map Q2Qc [7; 7; 7]%Q.
Definition sample_volumes : list Qc := map Q2Qc [100; 0; 300; 50; 50; 0; 500]%Q.
Definition sample_highs : list Qc := map Q2Qc [1.5; 2.5; 1.5; 2.5; 3.5; 2.5; 3]%Q.
Definition sample_lows : list Qc := map Q2Qc [0.5; 1.5; 0.5; 1.5; 2.5; 1.5; 2]%Q.

(** A body of the proxy, without an [error] property. *)
Definition quote_body : Json :=
  JObject [("symbol"%string, JString "AAPL");
           ("price"%string, JNumber (Q2Qc 100))].

Definition responds_with (body : Json) : string -> FetchResult :=
  fun _ =>
    Responded {| ok := true; status := 200; body_text := "";
                 body_json := Some body |}.

(** A world in which every call of [Math.random] returns [draw]. *)
Definition world_drawing (draw : Q) (net : string -> FetchResult) : World :=
  {| random_draws := fun _ => Q2Qc draw;
     random_count := 0;
     now := Q2Qc 1700000000000;
     network := net |}.

Definition sample_stock : StockData :=
  {| symbol := "AAPL"; price := lit 100; change := lit 1.5;
     changePercent := lit 1.5; volume := lit 1000000; marketCap := None;
     high := lit 101; low := lit 98; open := lit 98.5;
     previousClose := lit 98.5; vwap := None; timestamp := lit 1700000000000 |}.

Definition sample_technical : TechnicalIndicators :=
  {| rsi := lit 55; ema9 := lit 99; ema20 := lit 98; adx := lit 20;
     ti_vwap := lit 99.5; sma50 := lit 97; sma200 := lit 90 |}.

Definition sample_options : OptionsData :=
  {| od_symbol := "AAPL"; expirationDates := []; chains := [];
     impliedVolatility := lit 0.3; ivRank := lit 40; ivPercentile := lit 65;
     skew := lit 2; termStructure := [] |}.

Definition sample_fundamental : FundamentalData :=
  {| eps := lit 6; revenue := lit 50000000000; netIncome := lit 10000000000;
     ebitda := lit 15000000000; peRatio := lit 25; priceToSales := lit 7;
     grossMargin := lit 0.4; operatingMargin := lit 0.3;
     freeCashFlowYield := lit 0.03; pegRatio := lit 1.2; forwardPE := lit 22 |}.

Definition sample_alternative : AlternativeData :=
  {| socialSentiment := lit 0.4; newsScore := lit 0.1; googleTrends := lit 60;
     analystRating := lit 4; targetPrice := lit 0; upgrades := lit 2;
     downgrades := lit 0 |}.

(** Same response, two different random streams, and a world apart in clock
    and draw counter. *)
Definition calm_world : World := world_drawing 0.25 (responds_with quote_body).
Definition lively_world : World := world_drawing 0.75 (responds_with quote_body).
Definition later_world : World :=
  {| random_draws := fun _ => Q2Qc 0.25;
     random_count := 3;
     now := Q2Qc 1700000060000;
     network := responds_with quote_body |}.

(** Arguments that differ from the samples above in every field
    [generateTradeRecommendations] does not read. *)
Definition other_stock : StockData :=
  {| symbol := "MSFT"; price := lit 100; change := lit (-3);
     changePercent := lit 1.5; volume := lit 5; marketCap := Some (lit 7);
     high := lit 200; low := lit 1; open := lit 50;
     previousClose := lit 60; vwap := Some (lit 99); timestamp := lit 0 |}.

Definition other_technical : TechnicalIndicators :=
  {| rsi := lit 55; ema9 := lit 1; ema20 := lit 2; adx := lit 20;
     ti_vwap := lit 3; sma50 := lit 4; sma200 := lit 5 |}.

Definition other_options : OptionsData :=
  {| od_symbol := "MSFT"; expirationDates := ["2025-01-17"%string];
     chains := []; impliedVolatility := lit 0.9; ivRank := lit 1;
     ivPercentile := lit 65; skew := lit (-7); termStructure := [] |}.

Definition other_fundamental : FundamentalData :=
  {| eps := lit 1; revenue := lit 2; netIncome := lit 3; ebitda := lit 4;
     peRatio := lit 5; priceToSales := lit 6; grossMargin := lit 7;
     operatingMargin := lit 8; freeCashFlowYield := lit 9;
     pegRatio := lit 10; forwardPE := lit 11 |}.

Definition other_alternative : AlternativeData :=
  {| socialSentiment := lit 0.4; newsScore := lit (-1); googleTrends := lit 0;
     analystRating := lit 4; targetPrice := lit 500; upgrades := lit 0;
     downgrades := lit 9 |}.

End Samples.
Export Samples.

(** ** The relative strength index over binary64 numbers *)

(** [calculateRSI] once more, statement by statement as in [Indicators], on
    binary64 numbers: every [+], [-] and [/] rounds to nearest, overflows
    and underflows as in the running program. *)

Module Binary64.
Import PrimFloat.
Local Open Scope float_scope.

(** A period or length as a binary64 number (exact below 2^53). *)
Definition of_nat (n : nat) : float := of_uint63 (Uint63.of_Z (Z.of_nat n)).

(** [a[i]]; an index outside the array reads [undefined], [NaN] in
    arithmetic. *)
Definition get (a : list float) (i : Z) : float :=
  if (i <? 0)%Z then nan else nth (Z.to_nat i) a nan.

Definition rsi_step (prices : list float) (acc : float * float) (i : nat)
  : float * float :=
  let '(gains, losses) := acc in
  let len := Z.of_nat (length prices) in
  let change :=
    get prices (len - Z.of_nat i) - get prices (len - Z.of_nat i - 1) in
  if 0 <? change then (gains + change, losses)
  else (gains, losses - change).

Definition rsi_loop (prices : list float) (period : nat) : float * float :=
  fold_left (rsi_step prices) (seq 1 period) (0, 0).

Definition rsi_avgGain (prices : list float) (period : nat) : float :=
  fst (rsi_loop prices period) / of_nat period.

Definition rsi_avgLoss (prices : list float) (period : nat) : float :=
  snd (rsi_loop prices period) / of_nat period.

Definition rsi_rs (prices : list float) (period : nat) : float :=
  rsi_avgGain prices period / rsi_avgLoss prices period.

Definition calculateRSI (prices : list float) (period : nat) : float :=
  if (length prices <? period + 1)%nat then 50
  else
    let rs := rsi_rs prices period in
    100 - 100 / (1 + rs).

(** The consecutive price changes, and the two sums the specification
    speaks of, added up from the most recent change as the loop does. *)
Fixpoint changes (prices : list float) : list float :=
  match prices with
  | a :: (b :: _) as rest => (b - a) :: changes rest
  | _ => []
  end.

Definition sum (l : list float) : float := fold_right PrimFloat.add 0 l.

Definition sum_gains (cs : list float) : float :=
  sum (filter (fun c => 0 <? c) cs).

Definition sum_losses (cs : list float) : float :=
  sum (map abs (filter (fun c => c <? 0) cs)).

(** [100 - 100/(1+RS)], [RS] the sum of the positive changes over the sum
    of the absolute negative changes of the last [period] changes. *)
Definition rsi_formula (prices : list float) (period : nat) : float :=
  let window := most_recent period (changes prices) in
  let RS := sum_gains window / sum_losses window in
  100 - 100 / (1 + RS).

(** The same with each sum divided by [period] before the quotient. *)
Definition rsi_average_formula (prices : list float) (period : nat) : float :=
  let window := most_recent period (changes prices) in
  let averageGain := sum_gains window / of_nat period in
  let averageLoss := sum_losses window / of_nat period in
  let RS := averageGain / averageLoss in
  100 - 100 / (1 + RS).

(** Some change of the window is strictly negative. *)
Definition window_has_loss (prices : list float) (period : nat) : bool :=
  existsb (fun c => c <? 0) (most_recent period (changes prices)).

(** 100, 102, then thirteen times 93: the changes of the window are +2, -9
    and twelve times 0. *)
Definition dip_prices : list float := 100 :: 102 :: repeat 93 13.

(** A loss of 1 followed by a gain of about 1e18. *)
Definition spike_prices : list float := [2; 1; 1e18].

(** The smallest positive binary64 number, then fourteen times 0. *)
Definition tiny_prices : list float := 0x1p-1074 :: repeat 0 14.

End Binary64.

(** ** More of the module: indicators no fetch function calls *)

Module MoreMath.

(** [Math.abs]. *)
Definition Math_abs (x : number) : number :=
  match x with
  | Fin q => Fin (Qcabs q)
  | PosInf | NegInf => PosInf
  | NaN => NaN
  end.

(** [Math.max] and [Math.min] of two numbers: [NaN] if either is. *)
Definition Math_max2 (x y : number) : number :=
  match x, y with
  | NaN, _ | _, NaN => NaN
  | _, _ => if lt x y then y else x
  end.

Definition Math_min2 (x y : number) : number :=
  match x, y with
  | NaN, _ | _, NaN => NaN
  | _, _ => if lt y x then y else x
  end.

(** [Math.max(x, y, z)]. *)
Definition Math_max3 (x y z : number) : number := Math_max2 (Math_max2 x y) z.

End MoreMath.
Export MoreMath.

Module MoreIndicators.
Local Open Scope js_scope.

(** One iteration of the loop of [calculateADX], [i] running from 1 to
    [period]; the state is [(totalTrueRange, totalDMPlus, totalDMMinus)]. *)
Definition adx_step (highs lows closes : list Qc)
           (acc : number * number * number) (i : nat)
  : number * number * number :=
  let '(totalTrueRange, totalDMPlus, totalDMMinus) := acc in
  let idx := (Z.of_nat (length highs) - Z.of_nat i)%Z in
  let prevIdx := (idx - 1)%Z in
  let trueRange :=
    Math_max3 (get highs idx - get lows idx)
              (Math_abs (get highs idx - get closes prevIdx))
              (Math_abs (get lows idx - get closes prevIdx)) in
  let dmPlus :=
    if get highs idx - get highs prevIdx > get lows prevIdx - get lows idx
    then Math_max2 (get highs idx - get highs prevIdx) (lit 0)
    else lit 0 in
  let dmMinus :=
    if get lows prevIdx - get lows idx > get highs idx - get highs prevIdx
    then Math_max2 (get lows prevIdx - get lows idx) (lit 0)
    else lit 0 in
  (totalTrueRange + trueRange, totalDMPlus + dmPlus, totalDMMinus + dmMinus).

Definition calculateADX (highs lows closes : list Qc) (period : nat) : number :=
  if (length highs <? period + 1)%nat then lit 20
  else
    let '(totalTrueRange, totalDMPlus, totalDMMinus) :=
      fold_left (adx_step highs lows closes) (seq 1 period)
                (lit 0, lit 0, lit 0) in
    let diPlus := (totalDMPlus / totalTrueRange) * lit 100 in
    let diMinus := (totalDMMinus / totalTrueRange) * lit 100 in
    let dx := (Math_abs (diPlus - diMinus) / (diPlus + diMinus)) * lit 100 in
    dx || lit 20.

(** The two nested [forEach] of [calculateImpliedVolatility]; the state is
    [(totalIV, count)]. *)
Definition iv_accumulate (chains : list OptionsChain) : number * nat :=
  fold_left
    (fun acc chain =>
       fold_left
         (fun acc call =>
            let '(totalIV, count) := acc in
            (totalIV + oc_impliedVolatility call, S count))
         (calls chain) acc)
    chains (lit 0, O).

Definition calculateImpliedVolatility (chains : list OptionsChain) : number :=
  if (length chains =? 0)%nat then lit 0.25
  else
    let '(totalIV, count) := iv_accumulate chains in
    if (0 <? count)%nat then totalIV / of_nat count else lit 0.25.

End MoreIndicators.
Export MoreIndicators.

(** ** Bounds and counts used by the statements below *)

Module Bounds.
Local Open Scope Qc_scope.

(** A finite number that is not negative, or [NaN]. *)
Definition nonneg_or_NaN (x : number) : Prop :=
  x = NaN \/ exists q : Qc, x = Fin q /\ Q2Qc 0 <= q.

Definition finite_or_NaN (x : number) : Prop :=
  x = NaN \/ exists q : Qc, x = Fin q.

(** What the loop of [calculateADX] keeps true of its three totals. *)
Definition adx_totals_ok (acc : number * number * number) : Prop :=
  let '(totalTrueRange, totalDMPlus, totalDMMinus) := acc in
  nonneg_or_NaN totalTrueRange
  /\ (exists p : Qc, totalDMPlus = Fin p /\ Q2Qc 0 <= p)
  /\ (exists m : Qc, totalDMMinus = Fin m /\ Q2Qc 0 <= m).

(** The implied volatilities of all the calls of all the chains. *)
Definition call_volatilities (chains : list OptionsChain) : list number :=
  map oc_impliedVolatility (flat_map calls chains).

End Bounds.
Export Bounds.

(** ** More sample inputs *)

Module MoreSamples.

Definition sample_contract (k iv : Q) : OptionContract :=
  {| strike := lit k; bid := lit 1; ask := lit 1.2; last := lit 1.1;
     oc_volume := lit 10; openInterest := lit 100;
     oc_impliedVolatility := lit iv; delta := lit 0.5; gamma := lit 0.05;
     theta := lit (-0.02); vega := lit 0.1; rho := lit 0.01 |}.

(** Two calls with implied volatilities 0.3 and 0.5, and one put. *)
Definition sample_chain : OptionsChain :=
  {| expiration := "2030-01-18";
     calls := [sample_contract 100 0.3; sample_contract 105 0.5];
     puts := [sample_contract 95 0.9] |}.

Definition empty_chain : OptionsChain :=
  {| expiration := "2030-01-25"; calls := [];
     puts := [sample_contract 95 0.9] |}.

Definition lower_ascii (c : ascii) : ascii :=
  let n := nat_of_ascii c in
  if ((65 <=? n) && (n <=? 90))%nat then ascii_of_nat (n + 32) else c.

(** [toLowerCase] on ASCII letters. *)
Fixpoint lower_string (s : string) : string :=
  match s with
  | EmptyString => EmptyString
  | String c rest => String (lower_ascii c) (lower_string rest)
  end.

End MoreSamples.
Export MoreSamples.

(** ** More of the data access shim *)

(** [HistoricalVolatilityData] has a [symbol] and a [currentPrice] as other
    interfaces do; they are [hv_symbol] and [hv_currentPrice] here. *)

Module MoreShim.
Local Open Scope js_scope.
Local Open Scope async_scope.

Record MacroData : Type := {
  vix : number;
  tenYearYield : number;
  dxy : number;
  spyFlow : number;
  qqqqFlow : number
}.

Record HistoricalVolatilityData : Type := {
  hv_symbol : string;
  timeframes : Timeframes;
  averageMoves : Timeframes;
  hv_currentPrice : number;
  recommendations : list OptionTradeRecommendation
}.

(** What the promise of [fetchHistoricalVolatility] resolves with. *)
Inductive VolatilityResult : Type :=
| VolatilityFromApi (data : Json)
| VolatilityGenerated (d : HistoricalVolatilityData).

Record SearchResult : Type := {
  sr_symbol : string;
  sr_description : string
}.

(** [s.includes(sub)]: [sub] occurs in [s]. *)
Fixpoint includes (s sub : string) : bool :=
  if String.prefix sub s then true
  else match s with
       | EmptyString => false
       | String _ rest => includes rest sub
       end.

(** [a.slice(0, n)] *)
Definition slice_to {A} (a : list A) (n : nat) : list A := firstn n a.

Definition mockResults : list SearchResult :=
  [ {| sr_symbol := "AAPL"; sr_description := "Apple Inc." |};
    {| sr_symbol := "GOOGL"; sr_description := "Alphabet Inc." |};
    {| sr_symbol := "MSFT"; sr_description := "Microsoft Corporation" |};
    {| sr_symbol := "TSLA"; sr_description := "Tesla Inc." |};
    {| sr_symbol := "NVDA"; sr_description := "NVIDIA Corporation" |} ].

Section WithLowerCase.
(** [String.prototype.toLowerCase], a built-in as [toUpperCase] is. *)
Variable toLowerCase : string -> string.

Definition searchStocks (query : string) : Async (list SearchResult) :=
  ret (slice_to
         (filter
            (fun stock =>
               includes (toLowerCase (sr_symbol stock)) (toLowerCase query)
               || includes (toLowerCase (sr_description stock))
                           (toLowerCase query))%bool
            mockResults)
         10).
(** A stock matches when the lower-cased query occurs in its lower-cased
    symbol or description. *)
Definition matches (query : string) (stock : SearchResult) : Prop :=
  (exists pre post,
      toLowerCase (sr_symbol stock)
      = (pre ++ toLowerCase query ++ post)%string)
  \/ (exists pre post,
         toLowerCase (sr_description stock)
         = (pre ++ toLowerCase query ++ post)%string).

End WithLowerCase.

Section WithHost.
Context {host : Host}.

Definition fetchAlternativeData (symbol : string) : Async AlternativeData :=
  r_social <- Math_random ;;
  r_news <- Math_random ;;
  r_trends <- Math_random ;;
  r_rating <- Math_random ;;
  r_upgrades <- Math_random ;;
  r_downgrades <- Math_random ;;
  ret {| socialSentiment := r_social * lit 2 - lit 1;
         newsScore := r_news * lit 2 - lit 1;
         googleTrends := r_trends * lit 100;
         analystRating := lit 2 + r_rating * lit 3;
         targetPrice := lit 0;
         upgrades := Math_floor (r_upgrades * lit 5);
         downgrades := Math_floor (r_downgrades * lit 3) |}.

Definition fetchMacroData : Async MacroData :=
  r_vix <- Math_random ;;
  r_yield <- Math_random ;;
  r_dxy <- Math_random ;;
  r_spy <- Math_random ;;
  r_qqq <- Math_random ;;
  ret {| vix := lit 15 + r_vix * lit 20;
         tenYearYield := lit 4.0 + r_yield * lit 1.5;
         dxy := lit 100 + r_dxy * lit 10;
         spyFlow := r_spy * lit 2000 - lit 1000;
         qqqqFlow := r_qqq * lit 1000 - lit 500 |}.

Definition generateMockVolatilityData (symbol : string)
  : Async HistoricalVolatilityData :=
  r <- Math_random ;;
  let baseVol := lit 20 + r * lit 40 in
  r <- Math_random ;;
  let currentPrice := lit 100 + r * lit 400 in
  r_day <- Math_random ;;
  r_week <- Math_random ;;
  r_three <- Math_random ;;
  r_six <- Math_random ;;
  let volatilities :=
    {| oneDay := baseVol * (lit 0.3 + r_day * lit 0.4);
       oneWeek := baseVol * (lit 0.6 + r_week * lit 0.3);
       oneMonth := baseVol;
       threeMonths := baseVol * (lit 0.8 + r_three * lit 0.4);
       sixMonths := baseVol * (lit 0.9 + r_six * lit 0.3) |} in
  let averageMoves :=
    {| oneDay := (oneDay volatilities * currentPrice) / lit 100;
       oneWeek := (oneWeek volatilities * currentPrice) / lit 100;
       oneMonth := (oneMonth volatilities * currentPrice) / lit 100;
       threeMonths := (threeMonths volatilities * currentPrice) / lit 100;
       sixMonths := (sixMonths volatilities * currentPrice) / lit 100 |} in
  let recommendations :=
    generateOptionRecommendations volatilities averageMoves currentPrice in
  ret {| hv_symbol := toUpperCase symbol;
         timeframes := volatilities;
         averageMoves := averageMoves;
         hv_currentPrice := currentPrice;
         recommendations := recommendations |}.

Definition fetchHistoricalVolatility (symbol : string)
  : Async VolatilityResult :=
  try_catch
    (let apiUrl := ("/api/volatility/" ++ symbol)%string in
     response <- fetch apiUrl ;;
     if negb (ok response) then
       errorText <- Response_text response ;;
       throw (ApiRequestFailed (status response) errorText)
     else
       data <- Response_json response ;;
       ret (VolatilityFromApi data))
    (fun error =>
       d <- generateMockVolatilityData symbol ;;
       ret (VolatilityGenerated d)).

End WithHost.

(** The contract of [Math.random]: every result is in [0, 1). *)
Definition unit_draws (w : World) : Prop :=
  forall i, (Q2Qc 0 <= random_draws w i)%Qc /\ (random_draws w i < Q2Qc 1)%Qc.

(** A finite number in [[lo, hi)]. *)
Definition in_range (lo hi : Q) (x : number) : Prop :=
  exists q : Qc, x = Fin q /\ (Q2Qc lo <= q)%Qc /\ (q < Q2Qc hi)%Qc.

(** A finite number in [[lo, hi]]. *)
Definition in_closed_range (lo hi : Q) (x : number) : Prop :=
  exists q : Qc, x = Fin q /\ (Q2Qc lo <= q)%Qc /\ (q <= Q2Qc hi)%Qc.

(** A finite whole number. *)
Definition is_integer (x : number) : Prop :=
  exists z : Z, x = Fin (Q2Qc (inject_Z z)).

End MoreShim.
Export MoreShim.

(** ** The catalog of option strategies *)

Module OptionCatalog.
Local Open Scope js_scope.

(** What does not depend on the price in an option recommendation:
    strategy, expected move, risk level and profit potential. *)
Definition option_summary (r : OptionTradeRecommendation)
  : string * number * Level * Level :=
  (strategy r, expectedMove r, riskLevel r, profitPotential r).

(** The recommendations for given volatilities, in the order of the
    source. *)
Definition expected_options (volatilities averageMoves : Timeframes)
  : list (string * number * Level * Level) :=
  ((if oneMonth volatilities > lit 30
    then [("Short Straddle"%string, oneMonth averageMoves, High, High);
          ("Iron Condor"%string, oneMonth averageMoves, Medium, Medium)]
    else [])
   ++ (if oneMonth volatilities < lit 20
       then [("Long Straddle"%string, oneMonth averageMoves, Medium, High)]
       else [])
   ++ (if oneWeek volatilities > threeMonths volatilities * lit 1.2
       then [("Calendar Spread"%string, oneWeek averageMoves, Low, Medium)]
       else [])
   ++ [("Cash-Secured Put"%string, oneMonth averageMoves, Low, Low)])%list.

End OptionCatalog.
Export OptionCatalog.

(** ** Mock option chains *)

Module Chains.
Local Open Scope js_scope.
Local Open Scope async_scope.

(** A loop counter used as a number. *)
Definition of_Z (z : Z) : number := Fin (Q2Qc (inject_Z z)).

(** [array.map(f)] with a callback that draws random numbers: the elements
    are visited in order. *)
Fixpoint map_async {A B} (f : A -> Async B) (a : list A) : Async (list B) :=
  match a with
  | [] => ret []
  | x :: rest =>
      y <- f x ;;
      ys <- map_async f rest ;;
      ret (y :: ys)
  end.

(** A [for] loop over the counters [steps] whose body draws random
    numbers. *)
Fixpoint for_async {S A} (body : S -> A -> Async S) (steps : list A) (s : S)
  : Async S :=
  match steps with
  | [] => ret s
  | i :: rest =>
      s' <- body s i ;;
      for_async body rest s'
  end.

(** The values of [i] in [for (let i = -10; i <= 10; i++)]. *)
Definition strike_counters : list Z :=
  map (fun k => (Z.of_nat k - 10)%Z) (seq 0 21).

(** A bound on prices, far below the overflow of binary64 (about
    1.8e308). *)
Definition largest_price : Qc := Q2Qc (inject_Z (10 ^ 300)).

(** The strike of the iteration [i]. *)
Definition strike_at (currentPrice : number) (i : Z) : number :=
  Math_round (currentPrice + of_Z i * currentPrice * lit 0.025).

(** One iteration of the loop of [generateOptionsChains]; the state is
    [(calls, puts)].  The local [daysToExpiry] of the source is computed
    and never used, and is left out. *)
Definition chain_step (currentPrice : number)
           (acc : list OptionContract * list OptionContract) (i : Z)
  : Async (list OptionContract * list OptionContract) :=
  let '(calls, puts) := acc in
  let strike := strike_at currentPrice i in
  r <- Math_random ;;
  let callIV := lit 0.25 + r * lit 0.3 in
  r <- Math_random ;;
  let putIV := lit 0.25 + r * lit 0.3 in
  c_bid <- Math_random ;;
  c_ask <- Math_random ;;
  c_last <- Math_random ;;
  c_volume <- Math_random ;;
  c_openInterest <- Math_random ;;
  c_gamma <- Math_random ;;
  c_theta <- Math_random ;;
  c_vega <- Math_random ;;
  c_rho <- Math_random ;;
  let calls :=
    push calls
         [ {| strike := strike;
              bid := Math_max2 (lit 0.05) (c_bid * lit 5);
              ask := Math_max2 (lit 0.1) (c_ask * lit 6);
              last := Math_max2 (lit 0.05) (c_last * lit 5.5);
              oc_volume := Math_floor (c_volume * lit 1000);
              openInterest := Math_floor (c_openInterest * lit 5000);
              oc_impliedVolatility := callIV;
              delta :=
                Math_max2 (lit 0)
                          (Math_min2 (lit 1)
                                     (lit 0.5
                                      + (currentPrice - strike) / currentPrice));
              gamma := c_gamma * lit 0.1;
              theta := neg c_theta * lit 0.05;
              vega := c_vega * lit 0.2;
              rho := c_rho * lit 0.01 |} ] in
  p_bid <- Math_random ;;
  p_ask <- Math_random ;;
  p_last <- Math_random ;;
  p_volume <- Math_random ;;
  p_openInterest <- Math_random ;;
  p_gamma <- Math_random ;;
  p_theta <- Math_random ;;
  p_vega <- Math_random ;;
  p_rho <- Math_random ;;
  let puts :=
    push puts
         [ {| strike := strike;
              bid := Math_max2 (lit 0.05) (p_bid * lit 5);
              ask := Math_max2 (lit 0.1) (p_ask * lit 6);
              last := Math_max2 (lit 0.05) (p_last * lit 5.5);
              oc_volume := Math_floor (p_volume * lit 1000);
              openInterest := Math_floor (p_openInterest * lit 5000);
              oc_impliedVolatility := putIV;
              delta :=
                Math_max2 (neg (lit 1))
                          (Math_min2 (lit 0)
                                     (neg (lit 0.5)
                                      + (currentPrice - strike) / currentPrice));
              gamma := p_gamma * lit 0.1;
              theta := neg p_theta * lit 0.05;
              vega := p_vega * lit 0.2;
              rho := neg p_rho * lit 0.01 |} ] in
  ret (calls, puts).

Definition generateOptionsChains (currentPrice : number)
           (expirations : list string) : Async (list OptionsChain) :=
  map_async
    (fun expiration =>
       acc <- for_async (chain_step currentPrice) strike_counters ([], []) ;;
       let '(calls, puts) := acc in
       ret {| expiration := expiration; calls := calls; puts := puts |})
    expirations.

(** The world after [j] more draws of [Math.random]. *)
Definition advance (w : World) (j : nat) : World :=
  {| random_draws := random_draws w;
     random_count := (j + random_count w)%nat;
     now := now w;
     network := network w |}.

(** The ranges the made-up quotes of a contract stay in. *)
Definition quotes_ok (c : OptionContract) : Prop :=
  in_range 0.25 0.55 (oc_impliedVolatility c)
  /\ in_closed_range 0.05 5 (bid c)
  /\ in_closed_range 0.1 6 (ask c)
  /\ in_closed_range 0.05 5.5 (last c)
  /\ in_range 0 1000 (oc_volume c)
  /\ in_range 0 5000 (openInterest c).

Definition call_ok (c : OptionContract) : Prop :=
  quotes_ok c /\ in_closed_range 0 1 (delta c).

Definition put_ok (c : OptionContract) : Prop :=
  quotes_ok c /\ in_closed_range (-1) 0 (delta c).

(** The strikes of a chain built for the price [currentPrice]. *)
Definition chain_shape (currentPrice : number) (chain : OptionsChain) : Prop :=
  length (calls chain) = 21%nat
  /\ length (puts chain) = 21%nat
  /\ map strike (calls chain) = map (strike_at currentPrice) strike_counters
  /\ map strike (puts chain) = map strike (calls chain).

Definition chain_ok (chain : OptionsChain) : Prop :=
  Forall call_ok (calls chain) /\ Forall put_ok (puts chain).

End Chains.
Export Chains.

(** ** Mock fundamentals and the term structure *)

Module MoreMocks.
Local Open Scope js_scope.
Local Open Scope async_scope.

(** [Math.ceil] *)
Definition Math_ceil (x : number) : number :=
  match x with
  | Fin q => Fin (Q2Qc (inject_Z (Qceiling q)))
  | _ => x
  end.

Definition fetchFundamentalData (symbol : string) : Async FundamentalData :=
  r_eps <- Math_random ;;
  r_revenue <- Math_random ;;
  r_netIncome <- Math_random ;;
  r_ebitda <- Math_random ;;
  r_peRatio <- Math_random ;;
  r_priceToSales <- Math_random ;;
  r_grossMargin <- Math_random ;;
  r_operatingMargin <- Math_random ;;
  r_freeCashFlowYield <- Math_random ;;
  r_pegRatio <- Math_random ;;
  r_forwardPE <- Math_random ;;
  ret {| eps := lit 5 + r_eps * lit 10;
         revenue := lit 50000000000 + r_revenue * lit 100000000000;
         netIncome := lit 10000000000 + r_netIncome * lit 20000000000;
         ebitda := lit 15000000000 + r_ebitda * lit 25000000000;
         peRatio := lit 15 + r_peRatio * lit 20;
         priceToSales := lit 2 + r_priceToSales * lit 8;
         grossMargin := lit 0.3 + r_grossMargin * lit 0.4;
         operatingMargin := lit 0.15 + r_operatingMargin * lit 0.25;
         freeCashFlowYield := lit 0.02 + r_freeCashFlowYield * lit 0.08;
         pegRatio := lit 0.8 + r_pegRatio * lit 1.5;
         forwardPE := lit 12 + r_forwardPE * lit 18 |}.

(** A finite number strictly below another. *)
Definition below (x y : number) : Prop :=
  exists a b : Qc, x = Fin a /\ y = Fin b /\ (a < b)%Qc.

(** The milliseconds of a day, [1000 * 60 * 60 * 24]. *)
Definition ms_per_day : Qc := Q2Qc 86400000.

Section WithDates.
(** [new Date(s).getTime()]: the time value of the date the string [s]
    denotes, [NaN] when it denotes none. *)
Variable Date_getTime : string -> number.

Definition generateTermStructure (expirations : list string)
  : Async (list TermStructurePoint) :=
  map_async
    (fun expiration =>
       t <- Date_now ;;
       let daysToExpiry :=
         Math_ceil ((Date_getTime expiration - t)
                    / (lit 1000 * lit 60 * lit 60 * lit 24)) in
       r <- Math_random ;;
       ret {| tsp_expiration := expiration;
              daysToExpiry := daysToExpiry;
              tsp_impliedVolatility := lit 0.2 + r * lit 0.4 |})
    expirations.

(** [daysToExpiry] is the least whole number of days that reaches the
    expiration from the time [t0], and [NaN] for a string that is no
    date. *)
Definition days_ok (t0 : Qc) (pt : TermStructurePoint) : Prop :=
  (forall t : Qc,
      Date_getTime (tsp_expiration pt) = Fin t ->
      exists d : Z,
        daysToExpiry pt = Fin (Q2Qc (inject_Z d))
        /\ (t0 + (Q2Qc (inject_Z d) - Q2Qc 1) * ms_per_day < t)%Qc
        /\ (t <= t0 + Q2Qc (inject_Z d) * ms_per_day)%Qc)
  /\ (Date_getTime (tsp_expiration pt) = NaN -> daysToExpiry pt = NaN).

End WithDates.

End MoreMocks.
Export MoreMocks.

(** ** Facts about numbers *)

Module NumFacts.
Local Open Scope Qc_scope.

(** Turns a goal on canonical rationals into one on [Q], where [lra] and
    [nra] apply. *)
Ltac qc2q :=
  unfold Qclt, Qcle, Qcdiv, Qcminus, Qcinv, Qcplus, Qcmult, Qcopp, Q2Qc in *;
  cbn [this] in *;
  rewrite ?Qred_correct in *.

Lemma Qc_eq_bool_refl (x : Qc) : Qc_eq_bool x x = true.
Proof.
  unfold Qc_eq_bool. destruct (Qc_eq_dec x x); [reflexivity | congruence].
Qed.

Lemma Qc_eq_bool_neq (x y : Qc) : x <> y -> Qc_eq_bool x y = false.
Proof.
  intros H. unfold Qc_eq_bool.
  destruct (Qc_eq_dec x y); [contradiction | reflexivity].
Qed.

Lemma Qcltb_lt (a b : Qc) : Qcltb a b = true <-> a < b.
Proof.
  unfold Qcltb. rewrite Qclt_alt. destruct (a ?= b); split; congruence.
Qed.

Lemma Qcltb_ge (a b : Qc) : Qcltb a b = false <-> b <= a.
Proof.
  split; intros H.
  - apply Qcnot_lt_le. intros L. apply Qcltb_lt in L. congruence.
  - destruct (Qcltb a b) eqn:E; [| reflexivity].
    apply Qcltb_lt in E. exfalso. exact (Qcle_not_lt _ _ H E).
Qed.

Lemma Qcpos_neq (p : Qc) : Q2Qc 0 < p -> p <> Q2Qc 0.
Proof. intros H E. rewrite E in H. exact (Qclt_not_eq _ _ H eq_refl). Qed.

Lemma nat_payload_pos (n : nat) :
  (0 < n)%nat -> Q2Qc 0 < Q2Qc (inject_Z (Z.of_nat n)).
Proof. intros H. qc2q. unfold Qlt. simpl. lia. Qed.

Lemma sign_pos (q : Qc) : Q2Qc 0 < q -> sign q = Gt.
Proof. intros H. apply Qcgt_alt. exact H. Qed.

Lemma sign_neg (q : Qc) : q < Q2Qc 0 -> sign q = Lt.
Proof. intros H. apply Qclt_alt. exact H. Qed.

Lemma Qcdiv_pos (g p : Qc) : Q2Qc 0 < g -> Q2Qc 0 < p -> Q2Qc 0 < g / p.
Proof.
  intros Hg Hp. qc2q. pose proof (Qinv_lt_0_compat _ Hp). nra.
Qed.

Lemma Qcdiv_neg (g p : Qc) : g < Q2Qc 0 -> Q2Qc 0 < p -> g / p < Q2Qc 0.
Proof.
  intros Hg Hp. qc2q. pose proof (Qinv_lt_0_compat _ Hp). nra.
Qed.

Lemma rsi_quotient_range (x : Qc) :
  Q2Qc 0 <= x ->
  Q2Qc 0 <= Q2Qc 100 - Q2Qc 100 / (Q2Qc 1 + x)
  /\ Q2Qc 100 - Q2Qc 100 / (Q2Qc 1 + x) < Q2Qc 100.
Proof.
  intros Hx. qc2q.
  assert (Hd : (0 < 1 + x)%Q) by lra.
  pose proof (Qinv_lt_0_compat _ Hd) as Hy.
  assert (Hm : ((1 + x) * / (1 + x) == 1)%Q) by (apply Qmult_inv_r; lra).
  set (y := (/ (1 + x))%Q) in *.
  split; nra.
Qed.

Lemma Qcdiv_zero (p : Qc) : Q2Qc 0 / p = Q2Qc 0.
Proof. unfold Qcdiv. ring. Qed.

Lemma sign_div_pos (g p : Qc) : Q2Qc 0 < p -> sign (g / p) = sign g.
Proof.
  intros Hp.
  destruct (Qc_dec g (Q2Qc 0)) as [[Hg | Hg] | Hg].
  - rewrite (sign_neg _ Hg). apply sign_neg, Qcdiv_neg; assumption.
  - rewrite (sign_pos _ Hg). apply sign_pos, Qcdiv_pos; assumption.
  - subst g. rewrite Qcdiv_zero. reflexivity.
Qed.

Local Open Scope js_scope.

Lemma div_Fin (a b : Qc) : b <> Q2Qc 0 -> Fin a / Fin b = Fin (a / b)%Qc.
Proof. intros H. unfold div. rewrite (Qc_eq_bool_neq _ _ H). reflexivity. Qed.

Lemma div_Fin_zero (a : Qc) : Fin a / Fin (Q2Qc 0) = signed_inf (sign a).
Proof. reflexivity. Qed.

Lemma add_comm (x y : number) : x + y = y + x.
Proof.
  destruct x, y; simpl; try reflexivity. f_equal. ring.
Qed.

Lemma add_assoc (x y z : number) : x + (y + z) = (x + y) + z.
Proof.
  destruct x, y, z; simpl; try reflexivity. f_equal. ring.
Qed.

Lemma add_zero_l (x : number) : lit 0 + x = x.
Proof. destruct x; simpl; try reflexivity. f_equal. ring. Qed.

Lemma sub_Fin (a b : Qc) : Fin a - Fin b = Fin (a - b)%Qc.
Proof. reflexivity. Qed.

Lemma lt_Fin (a b : Qc) : (Fin a < Fin b) = Qcltb a b.
Proof. reflexivity. Qed.

(** With a positive period the quotient of the averages is the quotient of
    the sums, also when the sum of the losses is zero. *)
End NumFacts.

(** ** Arrays as lists *)

Module ListFacts.
Import NumFacts.

Lemma get_nth (a : list Qc) (i : nat) (d : Qc) :
  (i < length a)%nat -> get a (Z.of_nat i) = Fin (nth i a d).
Proof.
  intros H. unfold get.
  destruct (Z.ltb_spec (Z.of_nat i) 0); [lia |].
  rewrite Nat2Z.id, (nth_error_nth' a d H). reflexivity.
Qed.

Lemma get_outside (a : list Qc) (i : nat) :
  (length a <= i)%nat -> get a (Z.of_nat i) = NaN.
Proof.
  intros H. unfold get.
  destruct (Z.ltb_spec (Z.of_nat i) 0); [reflexivity |].
  rewrite Nat2Z.id. apply nth_error_None in H. rewrite H. reflexivity.
Qed.

Lemma changes_length (prices : list Qc) :
  length (changes prices) = (length prices - 1)%nat.
Proof.
  induction prices as [| a [| b rest] IH]; try reflexivity.
  change (changes (a :: b :: rest)) with ((b - a)%Qc :: changes (b :: rest)).
  cbn [length] in *. rewrite IH. lia.
Qed.

Lemma changes_nth (prices : list Qc) (i : nat) (d : Qc) :
  (S i < length prices)%nat ->
  nth i (changes prices) d = (nth (S i) prices d - nth i prices d)%Qc.
Proof.
  revert i. induction prices as [| a [| b rest] IH]; intros i H.
  - inversion H.
  - cbn in H. lia.
  - change (changes (a :: b :: rest)) with ((b - a)%Qc :: changes (b :: rest)).
    destruct i as [| i]; [reflexivity |].
    cbn [nth]. rewrite IH by (cbn [length] in *; lia). reflexivity.
Qed.

Lemma skipn_nth_cons {A} (l : list A) (j : nat) (d : A) :
  (j < length l)%nat -> skipn j l = nth j l d :: skipn (S j) l.
Proof.
  revert j. induction l as [| x l IH]; intros j H; [inversion H |].
  destruct j as [| j]; [reflexivity |].
  cbn [skipn nth]. apply IH. cbn in H. lia.
Qed.

Lemma most_recent_S {A} (l : list A) (k : nat) (d : A) :
  (S k <= length l)%nat ->
  most_recent (S k) l = nth (length l - S k) l d :: most_recent k l.
Proof.
  intros H. unfold most_recent.
  rewrite (@skipn_nth_cons _ l (length l - S k) d) by lia.
  replace (S (length l - S k)) with (length l - k)%nat by lia. reflexivity.
Qed.

Lemma most_recent_0 {A} (l : list A) : most_recent 0 l = [].
Proof. unfold most_recent. rewrite Nat.sub_0_r. apply skipn_all. Qed.

End ListFacts.

(** ** The relative strength index *)

Module RSIFacts.
Import NumFacts ListFacts.
Local Open Scope Qc_scope.

Lemma sum_gains_cons (c : Qc) (cs : list Qc) :
  sum_gains (c :: cs) = (if Qcltb (Q2Qc 0) c then c else Q2Qc 0) + sum_gains cs.
Proof.
  unfold sum_gains. cbn [filter].
  destruct (Qcltb (Q2Qc 0) c); cbn [Qcsum fold_right]; [reflexivity | ring].
Qed.

Lemma sum_losses_cons (c : Qc) (cs : list Qc) :
  sum_losses (c :: cs) = (if Qcltb c (Q2Qc 0) then - c else Q2Qc 0) + sum_losses cs.
Proof.
  unfold sum_losses. cbn [filter].
  destruct (Qcltb c (Q2Qc 0)) eqn:E; cbn [map Qcsum fold_right]; [| ring].
  rewrite Qcabs_neg; [reflexivity |].
  apply Qclt_le_weak, Qcltb_lt, E.
Qed.

(** The body of the loop at counter [i], on finite accumulators: the
    change it reads is the one [i] places from the end. *)
Lemma rsi_step_Fin (prices : list Qc) (g l : Qc) (i : nat) :
  (1 <= i)%nat -> (i + 1 <= length prices)%nat ->
  let c := nth (length (changes prices) - i) (changes prices) (Q2Qc 0) in
  rsi_step prices (Fin g, Fin l) i =
  (Fin (g + (if Qcltb (Q2Qc 0) c then c else Q2Qc 0)),
   Fin (l + (if Qcltb c (Q2Qc 0) then - c else Q2Qc 0))).
Proof.
  intros Hi Hlen c. unfold rsi_step.
  replace (Z.of_nat (length prices) - Z.of_nat i)%Z
    with (Z.of_nat (length prices - i)) by lia.
  replace (Z.of_nat (length prices - i) - 1)%Z
    with (Z.of_nat (length prices - i - 1)) by lia.
  rewrite !(@get_nth prices _ (Q2Qc 0)) by lia.
  rewrite sub_Fin.
  assert (Ec : (nth (length prices - i) prices (Q2Qc 0)
                - nth (length prices - i - 1) prices (Q2Qc 0)) = c).
  { unfold c. rewrite changes_length.
    replace (length prices - 1 - i)%nat with (length prices - i - 1)%nat by lia.
    rewrite changes_nth by lia.
    replace (S (length prices - i - 1)) with (length prices - i)%nat by lia.
    reflexivity. }
  rewrite Ec. unfold gt, lit. rewrite lt_Fin.
  destruct (Qcltb (Q2Qc 0) c) eqn:Epos.
  - assert (Qcltb c (Q2Qc 0) = false) as ->.
    { apply Qcltb_ge, Qclt_le_weak, Qcltb_lt, Epos. }
    cbn. f_equal. f_equal. ring.
  - cbn. f_equal.
    + f_equal. ring.
    + f_equal.
      destruct (Qcltb c (Q2Qc 0)) eqn:Eneg; [reflexivity |].
      apply Qcltb_ge in Epos, Eneg.
      rewrite (Qcle_antisym _ _ Epos Eneg). ring.
Qed.

(** After [k] iterations the accumulators hold the two sums over the last
    [k] changes. *)
Lemma rsi_loop_sums (prices : list Qc) (k : nat) :
  (k + 1 <= length prices)%nat ->
  rsi_loop prices k =
  (Fin (sum_gains (most_recent k (changes prices))),
   Fin (sum_losses (most_recent k (changes prices)))).
Proof.
  unfold rsi_loop. induction k as [| k IH]; intros H.
  - rewrite most_recent_0. reflexivity.
  - rewrite seq_S, fold_left_app, IH by lia. cbn [fold_left Nat.add].
    rewrite rsi_step_Fin by lia. cbv zeta.
    rewrite (@most_recent_S _ (changes prices) k (Q2Qc 0))
      by (rewrite changes_length; lia).
    rewrite sum_gains_cons, sum_losses_cons.
    f_equal; f_equal; ring.
Qed.

Lemma sum_gains_nonneg (cs : list Qc) : Q2Qc 0 <= sum_gains cs.
Proof.
  induction cs as [| c cs IH]; [apply Qcle_refl |].
  rewrite sum_gains_cons.
  destruct (Qcltb (Q2Qc 0) c) eqn:E.
  - apply Qcltb_lt in E. qc2q. lra.
  - qc2q. lra.
Qed.

Lemma sum_losses_nonneg (cs : list Qc) : Q2Qc 0 <= sum_losses cs.
Proof.
  induction cs as [| c cs IH]; [apply Qcle_refl |].
  rewrite sum_losses_cons.
  destruct (Qcltb c (Q2Qc 0)) eqn:E.
  - apply Qcltb_lt in E. qc2q. lra.
  - qc2q. lra.
Qed.

Lemma sum_losses_pos (cs : list Qc) :
  existsb (fun c => Qcltb c (Q2Qc 0)) cs = true -> Q2Qc 0 < sum_losses cs.
Proof.
  induction cs as [| c cs IH]; [discriminate |].
  cbn [existsb]. rewrite sum_losses_cons. intros H.
  pose proof (sum_losses_nonneg cs) as Hn.
  destruct (Qcltb c (Q2Qc 0)) eqn:E.
  - apply Qcltb_lt in E. qc2q. lra.
  - cbn in H. specialize (IH H). qc2q. lra.
Qed.

Lemma sum_losses_zero (cs : list Qc) :
  existsb (fun c => Qcltb c (Q2Qc 0)) cs = false -> sum_losses cs = Q2Qc 0.
Proof.
  induction cs as [| c cs IH]; [reflexivity |].
  cbn [existsb]. rewrite sum_losses_cons. intros H.
  apply orb_false_elim in H as [E H]. rewrite E, (IH H). ring.
Qed.

End RSIFacts.

(** ** Loops over array indices *)

Module LoopFacts.
Import NumFacts ListFacts.
Local Open Scope js_scope.

Lemma get_middle (pre : list Qc) (x : Qc) (rest : list Qc) :
  get (pre ++ x :: rest) (Z.of_nat (length pre)) = Fin x.
Proof.
  rewrite (get_nth _ _ x) by (rewrite length_app; cbn; lia).
  rewrite nth_middle. reflexivity.
Qed.

Lemma get_last (a : list Qc) (d : Qc) :
  a <> [] -> get a (Z.of_nat (length a) - 1) = Fin (List.last a d).
Proof.
  intros H. destruct (exists_last H) as [pre [x ->]].
  rewrite length_app, last_last. cbn [length].
  replace (Z.of_nat (length pre + 1) - 1)%Z with (Z.of_nat (length pre)) by lia.
  apply get_middle.
Qed.

Lemma or_else_Fin (v : Qc) : Fin v || lit 0 = Fin v.
Proof.
  unfold or_else, truthy, Qc_eq_bool.
  destruct (Qc_eq_dec v (Q2Qc 0)) as [-> | _]; reflexivity.
Qed.

(** A left-to-right sum of finite numbers is their exact sum. *)
Lemma fold_left_add_Fin (l : list Qc) (a : Qc) :
  fold_left (fun sum price => sum + Fin price) l (Fin a) = Fin (a + Qcsum l)%Qc.
Proof.
  revert a. induction l as [| x l IH]; intros a.
  - cbn. now rewrite Qcplus_0_r.
  - cbn [fold_left add]. rewrite IH. cbn. now rewrite Qcplus_assoc.
Qed.

(** A loop that reads [a[i]] for [i] from [length pre] to the end visits
    the elements after [pre] in order. *)
Lemma fold_left_indices (f : number -> number -> number)
      (pre rest : list Qc) (e : number) :
  fold_left (fun acc i => f (get (pre ++ rest) (Z.of_nat i)) acc)
            (seq (length pre) (length rest)) e
  = fold_left (fun acc p => f (Fin p) acc) rest e.
Proof.
  revert pre e. induction rest as [| x rest IH]; intros pre e; [reflexivity |].
  cbn [length seq fold_left]. rewrite get_middle.
  replace (pre ++ x :: rest)%list with ((pre ++ [x]) ++ rest)%list
    by (rewrite <- app_assoc; reflexivity).
  replace (S (length pre)) with (length (pre ++ [x]))
    by (rewrite length_app; cbn; lia).
  apply IH.
Qed.

Lemma fold_left_from (f : number -> number -> number)
      (a : list Qc) (s : nat) (e : number) :
  (s <= length a)%nat ->
  fold_left (fun acc i => f (get a (Z.of_nat i)) acc)
            (seq s (length a - s)) e
  = fold_left (fun acc p => f (Fin p) acc) (skipn s a) e.
Proof.
  intros H.
  pose proof (fold_left_indices f (firstn s a) (skipn s a) e) as E.
  rewrite firstn_skipn, length_firstn, Nat.min_l, length_skipn in E by exact H.
  exact E.
Qed.

Lemma fold_left_add_total (f : number -> number) (l : list number) (a : number) :
  fold_left (fun sum x => sum + f x) l a = a + total (map f l).
Proof.
  revert a. induction l as [| x l IH]; intros a; cbn [fold_left map].
  - unfold total. cbn [fold_right]. rewrite add_comm, add_zero_l. reflexivity.
  - rewrite IH. unfold total. cbn [fold_right]. apply eq_sym, add_assoc.
Qed.

End LoopFacts.

(** ** Concrete runs *)

Module Runs.
Local Open Scope js_scope.

(** Closes a goal [x = y] between computed finite numbers. *)
Ltac run_number := vm_compute; apply f_equal, Qc_is_canon; reflexivity.

(** Changes +0.5, -1, +1, +1 over the last four steps: RS = 2.5. *)
Example calculateRSI_sample : calculateRSI sample_prices 4 = lit (500 # 7).
Proof. run_number. Qed.

(** Only gains in the window: [rs] is [Infinity] and the result 100. *)
Example calculateRSI_rising :
  calculateRSI (map Q2Qc [1; 2; 3]%Q) 2 = lit 100.
Proof. run_number. Qed.

(** A flat window: [0 / 0]. *)
Example calculateRSI_flat : calculateRSI flat_prices 2 = NaN.
Proof. reflexivity. Qed.

Example calculateEMA_sample :
  calculateEMA (map Q2Qc [1; 2; 3; 4]%Q) 2 = lit 3.5.
Proof. run_number. Qed.

(** With period 0 the seed is the mean of no prices. *)
Example calculateEMA_period_zero : calculateEMA [] 0 = NaN.
Proof. reflexivity. Qed.

Example calculateVWAP_sample :
  calculateVWAP (map Q2Qc [10; 20]%Q) (map Q2Qc [1; 3]%Q)
                (map Q2Qc [11; 21]%Q) (map Q2Qc [9; 19]%Q)
  = lit 17.5.
Proof. run_number. Qed.

(** A missing volume counts as 0, a missing high makes the result [NaN]. *)
Example calculateVWAP_ragged :
  calculateVWAP (map Q2Qc [10; 20]%Q) (map Q2Qc [1]%Q)
                (map Q2Qc [11]%Q) (map Q2Qc [9; 19]%Q)
  = NaN.
Proof. reflexivity. Qed.

Example fetchStockData_network_failure :
  match fst (fetchStockData (host := sample_host) "aapl"
               (world_drawing 0.5 (fun _ => NetworkFailure))) with
  | Resolved (Generated d) => (symbol d, price d) = ("AAPL"%string, lit 300)
  | _ => False
  end.
Proof. vm_compute. reflexivity. Qed.

Example fetchStockData_success :
  fst (fetchStockData (host := sample_host) "aapl" calm_world)
  = Resolved (FromApi quote_body).
Proof. reflexivity. Qed.

Example generateOptionRecommendations_sample :
  map strategy
      (generateOptionRecommendations
         (host := sample_host)
         {| oneDay := lit 10; oneWeek := lit 50; oneMonth := lit 35;
            threeMonths := lit 30; sixMonths := lit 30 |}
         {| oneDay := lit 1; oneWeek := lit 5; oneMonth := lit 35;
            threeMonths := lit 30; sixMonths := lit 30 |}
         (lit 100))
  = ["Short Straddle"; "Iron Condor"; "Calendar Spread"; "Cash-Secured Put"]%string.
Proof. reflexivity. Qed.

Example generateTradeRecommendations_sample :
  map legs
      (generateTradeRecommendations
         (host := sample_host) "AAPL" sample_stock sample_options
         sample_fundamental sample_alternative sample_technical)
  = ["Buy 100C / Sell 105C (30 DTE)"; "Sell 95P (45 DTE)";
     "Sell 98P/102C, Buy 95P/105C (30 DTE)"]%string.
Proof. reflexivity. Qed.

End Runs.

(** ** Data access shim: theorems *)

Module ShimTheorems.
Local Open Scope js_scope.

Section WithHost.
Context {host : Host}.

(** The fallback generator always returns, after seven draws, a record
    whose symbol is the upper-cased input. *)
Lemma generateFallbackStockData_returns (sym : string) (w : World) :
  exists d w',
    generateFallbackStockData sym w = (Resolved d, w')
    /\ symbol d = toUpperCase sym
    /\ price d = lit 150 + draw_from w 0 * lit 300
    /\ random_count w' = (7 + random_count w)%nat.
Proof.
  unfold generateFallbackStockData, bind, Math_random, Date_now, ret.
  cbn [random_draws random_count now network].
  eexists. eexists. split; [reflexivity |].
  repeat split.
Qed.

(** The ways the request can fail. *)
Lemma proxied_data_failures (res : FetchResult) :
  (res = NetworkFailure -> proxied_data res = None)
  /\ (forall r, res = Responded r -> ok r = false -> proxied_data res = None)
  /\ (forall r, res = Responded r -> body_json r = None ->
      proxied_data res = None)
  /\ (forall r data, res = Responded r -> body_json r = Some data ->
      truthy_value (error_property data) = true -> proxied_data res = None).
Proof.
  repeat split.
  - intros ->. reflexivity.
  - intros r -> H. cbn. rewrite H. reflexivity.
  - intros r -> H. cbn. rewrite H. destruct (ok r); reflexivity.
  - intros r data -> H E. cbn. rewrite H.
    destruct (ok r); [| reflexivity].
    destruct data; try reflexivity; rewrite E; reflexivity.
Qed.

(** Every run of [fetchStockData] resolves.  When the
    request fully succeeds, that is [fetch] resolves with an ok status and a
    body that parses to a JSON value other than [null] whose [error]
    property is absent or falsy, it resolves with that body and draws
    nothing.  In every other case (network failure, non-ok status, a body
    that is not JSON or is [null], a truthy [error] property) it resolves
    with the record [generateFallbackStockData] builds from [Math.random],
    whose symbol is the input upper-cased. *)
Theorem fetchStockData_never_rejects (sym : string) (w : World) :
  exists v w',
    fetchStockData sym w = (Resolved v, w')
    /\ match proxied_data (network w (stock_url sym)) with
       | Some data => v = FromApi data /\ w' = w
       | None =>
           exists d,
             generateFallbackStockData sym w = (Resolved d, w')
             /\ v = Generated d
             /\ symbol d = toUpperCase sym
       end.
Proof.
  destruct (generateFallbackStockData_returns sym w) as [d [w' [Hd [Hs _]]]].
  unfold fetchStockData, stock_url, proxied_data.
  remember (generateFallbackStockData sym) as fallback eqn:Efallback.
  assert (Hcatch :
    exists v w'0,
      (d0 <- fallback ;; ret (Generated d0))%async w = (Resolved v, w'0)
      /\ exists d0, fallback w = (Resolved d0, w'0) /\ v = Generated d0
                    /\ symbol d0 = toUpperCase sym).
  { exists (Generated d), w'. unfold bind. rewrite Hd. split; [reflexivity |].
    exists d. auto. }
  unfold try_catch, bind at 1, fetch.
  destruct (network w ("/api/stock/" ++ sym)) as [| r]; [exact Hcatch |].
  destruct (ok r); cbn [negb]; [| exact Hcatch].
  unfold bind at 1, Response_json.
  destruct (body_json r) as [data |]; [| exact Hcatch].
  destruct data as [| b | q | s | items | fields]; cbn;
    try (eexists; eexists; split; [reflexivity | split; reflexivity]).
  - exact Hcatch.
  - destruct (truthy_value (lookup "error" fields)); [exact Hcatch |].
    eexists; eexists; split; [reflexivity | split; reflexivity].
Qed.

(** Each of the three named failures leaves no proxied data. *)
Lemma request_failed_no_data (res : FetchResult) :
  request_failed res -> proxied_data res = None.
Proof.
  destruct (proxied_data_failures res) as [Hnet [Hstatus [_ Herror]]].
  intros [E | [[r [E Hok]] | [r [data [E [Hbody Htruthy]]]]]].
  - exact (Hnet E).
  - exact (Hstatus r E Hok).
  - exact (Herror r data E Hbody Htruthy).
Qed.

(** C1.  [fetchStockData] never rejects.  Whenever the proxied request
    fails (a network error, a status that is not ok, or a JSON body carrying
    an [error] field, which the guard [if (data.error)] reads as a truthy
    one) it resolves with the record [generateFallbackStockData] makes up
    from [Math.random], whose symbol is the input upper-cased.  It resolves
    with proxied data only when the request fully succeeded, and then with
    the parsed body as it is, drawing nothing; every other result is a
    made-up record whose symbol is the input upper-cased. *)
Theorem fetchStockData_fallback (sym : string) (w : World) :
  exists v w',
    fetchStockData sym w = (Resolved v, w')
    /\ (request_failed (network w (stock_url sym)) ->
        exists d,
          v = Generated d
          /\ generateFallbackStockData sym w = (Resolved d, w')
          /\ symbol d = toUpperCase sym)
    /\ (forall data, v = FromApi data ->
        proxied_data (network w (stock_url sym)) = Some data /\ w' = w)
    /\ (forall d, v = Generated d ->
        proxied_data (network w (stock_url sym)) = None
        /\ generateFallbackStockData sym w = (Resolved d, w')
        /\ symbol d = toUpperCase sym).
Proof.
  destruct (fetchStockData_never_rejects sym w) as [v [w' [E H]]].
  exists v, w'. split; [exact E |].
  pose proof (request_failed_no_data (network w (stock_url sym))) as Hfail.
  destruct (proxied_data (network w (stock_url sym))) as [data |].
  - destruct H as [-> ->]. split; [| split].
    + intros F. specialize (Hfail F). discriminate Hfail.
    + intros data0 E0. injection E0 as <-. split; reflexivity.
    + intros d E0. discriminate E0.
  - destruct H as [d [Hd [-> Hs]]]. split; [| split].
    + intros _. exists d. repeat split; assumption.
    + intros data E0. discriminate E0.
    + intros d0 E0. injection E0 as <-. repeat split; assumption.
Qed.

(** The price read never depends on the world and leaves it as it is. *)
Lemma price_of_pure (stockData : StockResult) (w : World) :
  exists outcome, forall w0, price_of stockData w0 = (outcome, w0).
Proof.
  destruct stockData as [data | d].
  - destruct data; eexists; intros w0; reflexivity.
  - eexists; intros w0; reflexivity.
Qed.

(** What [fetchTechnicalIndicators] returns once the stock data is
    fetched: the indicators are computed from the price and from the next
    seven draws; the constants of the [catch] branch are returned only when
    reading the price throws. *)
Lemma fetchTechnicalIndicators_run (sym : string) (w w1 : World)
      (stockData : StockResult) :
  fetchStockData sym w = (Resolved stockData, w1) ->
  fst (fetchTechnicalIndicators sym w)
  = match fst (price_of stockData w1) with
    | Resolved currentPrice =>
        Resolved (indicators_of currentPrice (draw_from w1))
    | Rejected _ =>
        Resolved {| rsi := lit 50; ema9 := lit 200; ema20 := lit 195;
                    adx := lit 25; ti_vwap := lit 198; sma50 := lit 190;
                    sma200 := lit 180 |}
    end.
Proof.
  intros H. destruct (price_of_pure stockData w1) as [outcome Hp].
  unfold fetchTechnicalIndicators, try_catch, bind.
  rewrite H, Hp. cbn [fst]. destruct outcome as [p | e]; reflexivity.
Qed.

(** C2, as the code has it.  The indicators are not computed from arrays of
    OHLCV samples: once the stock data is fetched and its price read,
    [fetchTechnicalIndicators] returns [indicators_of] of that price and of
    the next seven results of [Math.random].  So two calls that fetch the
    same stock data return equal RSI, EMA9, EMA20, ADX, VWAP, SMA50 and
    SMA200 provided these seven draws are the same in both calls. *)
Theorem fetchTechnicalIndicators_equal_draws
        (sym : string) (w1 w2 w1' w2' : World) (stockData : StockResult) :
  fetchStockData sym w1 = (Resolved stockData, w1') ->
  fetchStockData sym w2 = (Resolved stockData, w2') ->
  (forall i, (i < 7)%nat -> draw_from w1' i = draw_from w2' i) ->
  fst (fetchTechnicalIndicators sym w1) = fst (fetchTechnicalIndicators sym w2)
  /\ (forall currentPrice,
        fst (price_of stockData w1') = Resolved currentPrice ->
        fst (fetchTechnicalIndicators sym w1)
        = Resolved (indicators_of currentPrice (draw_from w1'))).
Proof.
  intros H1 H2 Hdraws.
  rewrite (fetchTechnicalIndicators_run sym w1 w1' stockData H1).
  rewrite (fetchTechnicalIndicators_run sym w2 w2' stockData H2).
  destruct (price_of_pure stockData w1') as [outcome Hp]. rewrite !Hp.
  cbn [fst]. split.
  - destruct outcome as [p | e]; [| reflexivity].
    unfold indicators_of. rewrite !Hdraws by lia. reflexivity.
  - intros currentPrice ->. reflexivity.
Qed.

End WithHost.


Lemma fetchTechnicalIndicators_equal_draws_witness :
  fst (fetchTechnicalIndicators (host := sample_host) "aapl" calm_world)
  = fst (fetchTechnicalIndicators (host := sample_host) "aapl" later_world)
  /\ fst (fetchTechnicalIndicators (host := sample_host) "aapl" calm_world)
     = Resolved (indicators_of (lit 100) (draw_from calm_world)).
Proof.
  destruct (fetchTechnicalIndicators_equal_draws
              (host := sample_host)
              "aapl" calm_world later_world calm_world later_world
              (FromApi quote_body) eq_refl eq_refl
              (fun i _ => eq_refl)) as [Hsame Hformula].
  split.
  - exact Hsame.
  - apply Hformula. reflexivity.
Defined.

(** C2 as stated fails.  [calm_world] and [lively_world] have the same
    network, and in both [fetchStockData] resolves with the same body of the
    proxy (price 100); [Math.random] returns 0.25 in the first and 0.75 in
    the second, and the two calls of [fetchTechnicalIndicators] return
    RSI 50 and RSI 60. *)
Lemma fetchTechnicalIndicators_not_deterministic :
  network calm_world = network lively_world
  /\ fst (fetchStockData (host := sample_host) "aapl" calm_world)
     = Resolved (FromApi quote_body)
  /\ fst (fetchStockData (host := sample_host) "aapl" lively_world)
     = Resolved (FromApi quote_body)
  /\ exists t1 t2 : TechnicalIndicators,
       fst (fetchTechnicalIndicators (host := sample_host) "aapl" calm_world)
       = Resolved t1
       /\ fst (fetchTechnicalIndicators (host := sample_host) "aapl" lively_world)
          = Resolved t2
       /\ rsi t1 = lit 50 /\ rsi t2 = lit 60 /\ rsi t1 <> rsi t2.
Proof.
  split; [reflexivity |]. split; [reflexivity |]. split; [reflexivity |].
  eexists. eexists. split; [reflexivity |]. split; [reflexivity |].
  assert (E1 : lit 45 + Fin (Q2Qc 0.25) * lit 20 = lit 50)
    by (vm_compute; apply f_equal, Qc_is_canon; reflexivity).
  assert (E2 : lit 45 + Fin (Q2Qc 0.75) * lit 20 = lit 60)
    by (vm_compute; apply f_equal, Qc_is_canon; reflexivity).
  split; [exact E1 |]. split; [exact E2 |].
  cbn [rsi]. change (lit 45 + Fin (Q2Qc 0.25) * lit 20
                     <> lit 45 + Fin (Q2Qc 0.75) * lit 20).
  rewrite E1, E2. intros E.
  apply (f_equal (fun x => match x with Fin q => this q | _ => 0%Q end)) in E.
  vm_compute in E. discriminate E.
Qed.

End ShimTheorems.

(** ** Relative strength index: theorems *)

Module RSITheorems.
Import NumFacts ListFacts RSIFacts.
Local Open Scope js_scope.

(** C3, as the code computes it.  On a price list with at least
    [period + 1] entries [calculateRSI] returns [100 - 100/(1+RS)], where
    [RS] is the average gain divided by the average loss: the sum of the
    positive changes and the sum of the absolute negative changes over the
    most recent [period] consecutive price changes are each divided by
    [period] before the quotient is taken.  On every shorter list it
    returns exactly 50.  This holds for every period, the default 14
    included. *)
Theorem calculateRSI_average_formula (prices : list Qc) (period : nat) :
  ((period + 1 <= length prices)%nat ->
   calculateRSI prices period = rsi_average_formula prices period)
  /\ ((length prices < period + 1)%nat ->
      calculateRSI prices period = lit 50).
Proof.
  unfold calculateRSI. split; intros H.
  - destruct (Nat.ltb_spec (length prices) (period + 1)); [lia |].
    unfold rsi_average_formula, rsi_rs, rsi_avgGain, rsi_avgLoss.
    rewrite (@rsi_loop_sums prices period H). reflexivity.
  - destruct (Nat.ltb_spec (length prices) (period + 1)); [reflexivity | lia].
Qed.

Lemma calculateRSI_average_formula_witness :
  calculateRSI sample_prices 4 = rsi_average_formula sample_prices 4
  /\ calculateRSI sample_prices default_period = lit 50.
Proof.
  split.
  - apply (proj1 (calculateRSI_average_formula sample_prices 4)). cbn. lia.
  - apply (proj2 (calculateRSI_average_formula sample_prices default_period)).
    cbn. lia.
Defined.

(** In exact arithmetic: with a strictly negative change in the window the
    period is at least 1, the average loss and [1 + rs] are finite and not
    zero and the result is a finite number in [0, 100); with none the
    average loss is zero, [rs] is [Infinity] or [NaN] and the result 100 or
    [NaN]. *)
Lemma rsi_exact_cases (prices : list Qc) (period : nat) :
  (period + 1 <= length prices)%nat ->
  (window_has_loss prices period = true ->
   exists avgLoss d r : Qc,
     (1 <= period)%nat
     /\ rsi_avgLoss prices period = Fin avgLoss /\ avgLoss <> Q2Qc 0
     /\ lit 1 + rsi_rs prices period = Fin d /\ d <> Q2Qc 0
     /\ calculateRSI prices period = Fin r
     /\ (Q2Qc 0 <= r)%Qc /\ (r < Q2Qc 100)%Qc)
  /\ (window_has_loss prices period = false -> (1 <= period)%nat ->
      rsi_avgLoss prices period = lit 0
      /\ (rsi_rs prices period = PosInf \/ rsi_rs prices period = NaN)
      /\ (calculateRSI prices period = lit 100
          \/ calculateRSI prices period = NaN)).
Proof.
  intros Hlen. unfold window_has_loss.
  set (window := most_recent period (changes prices)).
  split.
  - intros Hloss.
    assert (Hperiod : (0 < period)%nat).
    { destruct period; [| lia].
      unfold window in Hloss. rewrite most_recent_0 in Hloss. discriminate. }
    pose proof (nat_payload_pos _ Hperiod) as Hp.
    pose proof (Qcpos_neq _ Hp) as Hp0.
    pose proof (sum_losses_pos _ Hloss) as Hl.
    pose proof (sum_gains_nonneg window) as Hg.
    set (p := Q2Qc (inject_Z (Z.of_nat period))) in *.
    set (g := sum_gains window) in *. set (l := sum_losses window) in *.
    assert (Hal : (Q2Qc 0 < l / p)%Qc) by (apply Qcdiv_pos; assumption).
    assert (Hrs : (Q2Qc 0 <= (g / p) / (l / p))%Qc).
    { destruct (Qcle_lt_or_eq _ _ Hg) as [Hg' | <-].
      - apply Qclt_le_weak, Qcdiv_pos; [apply Qcdiv_pos |]; assumption.
      - rewrite !Qcdiv_zero. apply Qcle_refl. }
    assert (EavgLoss : rsi_avgLoss prices period = Fin (l / p)%Qc).
    { unfold rsi_avgLoss. rewrite (@rsi_loop_sums prices period Hlen). cbn [snd].
      unfold of_nat. apply div_Fin, Hp0. }
    assert (Ers : rsi_rs prices period = Fin ((g / p) / (l / p))%Qc).
    { unfold rsi_rs. rewrite EavgLoss. unfold rsi_avgGain.
      rewrite (@rsi_loop_sums prices period Hlen). cbn [fst].
      unfold of_nat. rewrite (div_Fin _ _ Hp0). apply div_Fin, Qcpos_neq, Hal. }
    set (rs := ((g / p) / (l / p))%Qc) in *.
    assert (Hd : (Q2Qc 0 < Q2Qc 1 + rs)%Qc) by (qc2q; lra).
    exists (l / p)%Qc, (Q2Qc 1 + rs)%Qc,
      (Q2Qc 100 - Q2Qc 100 / (Q2Qc 1 + rs))%Qc.
    repeat split.
    + exact Hperiod.
    + exact EavgLoss.
    + apply Qcpos_neq, Hal.
    + rewrite Ers. reflexivity.
    + apply Qcpos_neq, Hd.
    + unfold calculateRSI.
      destruct (Nat.ltb_spec (length prices) (period + 1)); [lia |].
      cbv zeta. rewrite Ers. unfold lit. cbn [add].
      rewrite (div_Fin _ _ (Qcpos_neq _ Hd)). reflexivity.
    + apply rsi_quotient_range, Hrs.
    + apply rsi_quotient_range, Hrs.
  - intros Hnone Hperiod.
    pose proof (nat_payload_pos _ Hperiod) as Hp.
    pose proof (Qcpos_neq _ Hp) as Hp0.
    assert (EavgLoss : rsi_avgLoss prices period = lit 0).
    { unfold rsi_avgLoss. rewrite (@rsi_loop_sums prices period Hlen).
      cbn [snd]. fold window. rewrite (sum_losses_zero _ Hnone).
      unfold of_nat. rewrite (div_Fin _ _ Hp0), Qcdiv_zero. reflexivity. }
    split; [exact EavgLoss |].
    assert (Ers : rsi_rs prices period
                  = signed_inf (sign (sum_gains window))).
    { unfold rsi_rs. rewrite EavgLoss. unfold rsi_avgGain.
      rewrite (@rsi_loop_sums prices period Hlen). cbn [fst]. fold window.
      unfold of_nat. rewrite (div_Fin _ _ Hp0).
      unfold lit. rewrite div_Fin_zero, sign_div_pos by exact Hp.
      reflexivity. }
    unfold calculateRSI.
    destruct (Nat.ltb_spec (length prices) (period + 1)); [lia |].
    cbv zeta. rewrite Ers.
    pose proof (sum_gains_nonneg window) as Hg.
    destruct (Qcle_lt_or_eq _ _ Hg) as [Hpos | Hzero].
    + rewrite (sign_pos _ Hpos). split; [left; reflexivity |].
      left. cbn. unfold lit. f_equal.
    + rewrite <- Hzero. split; right; reflexivity.
Qed.



End RSITheorems.

(** ** Relative strength index: what rounding changes *)

Module RSIRoundingTheorems.
Import PrimFloat.
Local Open Scope float_scope.

(** C3 as stated fails in binary64.  On the fifteen prices 100, 102 and
    thirteen times 93 the window of period 14 has the changes +2, -9 and
    twelve times 0.  The code divides [2/14] by [9/14] and returns
    18.181818181818173; the quotient of the two sums, [2/9], gives
    18.181818181818187.  The formula with the two averages agrees with the
    code. *)
Lemma calculateRSI_not_quotient_of_sums :
  length Binary64.dip_prices = 15%nat
  /\ Binary64.calculateRSI Binary64.dip_prices 14 = 0x1.22e8ba2e8ba2cp+4
  /\ Binary64.rsi_formula Binary64.dip_prices 14 = 0x1.22e8ba2e8ba30p+4
  /\ (Binary64.calculateRSI Binary64.dip_prices 14
      =? Binary64.rsi_formula Binary64.dip_prices 14) = false
  /\ Binary64.rsi_average_formula Binary64.dip_prices 14
     = Binary64.calculateRSI Binary64.dip_prices 14.
Proof. repeat split; vm_compute; reflexivity. Qed.


End RSIRoundingTheorems.

(** ** Exponential moving average: theorems *)

Module MovingAverageTheorems.
Import NumFacts ListFacts LoopFacts.
Local Open Scope js_scope.

(** C4.  On a price list with at least [period] entries [calculateEMA]
    seeds with the arithmetic mean of the first [period] prices and folds
    every later price [p] with [ema' = p*k + ema*(1-k)], [k = 2/(period+1)];
    on a non-empty shorter list it returns the last price, and on an empty
    shorter list it returns 0. *)
Theorem calculateEMA_formula (prices : list Qc) (period : nat) :
  ((period <= length prices)%nat ->
   calculateEMA prices period = ema_formula prices period)
  /\ ((length prices < period)%nat -> prices <> [] ->
      calculateEMA prices period = Fin (List.last prices (Q2Qc 0)))
  /\ ((length prices < period)%nat -> prices = [] ->
      calculateEMA prices period = lit 0).
Proof.
  unfold calculateEMA. repeat split.
  - intros H. destruct (Nat.ltb_spec (length prices) period); [lia |].
    unfold ema_formula, mean. cbv zeta.
    change (fold_left (fun sum price => sum + Fin price)
                      (firstn period prices) (lit 0))
      with (fold_left (fun sum price => sum + Fin price)
                      (firstn period prices) (Fin (Q2Qc 0))).
    rewrite fold_left_add_Fin, Qcplus_0_l, length_firstn, Nat.min_l by exact H.
    set (k := lit 2 / (of_nat period + lit 1)).
    set (seed := Fin (Qcsum (firstn period prices)) / of_nat period).
    apply (fold_left_from (fun p ema => p * k + ema * (lit 1 - k))), H.
  - intros H Hne. destruct (Nat.ltb_spec (length prices) period); [| lia].
    rewrite (get_last _ (Q2Qc 0) Hne). apply or_else_Fin.
  - intros H ->. destruct (Nat.ltb_spec (@length Qc [] ) period); [| cbn in *; lia].
    reflexivity.
Qed.

Lemma calculateEMA_formula_witness :
  calculateEMA sample_prices 3 = ema_formula sample_prices 3
  /\ calculateEMA sample_prices 9 = Fin (List.last sample_prices (Q2Qc 0))
  /\ calculateEMA [] 9 = lit 0.
Proof.
  split; [| split].
  - apply (proj1 (calculateEMA_formula sample_prices 3)). cbn. lia.
  - apply (proj1 (proj2 (calculateEMA_formula sample_prices 9))).
    + cbn. lia.
    + discriminate.
  - apply (proj2 (proj2 (calculateEMA_formula [] 9))).
    + cbn. lia.
    + reflexivity.
Defined.

End MovingAverageTheorems.

(** ** Historical volatility: theorems *)

Module VolatilityTheorems.
Import NumFacts ListFacts LoopFacts.
Local Open Scope js_scope.

Section WithHost.
Context {host : Host}.

(** The first loop from index [length pre + 1] on, [a] the price at index
    [length pre]. *)
Lemma returns_loop (rest : list Qc) :
  forall (pre : list Qc) (a : Qc) (acc : list number),
    fold_left
      (fun returns i =>
         returns ++
         [Math_log (get (pre ++ a :: rest) (Z.of_nat i)
                    / get (pre ++ a :: rest) (Z.of_nat i - 1))])%list
      (seq (length pre + 1) (length rest)) acc
    = (acc ++ log_returns (a :: rest))%list.
Proof.
  induction rest as [| b rest IH]; intros pre a acc.
  - cbn. now rewrite app_nil_r.
  - cbn [length seq fold_left].
    replace (Z.of_nat (length pre + 1) - 1)%Z with (Z.of_nat (length pre))
      by lia.
    rewrite get_middle.
    replace (pre ++ a :: b :: rest)%list with ((pre ++ [a]) ++ b :: rest)%list
      by (rewrite <- app_assoc; reflexivity).
    replace (length pre + 1)%nat with (length (pre ++ [a]))
      by (rewrite length_app; reflexivity).
    rewrite get_middle.
    replace (S (length (pre ++ [a]))) with (length (pre ++ [a]) + 1)%nat by lia.
    rewrite IH.
    change (log_returns (a :: b :: rest))
      with (Math_log (Fin b / Fin a) :: log_returns (b :: rest)).
    rewrite <- app_assoc. reflexivity.
Qed.

Lemma volatility_returns_log_returns (prices : list Qc) :
  volatility_returns prices = log_returns prices.
Proof.
  unfold volatility_returns. destruct prices as [| a rest]; [reflexivity |].
  replace (length (a :: rest) - 1)%nat with (length rest)
    by (cbn [length]; lia).
  apply (returns_loop rest [] a []).
Qed.

(** C5.  On a price list with at least two entries [calculateVolatility]
    returns the population standard deviation of the log returns
    [log(p[i]/p[i-1])] multiplied by [sqrt(252)] and by 100; on a list
    with fewer than two entries it returns 0. *)
Theorem calculateVolatility_formula (prices : list Qc) (days : number) :
  ((2 <= length prices)%nat ->
   calculateVolatility prices days = volatility_formula prices)
  /\ ((length prices < 2)%nat -> calculateVolatility prices days = lit 0).
Proof.
  unfold calculateVolatility. split; intros H.
  - destruct (Nat.ltb_spec (length prices) 2); [lia |].
    cbv zeta. rewrite volatility_returns_log_returns.
    unfold volatility_formula, population_stddev, average.
    rewrite (fold_left_add_total (fun ret => ret)), map_id, add_zero_l.
    rewrite fold_left_add_total, add_zero_l, length_map.
    reflexivity.
  - destruct (Nat.ltb_spec (length prices) 2); [reflexivity | lia].
Qed.
End WithHost.

Lemma calculateVolatility_formula_witness :
  calculateVolatility (host := sample_host) sample_prices (lit 30)
  = volatility_formula (host := sample_host) sample_prices
  /\ calculateVolatility (host := sample_host) [Q2Qc 100] (lit 30) = lit 0.
Proof.
  split.
  - apply (proj1 (calculateVolatility_formula
                    (host := sample_host) sample_prices (lit 30))).
    cbn. lia.
  - apply (proj2 (calculateVolatility_formula
                    (host := sample_host) [Q2Qc 100] (lit 30))).
    cbn. lia.
Defined.

End VolatilityTheorems.

(** ** Volume weighted average price: theorems *)

Module VWAPTheorems.
Import NumFacts ListFacts LoopFacts.
Local Open Scope js_scope.

(** One iteration at index [length pc], the four arrays split there. *)
Lemma vwap_step_middle (pc pv ph pl cs vs hs ls : list Qc) (c v h l a b : Qc) :
  length pv = length pc -> length ph = length pc -> length pl = length pc ->
  vwap_step (pc ++ c :: cs) (pv ++ v :: vs) (ph ++ h :: hs) (pl ++ l :: ls)
            (Fin a, Fin b) (length pc)
  = (Fin (a + v)%Qc, Fin (b + typical_price h l c * v)%Qc).
Proof.
  intros Hpv Hph Hpl.
  pose proof (get_middle pv v vs) as Ev. rewrite Hpv in Ev.
  pose proof (get_middle ph h hs) as Eh. rewrite Hph in Eh.
  pose proof (get_middle pl l ls) as El. rewrite Hpl in El.
  unfold vwap_step. rewrite get_middle, Ev, Eh, El, or_else_Fin.
  unfold lit. cbn [add]. rewrite div_Fin by discriminate. reflexivity.
Qed.

(** The loop of [calculateVWAP] from index [length pc] on. *)
Lemma vwap_loop_sums (cs : list Qc) :
  forall (vs hs ls pc pv ph pl : list Qc) (a b : Qc),
    length vs = length cs -> length hs = length cs -> length ls = length cs ->
    length pv = length pc -> length ph = length pc -> length pl = length pc ->
    fold_left (vwap_step (pc ++ cs) (pv ++ vs) (ph ++ hs) (pl ++ ls))
              (seq (length pc) (length cs)) (Fin a, Fin b)
    = (Fin (a + Qcsum vs)%Qc, Fin (b + volume_price_sum cs vs hs ls)%Qc).
Proof.
  induction cs as [| c cs IH];
    intros [| v vs] [| h hs] [| l ls] pc pv ph pl a b Hv Hh Hl Hpv Hph Hpl;
    cbn [length] in Hv, Hh, Hl; try discriminate.
  - cbn. now rewrite !Qcplus_0_r.
  - cbn [length seq fold_left].
    rewrite vwap_step_middle by assumption.
    replace (pc ++ c :: cs)%list with ((pc ++ [c]) ++ cs)%list
      by (rewrite <- app_assoc; reflexivity).
    replace (pv ++ v :: vs)%list with ((pv ++ [v]) ++ vs)%list
      by (rewrite <- app_assoc; reflexivity).
    replace (ph ++ h :: hs)%list with ((ph ++ [h]) ++ hs)%list
      by (rewrite <- app_assoc; reflexivity).
    replace (pl ++ l :: ls)%list with ((pl ++ [l]) ++ ls)%list
      by (rewrite <- app_assoc; reflexivity).
    replace (S (length pc)) with (length (pc ++ [c]))
      by (rewrite length_app; cbn; lia).
    rewrite IH; try (rewrite ?length_app; cbn [length]; lia).
    cbn [Qcsum fold_right volume_price_sum].
    now rewrite !Qcplus_assoc.
Qed.

(** C6.  On arrays of equal length [calculateVWAP] returns the sum of
    [((high+low+close)/3) * volume] divided by the total volume when the
    total volume is positive, the last close when the total volume is zero
    (and there is a close), and 0 on empty input. *)
Theorem calculateVWAP_formula (closes volumes highs lows : list Qc) :
  length volumes = length closes ->
  length highs = length closes ->
  length lows = length closes ->
  ((Q2Qc 0 < Qcsum volumes)%Qc ->
   calculateVWAP closes volumes highs lows
   = Fin (volume_price_sum closes volumes highs lows / Qcsum volumes)%Qc)
  /\ (Qcsum volumes = Q2Qc 0 -> closes <> [] ->
      calculateVWAP closes volumes highs lows = Fin (List.last closes (Q2Qc 0)))
  /\ (closes = [] -> calculateVWAP closes volumes highs lows = lit 0).
Proof.
  intros Hv Hh Hl.
  assert (Eloop :
    fold_left (vwap_step closes volumes highs lows)
              (seq 0 (length closes)) (lit 0, lit 0)
    = (Fin (Qcsum volumes),
       Fin (volume_price_sum closes volumes highs lows))).
  { pose proof (vwap_loop_sums closes volumes highs lows [] [] [] []
                 (Q2Qc 0) (Q2Qc 0) Hv Hh Hl eq_refl eq_refl eq_refl) as E.
    cbn [app length] in E. rewrite !Qcplus_0_l in E. exact E. }
  unfold calculateVWAP. repeat split.
  - intros Hpos.
    destruct closes as [| c closes].
    + destruct volumes; [| discriminate]. exfalso.
      exact (Qclt_not_eq _ _ Hpos eq_refl).
    + cbn [length Nat.eqb]. cbn [length] in Eloop. rewrite Eloop.
      unfold gt, lit. rewrite lt_Fin.
      rewrite (proj2 (Qcltb_lt _ _) Hpos).
      apply div_Fin, Qcpos_neq, Hpos.
  - intros Hzero Hne.
    destruct closes as [| c closes]; [congruence |].
    cbn [length Nat.eqb]. cbn [length] in Eloop. rewrite Eloop.
    unfold gt, lit. rewrite lt_Fin, Hzero.
    change (Qcltb (Q2Qc 0) (Q2Qc 0)) with false. cbv iota.
    apply (get_last (c :: closes) (Q2Qc 0) Hne).
  - intros ->. reflexivity.
Qed.

Lemma calculateVWAP_formula_witness :
  calculateVWAP sample_prices sample_volumes sample_highs sample_lows
  = Fin (volume_price_sum sample_prices sample_volumes sample_highs sample_lows
         / Qcsum sample_volumes)%Qc
  /\ calculateVWAP flat_prices (map Q2Qc [0; 0; 0]%Q) flat_prices flat_prices
     = Fin (List.last flat_prices (Q2Qc 0))
  /\ calculateVWAP [] [] [] [] = lit 0.
Proof.
  split; [| split].
  - apply (proj1 (calculateVWAP_formula
                    sample_prices sample_volumes sample_highs sample_lows
                    eq_refl eq_refl eq_refl)).
    reflexivity.
  - apply (proj1 (proj2 (calculateVWAP_formula
                           flat_prices (map Q2Qc [0; 0; 0]%Q)
                           flat_prices flat_prices
                           eq_refl eq_refl eq_refl))).
    + reflexivity.
    + discriminate.
  - apply (proj2 (proj2 (calculateVWAP_formula [] [] [] []
                                               eq_refl eq_refl eq_refl))).
    reflexivity.
Defined.

End VWAPTheorems.

(** ** Recommendation engine: theorems *)

Module EngineTheorems.
Import NumFacts.
Local Open Scope js_scope.

(** No number is both above 30 and below 20: the branch of the high
    volatility strategies and the branch of the low volatility strategy
    exclude each other. *)
Lemma high_low_exclusive (x : number) : (x > lit 30) && (x < lit 20) = false.
Proof.
  destruct x as [q | | |]; try reflexivity.
  unfold gt, lit. rewrite !lt_Fin.
  destruct (Qcltb (Q2Qc 30) q) eqn:E1; [| reflexivity].
  destruct (Qcltb q (Q2Qc 20)) eqn:E2; [| reflexivity].
  apply Qcltb_lt in E1, E2. exfalso. qc2q. lra.
Qed.

Section WithHost.
Context {host : Host}.

(** C7.  [generateTradeRecommendations] returns at most 5 trades, and its
    output lists exactly the templates whose threshold conditions hold, in
    the fixed order Bull Call Spread, Cash Secured Put, Iron Condor, each
    with its hardcoded pop, maxLoss, creditRatio and modelScore: a Bull Call
    Spread iff rsi < 70, socialSentiment > 0 and changePercent > 0; a Cash
    Secured Put iff rsi > 30, ivPercentile > 50 and analystRating > 3; an
    Iron Condor iff adx < 25 and ivPercentile > 60. *)
Theorem generateTradeRecommendations_catalog
        (symbol : string) (stockData : StockData) (optionsData : OptionsData)
        (fundamentalData : FundamentalData) (alternativeData : AlternativeData)
        (technicalData : TechnicalIndicators) :
  let trades :=
    generateTradeRecommendations symbol stockData optionsData fundamentalData
                                 alternativeData technicalData in
  (length trades <= 5)%nat
  /\ map summary trades
     = expected_templates stockData optionsData alternativeData technicalData
  /\ (In bull_call_spread (map summary trades) <->
      bull_call_spread_applies stockData alternativeData technicalData = true)
  /\ (In cash_secured_put (map summary trades) <->
      cash_secured_put_applies optionsData alternativeData technicalData = true)
  /\ (In iron_condor (map summary trades) <->
      iron_condor_applies optionsData technicalData = true).
Proof.
  assert (E : map summary
                  (generateTradeRecommendations
                     symbol stockData optionsData fundamentalData
                     alternativeData technicalData)
              = expected_templates stockData optionsData alternativeData
                                   technicalData).
  { unfold generateTradeRecommendations, expected_templates,
      bull_call_spread_applies, cash_secured_put_applies, iron_condor_applies.
    destruct ((rsi technicalData < lit 70)
              && (socialSentiment alternativeData > lit 0)
              && (changePercent stockData > lit 0));
      destruct ((rsi technicalData > lit 30)
                && (ivPercentile optionsData > lit 50)
                && (analystRating alternativeData > lit 3));
      destruct ((adx technicalData < lit 25)
                && (ivPercentile optionsData > lit 60));
      reflexivity. }
  cbv zeta. rewrite E. split; [| split; [reflexivity |]].
  - rewrite <- (length_map summary), E. unfold expected_templates.
    destruct (bull_call_spread_applies _ _ _),
      (cash_secured_put_applies _ _ _), (iron_condor_applies _ _);
      cbn; lia.
  - unfold expected_templates.
    assert (D1 : bull_call_spread <> cash_secured_put) by discriminate.
    assert (D2 : bull_call_spread <> iron_condor) by discriminate.
    assert (D3 : cash_secured_put <> iron_condor) by discriminate.
    destruct (bull_call_spread_applies _ _ _),
      (cash_secured_put_applies _ _ _), (iron_condor_applies _ _);
      cbn [app In]; intuition congruence.
Qed.

(** C8.  [generateTradeRecommendations] is deterministic: two calls with
    equal symbol, stock data, options data, fundamental data, alternative
    data and technical indicators return equal lists.  It is proved in the
    stronger form that names what the body reads: the list is fixed by the
    symbol and by seven numbers ([stockData.price] and [.changePercent],
    [optionsData.ivPercentile], [alternativeData.socialSentiment] and
    [.analystRating], [technicalData.rsi] and [.adx]), so two calls that
    agree on these return equal lists, whatever the other fields and the
    fundamental data are.  The body calls neither [Math.random] nor
    [Date.now] nor [fetch], which is why it is embedded as a function of
    its arguments. *)
Theorem generateTradeRecommendations_reads
        (symbol : string) (stockData1 stockData2 : StockData)
        (optionsData1 optionsData2 : OptionsData)
        (fundamentalData1 fundamentalData2 : FundamentalData)
        (alternativeData1 alternativeData2 : AlternativeData)
        (technicalData1 technicalData2 : TechnicalIndicators) :
  trade_inputs stockData1 optionsData1 alternativeData1 technicalData1
  = trade_inputs stockData2 optionsData2 alternativeData2 technicalData2 ->
  generateTradeRecommendations symbol stockData1 optionsData1
                               fundamentalData1 alternativeData1 technicalData1
  = generateTradeRecommendations symbol stockData2 optionsData2
                                 fundamentalData2 alternativeData2 technicalData2.
Proof.
  unfold trade_inputs. intros E.
  injection E as Eprice Echange Eiv Esocial Erating Ersi Eadx.
  unfold generateTradeRecommendations.
  rewrite Eprice, Echange, Eiv, Esocial, Erating, Ersi, Eadx.
  reflexivity.
Qed.

(** C10.  [generateOptionRecommendations] returns between 1 and 5
    recommendations and the Cash-Secured Put template is always among them:
    the two high volatility templates and the low volatility template
    exclude each other ([oneMonth > 30] against [oneMonth < 20]), so at most
    four templates are pushed, the slice to 5 cuts nothing, and the
    Cash-Secured Put, pushed last, is the last element returned. *)
Theorem generateOptionRecommendations_bounds
        (volatilities averageMoves : Timeframes) (currentPrice : number) :
  let pushed :=
    option_recommendations_pushed volatilities averageMoves currentPrice in
  let recommendations :=
    generateOptionRecommendations volatilities averageMoves currentPrice in
  (1 <= length recommendations <= 5)%nat
  /\ (exists r, In r recommendations /\ strategy r = "Cash-Secured Put"%string)
  /\ (length pushed <= 4)%nat
  /\ recommendations = pushed
  /\ (forall d, strategy (List.last recommendations d) = "Cash-Secured Put"%string)
  /\ (oneMonth volatilities > lit 30) && (oneMonth volatilities < lit 20) = false.
Proof.
  pose proof (high_low_exclusive (oneMonth volatilities)) as Hex.
  cbv zeta. unfold generateOptionRecommendations, option_recommendations_pushed.
  destruct (oneMonth volatilities > lit 30);
    destruct (oneMonth volatilities < lit 20); try discriminate;
    destruct (oneWeek volatilities > threeMonths volatilities * lit 1.2);
    cbn [push app firstn length];
    (split; [lia |]);
    (split; [| split; [lia | split; [reflexivity | split; [intros d; reflexivity | reflexivity]]]]);
    match goal with
    | |- exists r, In r ?l /\ _ =>
        assert (F : existsb (fun r => String.eqb (strategy r) "Cash-Secured Put") l
                    = true) by reflexivity;
        apply existsb_exists in F; destruct F as [r [Hin Heq]];
        exists r; split; [exact Hin | apply String.eqb_eq, Heq]
    end.
Qed.

End WithHost.

Lemma generateTradeRecommendations_reads_witness :
  generateTradeRecommendations (host := sample_host)
    "AAPL" sample_stock sample_options sample_fundamental sample_alternative
    sample_technical
  = generateTradeRecommendations (host := sample_host)
      "AAPL" other_stock other_options other_fundamental other_alternative
      other_technical.
Proof.
  apply (generateTradeRecommendations_reads (host := sample_host)).
  reflexivity.
Defined.

End EngineTheorems.

(** ** More facts about sums and quotients *)

Module AverageFacts.
Import NumFacts ListFacts LoopFacts.
Local Open Scope Qc_scope.

(** A quotient by a positive number keeps the bounds of its numerator. *)
Lemma Qcdiv_within (lo hi s n : Qc) :
  Q2Qc 0 < n -> lo * n <= s -> s <= hi * n -> lo <= s / n /\ s / n <= hi.
Proof.
  intros Hn Hlo Hhi. qc2q.
  pose proof (Qinv_lt_0_compat _ Hn) as Hy.
  assert (Hm : (n * / n == 1)%Q) by (apply Qmult_inv_r; lra).
  set (y := (/ n)%Q) in *. clearbody y.
  assert (H1 : (0 <= (s - lo * n) * y)%Q) by (apply Qmult_le_0_compat; lra).
  assert (H2 : (0 <= (hi * n - s) * y)%Q) by (apply Qmult_le_0_compat; lra).
  assert (E1 : ((s - lo * n) * y == s * y - lo)%Q).
  { transitivity (s * y - lo * (n * y))%Q; [ring | rewrite Hm; ring]. }
  assert (E2 : ((hi * n - s) * y == hi - s * y)%Q).
  { transitivity (hi * (n * y) - s * y)%Q; [ring | rewrite Hm; ring]. }
  rewrite E1 in H1. rewrite E2 in H2.
  split; lra.
Qed.

Local Open Scope js_scope.

(** Scaling numerator and denominator by a positive factor leaves a
    quotient as it is, also when the denominator is zero. *)
Lemma div_scale (a g l : Qc) :
  (Q2Qc 0 < a)%Qc -> Fin (a * g)%Qc / Fin (a * l)%Qc = Fin g / Fin l.
Proof.
  intros Ha. pose proof (Qcpos_neq _ Ha) as Ha0.
  destruct (Qc_eq_dec l (Q2Qc 0)) as [-> | Hl].
  - replace (a * Q2Qc 0)%Qc with (Q2Qc 0) by ring. rewrite !div_Fin_zero.
    f_equal. unfold sign.
    destruct (Qc_dec g (Q2Qc 0)) as [[Hg | Hg] | ->].
    + rewrite (proj1 (Qclt_alt _ _) Hg). apply (proj1 (Qclt_alt _ _)).
      clear Ha0. qc2q. nra.
    + rewrite (proj1 (Qcgt_alt _ _) Hg). apply (proj1 (Qcgt_alt _ _)).
      clear Ha0. qc2q. nra.
    + replace (a * Q2Qc 0)%Qc with (Q2Qc 0) by ring. reflexivity.
  - assert (Hal : (a * l)%Qc <> Q2Qc 0).
    { intros E. apply Hl.
      replace l with ((a * l) / a)%Qc by (field; exact Ha0).
      rewrite E. apply Qcdiv_zero. }
    rewrite (div_Fin _ _ Hal), (div_Fin _ _ Hl). f_equal.
    field. split; assumption.
Qed.

End AverageFacts.

(** ** Relative strength index: what it depends on *)

Module RSIInvarianceTheorems.
Import NumFacts ListFacts RSIFacts LoopFacts AverageFacts.
Local Open Scope js_scope.

Lemma changes_skipn (prices : list Qc) :
  forall j, changes (skipn j prices) = skipn j (changes prices).
Proof.
  induction prices as [| a [| b rest] IH]; intros j.
  - destruct j; reflexivity.
  - destruct j as [| [| j]]; reflexivity.
  - destruct j as [| j]; [reflexivity |].
    change (changes (a :: b :: rest)) with ((b - a)%Qc :: changes (b :: rest)).
    cbn [skipn]. apply IH.
Qed.

(** The window of changes the loop reads is the list of changes of the last
    [period + 1] prices. *)
Lemma window_of_recent (prices : list Qc) (period : nat) :
  (period + 1 <= length prices)%nat ->
  most_recent period (changes prices)
  = changes (most_recent (period + 1) prices).
Proof.
  intros H. unfold most_recent. rewrite changes_skipn, changes_length.
  f_equal. lia.
Qed.

(** X4.  [calculateRSI] looks at the last [period + 1] prices only: older
    prices put in front of them change nothing. *)
Theorem calculateRSI_recent_only (older recent : list Qc) (period : nat) :
  length recent = (period + 1)%nat ->
  calculateRSI (older ++ recent) period = calculateRSI recent period.
Proof.
  intros H.
  assert (Hall : (period + 1 <= length (older ++ recent))%nat)
    by (rewrite length_app; lia).
  assert (Hrec : (period + 1 <= length recent)%nat) by lia.
  unfold calculateRSI.
  destruct (Nat.ltb_spec (length (older ++ recent)) (period + 1)); [lia |].
  destruct (Nat.ltb_spec (length recent) (period + 1)); [lia |].
  unfold rsi_rs, rsi_avgGain, rsi_avgLoss.
  rewrite (rsi_loop_sums _ _ Hall), (rsi_loop_sums _ _ Hrec).
  rewrite !window_of_recent by assumption.
  assert (E : most_recent (period + 1) (older ++ recent)
              = most_recent (period + 1) recent).
  { unfold most_recent. rewrite length_app, H.
    replace (length older + (period + 1) - (period + 1))%nat
      with (length older + 0)%nat by lia.
    rewrite skipn_app, Nat.add_0_r, skipn_all, Nat.sub_diag, Nat.sub_diag.
    reflexivity. }
  rewrite E. reflexivity.
Qed.

Lemma calculateRSI_recent_only_witness :
  calculateRSI (flat_prices ++ sample_prices) 6 = calculateRSI sample_prices 6.
Proof.
  apply (calculateRSI_recent_only flat_prices sample_prices 6). reflexivity.
Defined.

End RSIInvarianceTheorems.

(** ** Historical volatility: scale *)

Module VolatilityScaleTheorems.
Import NumFacts ListFacts LoopFacts AverageFacts VolatilityTheorems.
Local Open Scope js_scope.

Section WithHost.
Context {host : Host}.

Lemma log_returns_scale (c : Qc) (prices : list Qc) :
  (Q2Qc 0 < c)%Qc ->
  log_returns (map (fun p => c * p)%Qc prices) = log_returns prices.
Proof.
  intros Hc. induction prices as [| a [| b rest] IH]; try reflexivity.
  change (log_returns (a :: b :: rest))
    with (Math_log (Fin b / Fin a) :: log_returns (b :: rest)).
  cbn [map] in *.
  change (log_returns ((c * a)%Qc :: (c * b)%Qc
                       :: map (fun p => (c * p)%Qc) rest))
    with (Math_log (Fin (c * b)%Qc / Fin (c * a)%Qc)
          :: log_returns ((c * b)%Qc :: map (fun p => (c * p)%Qc) rest)).
  rewrite IH, (div_scale c b a Hc). reflexivity.
Qed.

(** X8.  [calculateVolatility] does not change when every price is
    multiplied by the same positive factor, whatever [Math.log] and
    [Math.sqrt] are: a stock split or a change of currency leaves the
    historical volatility as it is. *)
Theorem calculateVolatility_scale (c : Qc) (prices : list Qc) (days : number) :
  (Q2Qc 0 < c)%Qc ->
  calculateVolatility (map (fun p => c * p)%Qc prices) days
  = calculateVolatility prices days.
Proof.
  intros Hc. unfold calculateVolatility.
  rewrite length_map, !volatility_returns_log_returns, (log_returns_scale c _ Hc).
  reflexivity.
Qed.

End WithHost.

Lemma calculateVolatility_scale_witness :
  calculateVolatility (host := sample_host)
    (map (fun p => Q2Qc 2 * p)%Qc sample_prices) (lit 30)
  = calculateVolatility (host := sample_host) sample_prices (lit 30).
Proof.
  apply (calculateVolatility_scale (host := sample_host)
           (Q2Qc 2) sample_prices (lit 30)).
  reflexivity.
Defined.

End VolatilityScaleTheorems.

(** ** Average directional index *)

Module ADXTheorems.
Import NumFacts ListFacts LoopFacts AverageFacts.
Local Open Scope js_scope.

Lemma get_finite_or_NaN (a : list Qc) (i : Z) : finite_or_NaN (get a i).
Proof.
  unfold get, finite_or_NaN. destruct (i <? 0)%Z; [left; reflexivity |].
  destruct (nth_error a (Z.to_nat i)); [right; eauto | left; reflexivity].
Qed.

Lemma sub_finite_or_NaN (x y : number) :
  finite_or_NaN x -> finite_or_NaN y -> finite_or_NaN (x - y).
Proof.
  intros [-> | [a ->]] [-> | [b ->]]; cbn; try (left; reflexivity).
  right. eauto.
Qed.

Lemma abs_nonneg_or_NaN (x : number) :
  finite_or_NaN x -> nonneg_or_NaN (Math_abs x).
Proof.
  intros [-> | [a ->]]; [left; reflexivity |].
  right. exists (Qcabs a). split; [reflexivity | apply Qcabs_nonneg].
Qed.

Lemma max2_Fin (a b : Qc) :
  exists m : Qc,
    Math_max2 (Fin a) (Fin b) = Fin m /\ (a <= m)%Qc /\ (b <= m)%Qc.
Proof.
  unfold Math_max2. rewrite lt_Fin.
  destruct (Qcltb a b) eqn:E.
  - exists b. repeat split.
    + apply Qclt_le_weak, Qcltb_lt, E.
    + apply Qcle_refl.
  - exists a. repeat split.
    + apply Qcle_refl.
    + apply Qcltb_ge, E.
Qed.

(** The true range of a bar is [NaN] or a finite number that is not
    negative. *)
Lemma true_range_nonneg (x y z : number) :
  finite_or_NaN x -> finite_or_NaN y -> finite_or_NaN z ->
  nonneg_or_NaN (Math_max3 x (Math_abs y) (Math_abs z)).
Proof.
  intros Hx Hy Hz. apply abs_nonneg_or_NaN in Hy, Hz. unfold Math_max3.
  destruct Hx as [-> | [a ->]]; [left; reflexivity |].
  destruct Hy as [-> | [b [-> Hb]]]; [left; reflexivity |].
  destruct (max2_Fin a b) as [m [-> [_ Hm]]].
  destruct Hz as [-> | [c [-> Hc]]]; [left; reflexivity |].
  destruct (max2_Fin m c) as [m' [-> [Hm' _]]].
  right. exists m'. split; [reflexivity |].
  eapply Qcle_trans; [exact Hb |]. eapply Qcle_trans; eassumption.
Qed.

(** A directional movement is a finite number that is not negative. *)
Lemma directional_movement_nonneg (u v : number) :
  finite_or_NaN u -> finite_or_NaN v ->
  exists d : Qc,
    (if u > v then Math_max2 u (lit 0) else lit 0) = Fin d
    /\ (Q2Qc 0 <= d)%Qc.
Proof.
  intros [-> | [a ->]] [-> | [b ->]]; cbn [gt lt];
    try (exists (Q2Qc 0); split; [reflexivity | apply Qcle_refl]).
  destruct ((b ?= a)%Qc);
    try (exists (Q2Qc 0); split; [reflexivity | apply Qcle_refl]).
  destruct (max2_Fin a (Q2Qc 0)) as [m [E [_ Hm]]].
  exists m. split; [exact E | exact Hm].
Qed.

Lemma add_nonneg_or_NaN (x y : number) :
  nonneg_or_NaN x -> nonneg_or_NaN y -> nonneg_or_NaN (x + y).
Proof.
  intros [-> | [a [-> Ha]]] [-> | [b [-> Hb]]]; cbn;
    try (left; reflexivity).
  right. eexists. split; [reflexivity |]. qc2q. lra.
Qed.

Lemma adx_step_ok (highs lows closes : list Qc)
      (acc : number * number * number) (i : nat) :
  adx_totals_ok acc -> adx_totals_ok (adx_step highs lows closes acc i).
Proof.
  destruct acc as [[tr dp] dm]. intros [Htr [[p [-> Hp]] [m [-> Hm]]]].
  unfold adx_step.
  set (idx := (Z.of_nat (length highs) - Z.of_nat i)%Z).
  pose proof (get_finite_or_NaN highs idx) as Hh.
  pose proof (get_finite_or_NaN highs (idx - 1)) as Hhp.
  pose proof (get_finite_or_NaN lows idx) as Hl.
  pose proof (get_finite_or_NaN lows (idx - 1)) as Hlp.
  pose proof (get_finite_or_NaN closes (idx - 1)) as Hcp.
  destruct (directional_movement_nonneg
              (get highs idx - get highs (idx - 1))
              (get lows (idx - 1) - get lows idx)) as [d1 [E1 Hd1]];
    try (apply sub_finite_or_NaN; assumption).
  destruct (directional_movement_nonneg
              (get lows (idx - 1) - get lows idx)
              (get highs idx - get highs (idx - 1))) as [d2 [E2 Hd2]];
    try (apply sub_finite_or_NaN; assumption).
  rewrite E1, E2. cbn [add]. repeat split.
  - apply add_nonneg_or_NaN; [exact Htr |].
    apply true_range_nonneg; apply sub_finite_or_NaN; assumption.
  - eexists. split; [reflexivity |]. qc2q. lra.
  - eexists. split; [reflexivity |]. qc2q. lra.
Qed.

Lemma adx_loop_ok (highs lows closes : list Qc) (steps : list nat) :
  forall acc,
    adx_totals_ok acc ->
    adx_totals_ok (fold_left (adx_step highs lows closes) steps acc).
Proof.
  induction steps as [| i steps IH]; intros acc H; [exact H |].
  cbn [fold_left]. apply IH, adx_step_ok, H.
Qed.

Lemma Qcdiv_nonneg (p t : Qc) :
  (Q2Qc 0 <= p)%Qc -> (Q2Qc 0 < t)%Qc -> (Q2Qc 0 <= p / t)%Qc.
Proof.
  intros Hp Ht. destruct (Qcle_lt_or_eq _ _ Hp) as [H | <-].
  - apply Qclt_le_weak, Qcdiv_pos; assumption.
  - rewrite Qcdiv_zero. apply Qcle_refl.
Qed.

(** The last lines of [calculateADX] on totals the loop can leave. *)
Lemma adx_result_range (tr : number) (p m : Qc) :
  nonneg_or_NaN tr -> (Q2Qc 0 <= p)%Qc -> (Q2Qc 0 <= m)%Qc ->
  exists r : Qc,
    (Math_abs ((Fin p / tr) * lit 100 - (Fin m / tr) * lit 100)
     / ((Fin p / tr) * lit 100 + (Fin m / tr) * lit 100)) * lit 100
    || lit 20 = Fin r
    /\ (Q2Qc 0 < r)%Qc /\ (r <= Q2Qc 100)%Qc.
Proof.
  intros Htr Hp Hm.
  assert (Twenty : exists r : Qc,
             lit 20 = Fin r /\ (Q2Qc 0 < r)%Qc /\ (r <= Q2Qc 100)%Qc).
  { exists (Q2Qc 20). repeat split; discriminate. }
  destruct Htr as [-> | [t [-> Ht]]]; [exact Twenty |].
  destruct (Qcle_lt_or_eq _ _ Ht) as [Htpos | <-].
  - (* a positive total true range *)
    pose proof (Qcpos_neq _ Htpos) as Ht0.
    rewrite !(div_Fin _ _ Ht0). unfold lit. cbn [mul add sub neg Math_abs].
    set (a := (p / t * Q2Qc 100)%Qc). set (b := (m / t * Q2Qc 100)%Qc).
    assert (Ha : (Q2Qc 0 <= a)%Qc).
    { unfold a. pose proof (Qcdiv_nonneg p t Hp Htpos) as H.
      set (x := (p / t)%Qc) in *. clearbody x. qc2q. lra. }
    assert (Hb : (Q2Qc 0 <= b)%Qc).
    { unfold b. pose proof (Qcdiv_nonneg m t Hm Htpos) as H.
      set (x := (m / t)%Qc) in *. clearbody x. qc2q. lra. }
    assert (Habs : (Qcabs (a + - b) <= a + b)%Qc).
    { apply Qcabs_Qcle_condition. split; qc2q; lra. }
    pose proof (Qcabs_nonneg (a + - b)%Qc) as Habs0.
    set (n := Qcabs (a + - b)%Qc) in *.
    destruct (Qc_eq_dec (a + b)%Qc (Q2Qc 0)) as [E | E].
    + (* both directional indicators are zero: 0 / 0 *)
      rewrite E. rewrite div_Fin_zero.
      assert (n = Q2Qc 0) as ->.
      { apply Qcle_antisym; [| exact Habs0]. rewrite <- E. exact Habs. }
      exact Twenty.
    + rewrite (div_Fin _ _ E). cbn [mul].
      assert (Hsum : (Q2Qc 0 < a + b)%Qc).
      { destruct (Qcle_lt_or_eq (Q2Qc 0) (a + b)%Qc) as [H | H];
          [qc2q; lra | exact H | congruence]. }
      destruct (Qcdiv_within (Q2Qc 0) (Q2Qc 1) n (a + b)%Qc Hsum)
        as [Hq0 Hq1]; [qc2q; lra | qc2q; lra |].
      set (q := (n / (a + b))%Qc) in *.
      unfold or_else, truthy.
      destruct (Qc_eq_dec (q * Q2Qc 100)%Qc (Q2Qc 0)) as [Ez | Ez].
      * rewrite Ez. exact Twenty.
      * rewrite (Qc_eq_bool_neq _ _ Ez). cbn [negb].
        exists (q * Q2Qc 100)%Qc. split; [reflexivity |]. split.
        -- destruct (Qcle_lt_or_eq (Q2Qc 0) (q * Q2Qc 100)%Qc) as [H | H];
             [qc2q; lra | exact H | congruence].
        -- qc2q. lra.
  - (* a zero total true range: every quotient is infinite or NaN *)
    rewrite !div_Fin_zero. unfold sign.
    destruct (Qcle_lt_or_eq _ _ Hp) as [Hp' | <-];
      destruct (Qcle_lt_or_eq _ _ Hm) as [Hm' | <-];
      rewrite ?(proj1 (Qcgt_alt _ _) Hp'), ?(proj1 (Qcgt_alt _ _) Hm');
      exact Twenty.
Qed.

(** X9.  Whatever the three arrays and the period, [calculateADX] returns a
    finite number above 0 and at most 100, never 0, [NaN] or an infinity:
    a degenerate window (flat bars, arrays of unequal length, period 0) gives
    the default 20.  On fewer than [period + 1] highs the result is 20. *)
Theorem calculateADX_range (highs lows closes : list Qc) (period : nat) :
  (exists adx : Qc,
      calculateADX highs lows closes period = Fin adx
      /\ (Q2Qc 0 < adx)%Qc /\ (adx <= Q2Qc 100)%Qc)
  /\ ((length highs < period + 1)%nat ->
      calculateADX highs lows closes period = lit 20).
Proof.
  unfold calculateADX. split.
  - destruct (length highs <? period + 1)%nat.
    + exists (Q2Qc 20). repeat split; discriminate.
    + pose proof (adx_loop_ok highs lows closes (seq 1 period)
                    (lit 0, lit 0, lit 0)) as Hok.
      destruct (fold_left (adx_step highs lows closes) (seq 1 period)
                          (lit 0, lit 0, lit 0)) as [[tr dp] dm].
      destruct Hok as [Htr [[p [-> Hp]] [m [-> Hm]]]].
      { repeat split; try (right); eexists; (split; [reflexivity | apply Qcle_refl]). }
      apply adx_result_range; assumption.
  - intros H. destruct (Nat.ltb_spec (length highs) (period + 1));
      [reflexivity | lia].
Qed.

Lemma calculateADX_range_witness :
  calculateADX sample_highs sample_lows sample_prices 14 = lit 20.
Proof.
  apply (proj2 (calculateADX_range sample_highs sample_lows sample_prices 14)).
  cbn. lia.
Defined.

End ADXTheorems.

(** ** Implied volatility of the chains *)

Module ImpliedVolatilityTheorems.
Import NumFacts ListFacts LoopFacts.
Local Open Scope js_scope.

Lemma iv_inner (cs : list OptionContract) (a : number) (n : nat) :
  fold_left
    (fun acc call =>
       let '(totalIV, count) := acc in
       (totalIV + oc_impliedVolatility call, S count))
    cs (a, n)
  = (a + total (map oc_impliedVolatility cs), (n + length cs)%nat).
Proof.
  revert a n. induction cs as [| c cs IH]; intros a n.
  - cbn. unfold total. cbn. rewrite add_comm, add_zero_l.
    rewrite Nat.add_0_r. reflexivity.
  - cbn [fold_left map length]. rewrite IH. unfold total. cbn [fold_right].
    f_equal; [symmetry; apply add_assoc | lia].
Qed.

Lemma total_app (xs ys : list number) :
  total (xs ++ ys) = total xs + total ys.
Proof.
  unfold total. induction xs as [| x xs IH]; cbn [app fold_right].
  - rewrite add_zero_l. reflexivity.
  - rewrite IH. apply add_assoc.
Qed.

Lemma iv_outer (chains : list OptionsChain) (a : number) (n : nat) :
  fold_left
    (fun acc chain =>
       fold_left
         (fun acc call =>
            let '(totalIV, count) := acc in
            (totalIV + oc_impliedVolatility call, S count))
         (calls chain) acc)
    chains (a, n)
  = (a + total (call_volatilities chains),
     (n + length (call_volatilities chains))%nat).
Proof.
  unfold call_volatilities.
  revert a n. induction chains as [| ch chains IH]; intros a n.
  - cbn. unfold total. cbn. rewrite add_comm, add_zero_l.
    rewrite Nat.add_0_r. reflexivity.
  - cbn [fold_left flat_map]. rewrite iv_inner, IH.
    rewrite map_app, total_app, !length_app, length_map.
    f_equal; [symmetry; apply add_assoc | rewrite !length_map; lia].
Qed.

(** X10.  [calculateImpliedVolatility] is the mean of the implied
    volatilities of all the calls of all the chains, however the calls are
    grouped into chains; the puts are not read.  When there is no call at
    all (no chain, or chains without calls) the result is the default
    0.25. *)
Theorem calculateImpliedVolatility_mean (chains : list OptionsChain) :
  (call_volatilities chains <> [] ->
   calculateImpliedVolatility chains
   = total (call_volatilities chains)
     / of_nat (length (call_volatilities chains)))
  /\ (call_volatilities chains = [] ->
      calculateImpliedVolatility chains = lit 0.25).
Proof.
  unfold calculateImpliedVolatility, iv_accumulate.
  rewrite iv_outer, add_zero_l. cbn [Nat.add].
  split; intros H.
  - destruct chains as [| ch chains]; [cbn in H; congruence |].
    cbn [length Nat.eqb].
    destruct (call_volatilities (ch :: chains)) as [| v vs]; [congruence |].
    reflexivity.
  - rewrite H. destruct (length chains =? 0)%nat; reflexivity.
Qed.

Lemma calculateImpliedVolatility_mean_witness :
  calculateImpliedVolatility [sample_chain; empty_chain]
  = total (call_volatilities [sample_chain; empty_chain])
    / of_nat (length (call_volatilities [sample_chain; empty_chain]))
  /\ calculateImpliedVolatility [empty_chain] = lit 0.25.
Proof.
  split.
  - apply (proj1 (calculateImpliedVolatility_mean [sample_chain; empty_chain])).
    discriminate.
  - apply (proj2 (calculateImpliedVolatility_mean [empty_chain])).
    reflexivity.
Defined.

End ImpliedVolatilityTheorems.

(** ** Randomized mocks: the ranges they stay in *)

Module MockRangeTheorems.
Import NumFacts.
Local Open Scope js_scope.

(** Proves that a number built from draws in [0, 1) is finite and within
    its bounds. *)
Ltac in_range_tac :=
  unfold in_range, in_closed_range, lit; cbn [add sub mul neg];
  eexists; split; [reflexivity |]; split; qc2q; lra.

Lemma floor_scaled_range (r : Qc) (n : Z) :
  (Q2Qc 0 <= r)%Qc -> (r < Q2Qc 1)%Qc -> (0 < n)%Z ->
  exists z : Z,
    Math_floor (Fin r * lit (inject_Z n)) = Fin (Q2Qc (inject_Z z))
    /\ (0 <= z < n)%Z.
Proof.
  intros H0 H1 Hn. unfold lit. cbn [mul Math_floor].
  eexists. split; [reflexivity |].
  assert (Hn' : (0 < inject_Z n)%Q) by (unfold Qlt; cbn; lia).
  split.
  - apply Qfloor_resp_le with (x := 0%Q). qc2q. nra.
  - rewrite Z.lt_nge. intros Hge.
    pose proof (Qfloor_le (r * Q2Qc (inject_Z n))%Qc) as Hle.
    rewrite Zle_Qle in Hge.
    set (f := inject_Z (Qfloor (r * Q2Qc (inject_Z n))%Qc)) in *. clearbody f.
    qc2q. nra.
Qed.

Section WithHost.
Context {host : Host}.

(** X11.  When [Math.random] keeps its contract (results in [0, 1)),
    [generateFallbackStockData] returns a quote with finite fields such that
    [150 <= price < 450], [-5 <= changePercent < 5], [low <= price <= high]
    and a whole [volume] with [1000000 <= volume < 11000000]; it draws
    exactly seven numbers. *)
Theorem generateFallbackStockData_ranges (sym : string) (w : World) :
  unit_draws w ->
  exists d w',
    generateFallbackStockData sym w = (Resolved d, w')
    /\ random_count w' = (7 + random_count w)%nat
    /\ in_range 150 450 (price d)
    /\ in_range (-5) 5 (changePercent d)
    /\ (exists p lo hi : Qc,
          price d = Fin p /\ low d = Fin lo /\ high d = Fin hi
          /\ (lo <= p)%Qc /\ (p <= hi)%Qc)
    /\ is_integer (volume d)
    /\ in_range 1000000 11000000 (volume d).
Proof.
  intros Hdraws.
  unfold generateFallbackStockData, bind, Math_random, Date_now, ret.
  cbn [random_draws random_count now network].
  eexists. eexists. split; [reflexivity |].
  cbn [price changePercent low high previousClose change volume].
  set (n := random_count w).
  destruct (Hdraws n) as [A0 A1]. destruct (Hdraws (S n)) as [B0 B1].
  destruct (Hdraws (S (S n))) as [C0 C1].
  destruct (Hdraws (S (S (S n)))) as [D0 D1].
  destruct (Hdraws (S (S (S (S n))))) as [E0 E1].
  set (r0 := random_draws w n) in *.
  set (r1 := random_draws w (S n)) in *.
  set (r2 := random_draws w (S (S n))) in *.
  set (r3 := random_draws w (S (S (S n)))) in *.
  set (r4 := random_draws w (S (S (S (S n))))) in *.
  split; [reflexivity |].
  split; [in_range_tac |].
  split; [in_range_tac |].
  split.
  { unfold lit. cbn [add sub mul neg].
    eexists. eexists. eexists.
    split; [reflexivity |]. split; [reflexivity |]. split; [reflexivity |].
    split; qc2q; lra. }
  destruct (floor_scaled_range r2 10000000 C0 C1 eq_refl) as [z [Ez [Hz0 Hz1]]].
  change (lit (inject_Z 10000000)) with (lit 10000000) in Ez.
  rewrite Ez. split.
  - exists (z + 1000000)%Z. unfold lit. cbn [add]. f_equal.
    apply Qc_is_canon. qc2q. rewrite inject_Z_plus. reflexivity.
  - unfold in_range, lit. cbn [add]. eexists. split; [reflexivity |].
    assert (Hq0 : (inject_Z 0 <= inject_Z z)%Q)
      by (rewrite <- Zle_Qle; exact Hz0).
    assert (Hq1 : (inject_Z z < inject_Z 10000000)%Q)
      by (rewrite <- Zlt_Qlt; exact Hz1).
    change (inject_Z 0) with 0%Q in Hq0.
    change (inject_Z 10000000) with 10000000%Q in Hq1.
    split; qc2q; lra.
Qed.

End WithHost.

Lemma generateFallbackStockData_ranges_witness :
  exists d w',
    generateFallbackStockData (host := sample_host) "aapl" calm_world
    = (Resolved d, w')
    /\ random_count w' = (7 + random_count calm_world)%nat
    /\ in_range 150 450 (price d)
    /\ in_range (-5) 5 (changePercent d)
    /\ (exists p lo hi : Qc,
          price d = Fin p /\ low d = Fin lo /\ high d = Fin hi
          /\ (lo <= p)%Qc /\ (p <= hi)%Qc)
    /\ is_integer (volume d)
    /\ in_range 1000000 11000000 (volume d).
Proof.
  apply (generateFallbackStockData_ranges (host := sample_host) "aapl" calm_world).
  intros i. split; vm_compute; [discriminate | reflexivity].
Defined.

Section MoreMocks.
Context {host : Host}.

(** X12.  When [Math.random] keeps its contract, [fetchAlternativeData]
    resolves with finite fields in the ranges its comments give:
    [socialSentiment] and [newsScore] in [-1, 1), [googleTrends] in
    [0, 100), [analystRating] in the closed interval [2, 5] (rounding
    reaches 5 at the largest draw), [targetPrice] 0, and whole numbers of
    [upgrades] in 0..4 and [downgrades] in 0..2. *)
Theorem fetchAlternativeData_ranges (sym : string) (w : World) :
  unit_draws w ->
  exists d w',
    fetchAlternativeData sym w = (Resolved d, w')
    /\ in_range (-1) 1 (socialSentiment d)
    /\ in_range (-1) 1 (newsScore d)
    /\ in_range 0 100 (googleTrends d)
    /\ in_closed_range 2 5 (analystRating d)
    /\ targetPrice d = lit 0
    /\ (exists z : Z, upgrades d = Fin (Q2Qc (inject_Z z)) /\ (0 <= z < 5)%Z)
    /\ (exists z : Z, downgrades d = Fin (Q2Qc (inject_Z z)) /\ (0 <= z < 3)%Z).
Proof.
  intros Hdraws.
  unfold fetchAlternativeData, bind, Math_random, ret.
  cbn [random_draws random_count now network].
  eexists. eexists. split; [reflexivity |].
  cbn [socialSentiment newsScore googleTrends analystRating targetPrice
       upgrades downgrades].
  set (n := random_count w).
  destruct (Hdraws n) as [A0 A1]. destruct (Hdraws (S n)) as [B0 B1].
  destruct (Hdraws (S (S n))) as [C0 C1].
  destruct (Hdraws (S (S (S n)))) as [D0 D1].
  destruct (Hdraws (S (S (S (S n))))) as [E0 E1].
  destruct (Hdraws (S (S (S (S (S n)))))) as [F0 F1].
  split; [in_range_tac |]. split; [in_range_tac |].
  split; [in_range_tac |]. split; [in_range_tac |].
  split; [reflexivity |].
  split.
  - apply (floor_scaled_range _ 5 E0 E1 eq_refl).
  - apply (floor_scaled_range _ 3 F0 F1 eq_refl).
Qed.

(** X13.  When [Math.random] keeps its contract, [fetchMacroData] resolves
    with finite fields in the ranges its comments give: [vix] in [15, 35],
    [tenYearYield] in [4, 5.5] and [dxy] in [100, 110] (closed: rounding
    reaches the upper ends at the largest draw), [spyFlow] in [-1000, 1000)
    and [qqqqFlow] in [-500, 500). *)
Theorem fetchMacroData_ranges (w : World) :
  unit_draws w ->
  exists d w',
    fetchMacroData w = (Resolved d, w')
    /\ in_closed_range 15 35 (vix d)
    /\ in_closed_range 4 5.5 (tenYearYield d)
    /\ in_closed_range 100 110 (dxy d)
    /\ in_range (-1000) 1000 (spyFlow d)
    /\ in_range (-500) 500 (qqqqFlow d).
Proof.
  intros Hdraws.
  unfold fetchMacroData, bind, Math_random, ret.
  cbn [random_draws random_count now network].
  eexists. eexists. split; [reflexivity |].
  cbn [vix tenYearYield dxy spyFlow qqqqFlow].
  set (n := random_count w).
  destruct (Hdraws n) as [A0 A1]. destruct (Hdraws (S n)) as [B0 B1].
  destruct (Hdraws (S (S n))) as [C0 C1].
  destruct (Hdraws (S (S (S n)))) as [D0 D1].
  destruct (Hdraws (S (S (S (S n))))) as [E0 E1].
  repeat (split; [in_range_tac |]). in_range_tac.
Qed.

End MoreMocks.

Lemma fetchAlternativeData_ranges_witness :
  exists d w',
    fetchAlternativeData "aapl" calm_world = (Resolved d, w')
    /\ in_range (-1) 1 (socialSentiment d)
    /\ in_range (-1) 1 (newsScore d)
    /\ in_range 0 100 (googleTrends d)
    /\ in_closed_range 2 5 (analystRating d)
    /\ targetPrice d = lit 0
    /\ (exists z : Z, upgrades d = Fin (Q2Qc (inject_Z z)) /\ (0 <= z < 5)%Z)
    /\ (exists z : Z, downgrades d = Fin (Q2Qc (inject_Z z)) /\ (0 <= z < 3)%Z).
Proof.
  apply (fetchAlternativeData_ranges "aapl" calm_world).
  intros i. split; vm_compute; [discriminate | reflexivity].
Defined.

Lemma fetchMacroData_ranges_witness :
  exists d w',
    fetchMacroData calm_world = (Resolved d, w')
    /\ in_closed_range 15 35 (vix d)
    /\ in_closed_range 4 5.5 (tenYearYield d)
    /\ in_closed_range 100 110 (dxy d)
    /\ in_range (-1000) 1000 (spyFlow d)
    /\ in_range (-500) 500 (qqqqFlow d).
Proof.
  apply (fetchMacroData_ranges calm_world).
  intros i. split; vm_compute; [discriminate | reflexivity].
Defined.

End MockRangeTheorems.

(** ** Technical indicators: ranges, and what they do to the trade rules *)

Module IndicatorRangeTheorems.
Import NumFacts ShimTheorems MockRangeTheorems.
Local Open Scope js_scope.

Section WithHost.
Context {host : Host}.

Lemma generateFallbackStockData_keeps_draws (sym : string) (w : World) :
  exists d w',
    generateFallbackStockData sym w = (Resolved d, w')
    /\ random_draws w' = random_draws w.
Proof.
  unfold generateFallbackStockData, bind, Math_random, Date_now, ret.
  cbn [random_draws random_count now network].
  eexists. eexists. split; reflexivity.
Qed.

(** [fetchStockData] resolves and leaves the stream of random numbers as
    it is; it only moves along it. *)
Lemma fetchStockData_keeps_draws (sym : string) (w : World) :
  exists v w',
    fetchStockData sym w = (Resolved v, w')
    /\ random_draws w' = random_draws w.
Proof.
  destruct (generateFallbackStockData_keeps_draws sym w) as [d [w' [Hd Hk]]].
  unfold fetchStockData.
  remember (generateFallbackStockData sym) as fallback eqn:Efallback.
  assert (Hcatch :
    exists v w'0,
      (d0 <- fallback ;; ret (Generated d0))%async w = (Resolved v, w'0)
      /\ random_draws w'0 = random_draws w).
  { exists (Generated d), w'. unfold bind. rewrite Hd. split; [reflexivity | exact Hk]. }
  unfold try_catch, bind at 1, fetch.
  destruct (network w ("/api/stock/" ++ sym)) as [| r]; [exact Hcatch |].
  destruct (ok r); cbn [negb]; [| exact Hcatch].
  unfold bind at 1, Response_json.
  destruct (body_json r) as [data |]; [| exact Hcatch].
  destruct data as [| b | q | s | items | fields]; cbn;
    try (eexists; eexists; split; reflexivity).
  - exact Hcatch.
  - destruct (truthy_value (lookup "error" fields)); [exact Hcatch |].
    eexists; eexists; split; reflexivity.
Qed.

(** The RSI and the ADX of the indicators [fetchTechnicalIndicators]
    resolves with, on either branch of its [try]. *)
Lemma fetched_rsi_adx (sym : string) (w : World) :
  unit_draws w ->
  exists (td : TechnicalIndicators) (q a : Qc),
    fst (fetchTechnicalIndicators sym w) = Resolved td
    /\ rsi td = Fin q /\ (Q2Qc 45 <= q)%Qc /\ (q <= Q2Qc 65)%Qc
    /\ adx td = Fin a /\ (Q2Qc 15 <= a)%Qc /\ (a <= Q2Qc 35)%Qc.
Proof.
  intros Hdraws.
  destruct (fetchStockData_keeps_draws sym w) as [sd [w1 [Hsd Hk]]].
  rewrite (fetchTechnicalIndicators_run sym w w1 sd Hsd).
  destruct (fst (price_of sd w1)) as [p | e].
  - eexists. eexists. eexists. split; [reflexivity |].
    unfold indicators_of, draw_from. cbn [rsi adx]. rewrite Hk.
    destruct (Hdraws (5 + random_count w1)%nat) as [A0 A1].
    destruct (Hdraws (6 + random_count w1)%nat) as [B0 B1].
    unfold lit. cbn [add mul].
    split; [reflexivity |]. split; [qc2q; lra |]. split; [qc2q; lra |].
    split; [reflexivity |]. split; qc2q; lra.
  - exists {| rsi := lit 50; ema9 := lit 200; ema20 := lit 195;
              adx := lit 25; ti_vwap := lit 198; sma50 := lit 190;
              sma200 := lit 180 |}, (Q2Qc 50), (Q2Qc 25).
    repeat split; discriminate.
Qed.

(** X14.  When [Math.random] keeps its contract, [fetchTechnicalIndicators]
    resolves, whatever the network answers, with a finite RSI in the closed
    interval [45, 65] and a finite ADX in [15, 35] (closed: rounding
    reaches 65 and 35 at the largest draw). *)
Theorem fetchTechnicalIndicators_ranges (sym : string) (w : World) :
  unit_draws w ->
  exists td : TechnicalIndicators,
    fst (fetchTechnicalIndicators sym w) = Resolved td
    /\ in_closed_range 45 65 (rsi td)
    /\ in_closed_range 15 35 (adx td).
Proof.
  intros Hdraws.
  destruct (fetched_rsi_adx sym w Hdraws)
    as [td [q [a [Htd [Eq [Hq0 [Hq1 [Ea [Ha0 Ha1]]]]]]]]].
  exists td. split; [exact Htd |].
  split; [exists q | exists a]; repeat split; assumption.
Qed.

(** X15.  With the technical indicators [fetchTechnicalIndicators] gives
    (Math.random keeping its contract), the RSI conditions of
    [generateTradeRecommendations] always hold, so they select nothing: a
    Bull Call Spread is recommended exactly when the social sentiment and
    the change percent are positive, and a Cash Secured Put exactly when the
    IV percentile is above 50 and the analyst rating above 3. *)
Theorem generateTradeRecommendations_on_fetched_indicators
        (sym : string) (w : World) (td : TechnicalIndicators)
        (symbol : string) (stockData : StockData) (optionsData : OptionsData)
        (fundamentalData : FundamentalData) (alternativeData : AlternativeData) :
  unit_draws w ->
  fst (fetchTechnicalIndicators sym w) = Resolved td ->
  let trades :=
    generateTradeRecommendations symbol stockData optionsData fundamentalData
                                 alternativeData td in
  (In "Bull Call Spread"%string (map tr_strategy trades) <->
   (socialSentiment alternativeData > lit 0) = true
   /\ (changePercent stockData > lit 0) = true)
  /\ (In "Cash Secured Put"%string (map tr_strategy trades) <->
      (ivPercentile optionsData > lit 50) = true
      /\ (analystRating alternativeData > lit 3) = true).
Proof.
  intros Hdraws Htd.
  destruct (fetched_rsi_adx sym w Hdraws)
    as [td' [q [a [Htd' [Eq [Hq0 [Hq1 _]]]]]]].
  rewrite Htd in Htd'. injection Htd' as <-.
  assert (Hlow : (rsi td < lit 70) = true).
  { rewrite Eq. unfold lit. rewrite lt_Fin. apply Qcltb_lt. qc2q. lra. }
  assert (Hhigh : (rsi td > lit 30) = true).
  { rewrite Eq. unfold gt, lit. rewrite lt_Fin. apply Qcltb_lt. qc2q. lra. }
  cbv zeta. unfold generateTradeRecommendations. rewrite Hlow, Hhigh.
  cbn [andb].
  destruct (socialSentiment alternativeData > lit 0);
    destruct (changePercent stockData > lit 0);
    destruct (ivPercentile optionsData > lit 50);
    destruct (analystRating alternativeData > lit 3);
    destruct ((adx td < lit 25) && (ivPercentile optionsData > lit 60));
    cbn [andb push app firstn map tr_strategy In];
    split; split; intros H;
      repeat match goal with
             | H : _ /\ _ |- _ => destruct H
             | H : _ \/ _ |- _ => destruct H
             | H : False |- _ => contradiction
             | H : _ = _ |- _ => discriminate H
             end;
      try (split; reflexivity); auto.
Qed.

End WithHost.

Lemma fetchTechnicalIndicators_ranges_witness :
  exists td : TechnicalIndicators,
    fst (fetchTechnicalIndicators (host := sample_host) "aapl" calm_world)
    = Resolved td
    /\ in_closed_range 45 65 (rsi td)
    /\ in_closed_range 15 35 (adx td).
Proof.
  apply (fetchTechnicalIndicators_ranges (host := sample_host) "aapl" calm_world).
  intros i. split; vm_compute; [discriminate | reflexivity].
Defined.

Lemma generateTradeRecommendations_on_fetched_indicators_witness :
  In "Bull Call Spread"%string
     (map tr_strategy
          (generateTradeRecommendations
             (host := sample_host) "AAPL" sample_stock sample_options
             sample_fundamental sample_alternative
             (indicators_of (lit 100) (draw_from calm_world))))
  <-> (socialSentiment sample_alternative > lit 0) = true
      /\ (changePercent sample_stock > lit 0) = true.
Proof.
  refine (proj1 (generateTradeRecommendations_on_fetched_indicators
                   (host := sample_host) "aapl" calm_world
                   (indicators_of (lit 100) (draw_from calm_world))
                   "AAPL" sample_stock sample_options sample_fundamental
                   sample_alternative _ _)).
  - intros i. split; vm_compute; [discriminate | reflexivity].
  - reflexivity.
Defined.

End IndicatorRangeTheorems.

(** ** Option recommendations and the volatility mock *)

Module OptionTheorems.
Import NumFacts MockRangeTheorems.
Local Open Scope js_scope.

Section WithHost.
Context {host : Host}.

(** X16.  [generateOptionRecommendations] returns, in this order, the Short
    Straddle and the Iron Condor when the one-month volatility is above 30,
    the Long Straddle when it is below 20, the Calendar Spread when the
    one-week volatility is above 1.2 times the three-month one, and always
    the Cash-Secured Put; every expected move is the one-month average move
    except the Calendar Spread's, which is the one-week one. *)
Theorem generateOptionRecommendations_catalog
        (volatilities averageMoves : Timeframes) (currentPrice : number) :
  map option_summary
      (generateOptionRecommendations volatilities averageMoves currentPrice)
  = expected_options volatilities averageMoves.
Proof.
  pose proof (EngineTheorems.high_low_exclusive (oneMonth volatilities)) as Hex.
  unfold generateOptionRecommendations, option_recommendations_pushed,
    expected_options.
  destruct (oneMonth volatilities > lit 30);
    destruct (oneMonth volatilities < lit 20); try discriminate;
    destruct (oneWeek volatilities > threeMonths volatilities * lit 1.2);
    reflexivity.
Qed.

End WithHost.

End OptionTheorems.

(** ** Historical volatility: the fetch and its mock *)

Module VolatilityMockTheorems.
Import NumFacts MockRangeTheorems.
Local Open Scope js_scope.

Section WithHost.
Context {host : Host}.


(** X19.  On the data [generateMockVolatilityData] makes up (Math.random
    keeping its contract) the low-volatility and the calendar branches of
    [generateOptionRecommendations] are never taken: the recommendations
    are the Short Straddle, the Iron Condor and the Cash-Secured Put when
    the one-month volatility is above 30, and the Cash-Secured Put alone
    otherwise; a Long Straddle or a Calendar Spread is never recommended. *)
Theorem generateMockVolatilityData_recommendations (sym : string) (w : World) :
  unit_draws w ->
  exists d w',
    generateMockVolatilityData sym w = (Resolved d, w')
    /\ map strategy (recommendations d)
       = (if oneMonth (timeframes d) > lit 30
          then ["Short Straddle"; "Iron Condor"; "Cash-Secured Put"]
          else ["Cash-Secured Put"])%string.
Proof.
  intros Hdraws.
  unfold generateMockVolatilityData, bind, Math_random, ret.
  cbn [random_draws random_count now network].
  eexists. eexists. split; [reflexivity |].
  cbn [recommendations timeframes oneMonth].
  unfold generateOptionRecommendations, option_recommendations_pushed.
  cbn [oneMonth oneWeek threeMonths].
  set (n := random_count w).
  destruct (Hdraws n) as [A0 A1].
  destruct (Hdraws (S (S (S n)))) as [D0 D1].
  destruct (Hdraws (S (S (S (S n))))) as [E0 E1].
  set (r0 := random_draws w n) in *.
  set (r3 := random_draws w (S (S (S n)))) in *.
  set (r4 := random_draws w (S (S (S (S n))))) in *.
  assert (Hlow : (lit 20 + Fin r0 * lit 40 < lit 20) = false).
  { unfold lit. cbn [add mul]. rewrite lt_Fin. apply Qcltb_ge. qc2q. lra. }
  assert (Hcal :
    ((lit 20 + Fin r0 * lit 40) * (lit 0.6 + Fin r3 * lit 0.3)
     > (lit 20 + Fin r0 * lit 40) * (lit 0.8 + Fin r4 * lit 0.4) * lit 1.2)
    = false).
  { unfold gt, lit. cbn [add mul]. rewrite lt_Fin. apply Qcltb_ge. qc2q. nra. }
  rewrite Hlow, Hcal.
  destruct (lit 20 + Fin r0 * lit 40 > lit 30); reflexivity.
Qed.

(** The mock always returns. *)
Lemma generateMockVolatilityData_returns (sym : string) (w : World) :
  exists d w',
    generateMockVolatilityData sym w = (Resolved d, w')
    /\ hv_symbol d = toUpperCase sym.
Proof.
  unfold generateMockVolatilityData, bind, Math_random, ret.
  cbn [random_draws random_count now network].
  eexists. eexists. split; reflexivity.
Qed.

(** X20.  [fetchHistoricalVolatility] never rejects.  When [fetch] resolves
    with an ok status and a body that is valid JSON it resolves with that
    body as it is, also when the body is [null] or has a truthy [error]
    property (unlike [fetchStockData] it does not look at [error]) and
    draws nothing; in every other case (network failure, non-ok status,
    invalid JSON) it resolves with the data [generateMockVolatilityData]
    makes up, whose symbol is the input upper-cased. *)
Theorem fetchHistoricalVolatility_never_rejects (sym : string) (w : World) :
  exists v w',
    fetchHistoricalVolatility sym w = (Resolved v, w')
    /\ match network w ("/api/volatility/" ++ sym)%string with
       | Responded {| ok := true; body_json := Some data |} =>
           v = VolatilityFromApi data /\ w' = w
       | _ =>
           exists d,
             generateMockVolatilityData sym w = (Resolved d, w')
             /\ v = VolatilityGenerated d
             /\ hv_symbol d = toUpperCase sym
       end.
Proof.
  destruct (generateMockVolatilityData_returns sym w) as [d [w' [Hd Hs]]].
  unfold fetchHistoricalVolatility.
  remember (generateMockVolatilityData sym) as mock eqn:Emock.
  assert (Hcatch :
    exists v w'0,
      (d0 <- mock ;; ret (VolatilityGenerated d0))%async w = (Resolved v, w'0)
      /\ exists d0, mock w = (Resolved d0, w'0) /\ v = VolatilityGenerated d0
                    /\ hv_symbol d0 = toUpperCase sym).
  { exists (VolatilityGenerated d), w'. unfold bind. rewrite Hd.
    split; [reflexivity |]. exists d. auto. }
  unfold try_catch, bind at 1, fetch.
  destruct (network w ("/api/volatility/" ++ sym)) as [| r]; [exact Hcatch |].
  destruct r as [okr st txt json]. cbn [ok status body_text body_json].
  destruct okr; cbn [negb]; [| exact Hcatch].
  unfold bind at 1, Response_json. cbn [body_json].
  destruct json as [data |]; [| exact Hcatch].
  cbn. eexists. eexists. split; [reflexivity | split; reflexivity].
Qed.

End WithHost.


Lemma generateMockVolatilityData_recommendations_witness :
  exists d w',
    generateMockVolatilityData (host := sample_host) "aapl" calm_world
    = (Resolved d, w')
    /\ map strategy (recommendations d)
       = (if oneMonth (timeframes d) > lit 30
          then ["Short Straddle"; "Iron Condor"; "Cash-Secured Put"]
          else ["Cash-Secured Put"])%string.
Proof.
  apply (generateMockVolatilityData_recommendations
           (host := sample_host) "aapl" calm_world).
  intros i. split; vm_compute; [discriminate | reflexivity].
Defined.

End VolatilityMockTheorems.

(** ** Stock search *)

Module SearchTheorems.

Lemma prefix_append (sub s : string) :
  String.prefix sub s = true <-> exists post, s = (sub ++ post)%string.
Proof.
  revert s. induction sub as [| c sub IH]; intros s.
  - destruct s; cbn; split; eauto.
  - destruct s as [| c' s]; cbn.
    + split; [discriminate | intros [post E]; discriminate E].
    + destruct (Ascii.ascii_dec c c') as [<- | Hne].
      * rewrite IH. split; intros [post E]; exists post.
        -- rewrite E. reflexivity.
        -- injection E as E. exact E.
      * split; [discriminate |]. intros [post E]. injection E as E1 E2.
        congruence.
Qed.

(** [includes] finds exactly the substrings. *)
Lemma includes_substring (s sub : string) :
  includes s sub = true
  <-> exists pre post, s = (pre ++ sub ++ post)%string.
Proof.
  induction s as [| c s IH].
  - cbn [includes]. destruct (String.prefix sub "") eqn:E.
    + apply prefix_append in E as [post E]. split; [| reflexivity].
      intros _. exists ""%string, post. exact E.
    + split; [discriminate |]. intros [pre [post H]].
      destruct pre; cbn in H.
      * assert (String.prefix sub "" = true) by (apply prefix_append; eauto).
        congruence.
      * discriminate H.
  - cbn [includes]. destruct (String.prefix sub (String c s)) eqn:E.
    + apply prefix_append in E as [post E]. split; [| reflexivity].
      intros _. exists ""%string, post. exact E.
    + rewrite IH. split.
      * intros [pre [post H]]. exists (String c pre), post. rewrite H. reflexivity.
      * intros [pre [post H]]. destruct pre as [| c' pre]; cbn in H.
        -- assert (String.prefix sub (String c s) = true)
             by (apply prefix_append; eauto).
           congruence.
        -- injection H as _ H. eauto.
Qed.

Section WithLowerCase.
Variable toLowerCase : string -> string.

(** X21.  [searchStocks] never rejects and reads nothing of the world.  It
    returns, in the order of the catalog, exactly the catalog entries whose
    lower-cased symbol or description contains the lower-cased query: at
    most 5 entries, so [slice(0, 10)] never drops a match.  A query whose
    lower case is the empty string returns the whole catalog. *)
Theorem searchStocks_matches (query : string) (w : World) :
  exists results,
    searchStocks toLowerCase query w = (Resolved results, w)
    /\ (length results <= 5)%nat
    /\ (forall stock,
          In stock results <-> In stock mockResults /\ matches toLowerCase query stock)
    /\ (exists keep, results = filter keep mockResults)
    /\ (toLowerCase query = ""%string -> results = mockResults).
Proof.
  unfold searchStocks, ret, slice_to.
  set (keep := fun stock =>
                 (includes (toLowerCase (sr_symbol stock)) (toLowerCase query)
                  || includes (toLowerCase (sr_description stock))
                              (toLowerCase query))%bool).
  assert (Hlen : (length (filter keep mockResults) <= 5)%nat)
    by apply (filter_length_le keep mockResults).
  rewrite firstn_all2 by lia.
  eexists. split; [reflexivity |]. split; [exact Hlen |]. split; [| split].
  - intros stock. rewrite filter_In. unfold keep, matches.
    rewrite orb_true_iff, !includes_substring. reflexivity.
  - exists keep. reflexivity.
  - intros E. unfold keep. rewrite E.
    assert (Hall : forall s, includes s "" = true).
    { intros s. apply includes_substring. exists ""%string, s. reflexivity. }
    cbn [mockResults filter]. rewrite !Hall. reflexivity.
Qed.

End WithLowerCase.

Lemma searchStocks_matches_witness :
  exists results,
    searchStocks lower_string "" calm_world = (Resolved results, calm_world)
    /\ results = mockResults.
Proof.
  destruct (searchStocks_matches lower_string "" calm_world)
    as [results [E [_ [_ [_ Hall]]]]].
  exists results. split; [exact E | apply Hall; reflexivity].
Defined.

End SearchTheorems.

(** ** Mock option chains: shape, ranges and the implied volatility *)

Module ChainTheorems.
Import NumFacts.
Local Open Scope js_scope.

(** [Math.max(a, r * b)] with [r] in [0, 1) and [0 <= a <= b] lies in
    [[a, b]]. *)
Lemma max_scaled_range (a b : Q) (r : Qc) :
  (0 <= a)%Q -> (a <= b)%Q -> (Q2Qc 0 <= r)%Qc -> (r < Q2Qc 1)%Qc ->
  in_closed_range a b (Math_max2 (lit a) (Fin r * lit b)).
Proof.
  intros Ha Hab H0 H1. unfold in_closed_range, lit. cbn [mul].
  unfold Math_max2. rewrite lt_Fin.
  destruct (Qcltb (Q2Qc a) (r * Q2Qc b)%Qc) eqn:E.
  - eexists. split; [reflexivity |]. split.
    + apply Qclt_le_weak, Qcltb_lt, E.
    + clear E. qc2q. nra.
  - eexists. split; [reflexivity |]. split.
    + apply Qcle_refl.
    + clear E. qc2q. lra.
Qed.

(** [Math.max(lo, Math.min(hi, y))] of a finite [y] lies in [[lo, hi]]. *)
Lemma clamp_range (lo hi y : Qc) :
  (lo <= hi)%Qc ->
  exists d : Qc,
    Math_max2 (Fin lo) (Math_min2 (Fin hi) (Fin y)) = Fin d
    /\ (lo <= d)%Qc /\ (d <= hi)%Qc.
Proof.
  intros Hlh. unfold Math_min2. rewrite lt_Fin.
  destruct (Qcltb y hi) eqn:E1.
  - unfold Math_max2. rewrite lt_Fin.
    destruct (Qcltb lo y) eqn:E2.
    + exists y. split; [reflexivity |]. split.
      * apply Qclt_le_weak, Qcltb_lt, E2.
      * apply Qclt_le_weak, Qcltb_lt, E1.
    + exists lo. split; [reflexivity |]. split.
      * apply Qcle_refl.
      * exact Hlh.
  - unfold Math_max2. rewrite lt_Fin.
    destruct (Qcltb lo hi) eqn:E2.
    + exists hi. split; [reflexivity |]. split.
      * exact Hlh.
      * apply Qcle_refl.
    + exists lo. split; [reflexivity |]. split.
      * apply Qcle_refl.
      * exact Hlh.
Qed.

Lemma in_range_floor (r : Qc) (n : Z) :
  (Q2Qc 0 <= r)%Qc -> (r < Q2Qc 1)%Qc -> (0 < n)%Z ->
  in_range 0 (inject_Z n) (Math_floor (Fin r * lit (inject_Z n))).
Proof.
  intros H0 H1 Hn.
  destruct (MockRangeTheorems.floor_scaled_range r n H0 H1 Hn)
    as [z [Ez [Hz0 Hz1]]].
  rewrite Ez. exists (Q2Qc (inject_Z z)). split; [reflexivity |].
  assert (Hq0 : (inject_Z 0 <= inject_Z z)%Q)
    by (rewrite <- Zle_Qle; exact Hz0).
  assert (Hq1 : (inject_Z z < inject_Z n)%Q)
    by (rewrite <- Zlt_Qlt; exact Hz1).
  change (inject_Z 0) with 0%Q in Hq0.
  split; qc2q; lra.
Qed.

(** The strike of an iteration is a finite number when the price is. *)
Lemma strike_at_Fin (p : Qc) (i : Z) : exists k : Qc, strike_at (Fin p) i = Fin k.
Proof. unfold strike_at, of_Z, lit. cbn [add mul Math_round]. eexists. reflexivity. Qed.

(** A draw of [Math.random] followed by the rest of the computation. *)
Lemma bind_random_first {B} (k : number -> Async B) (w : World) :
  bind Math_random k w
  = k (Fin (random_draws w (random_count w))) (advance w 1).
Proof. reflexivity. Qed.

Lemma bind_random_next {B} (k : number -> Async B) (w : World) (j : nat) :
  bind Math_random k (advance w j)
  = k (Fin (random_draws w (j + random_count w))) (advance w (S j)).
Proof. reflexivity. Qed.

(** One iteration pushes one call and one put of the same strike and draws
    20 numbers. *)
Lemma chain_step_run (currentPrice : number)
      (calls puts : list OptionContract) (i : Z) (w : World) :
  exists c q w',
    chain_step currentPrice (calls, puts) i w
    = (Resolved ((calls ++ [c])%list, (puts ++ [q])%list), w')
    /\ random_draws w' = random_draws w
    /\ random_count w' = (20 + random_count w)%nat
    /\ strike c = strike_at currentPrice i
    /\ strike q = strike_at currentPrice i
    /\ (unit_draws w -> quotes_ok c /\ quotes_ok q)
    /\ (forall p : Qc, currentPrice = Fin p -> p <> Q2Qc 0 ->
        in_closed_range 0 1 (delta c) /\ in_closed_range (-1) 0 (delta q)).
Proof.
  unfold chain_step.
  rewrite bind_random_first. cbv beta zeta.
  repeat (rewrite bind_random_next; cbv beta zeta).
  unfold ret, push.
  eexists. eexists. eexists. split; [reflexivity |].
  split; [reflexivity |]. split; [reflexivity |].
  split; [reflexivity |]. split; [reflexivity |].
  unfold quotes_ok.
  cbn [strike bid ask last oc_volume openInterest oc_impliedVolatility delta].
  set (n := random_count w).
  split.
  - intros Hdraws.
    assert (R : forall k, (Q2Qc 0 <= random_draws w k)%Qc
                          /\ (random_draws w k < Q2Qc 1)%Qc)
      by exact Hdraws.
    repeat split;
      try (apply max_scaled_range;
           [unfold Qle; cbn; lia | unfold Qle; cbn; lia
            | apply R | apply R]);
      try (apply (in_range_floor _ 1000); [apply R | apply R | reflexivity]);
      try (apply (in_range_floor _ 5000); [apply R | apply R | reflexivity]).
    + destruct (R n) as [A0 A1]. set (r := random_draws w n) in *.
      MockRangeTheorems.in_range_tac.
    + destruct (R (1 + n)%nat) as [A0 A1].
      set (r := random_draws w (1 + n)) in *.
      MockRangeTheorems.in_range_tac.
  - intros p -> Hp.
    destruct (strike_at_Fin p i) as [k ->].
    cbn [sub neg add]. rewrite (div_Fin _ _ Hp).
    unfold lit. cbn [add neg].
    split.
    + match goal with
      | |- in_closed_range _ _
             (Math_max2 (Fin ?lo) (Math_min2 (Fin ?hi) (Fin ?y))) =>
          destruct (clamp_range lo hi y) as [d [E [H1 H2]]];
            [discriminate | rewrite E]
      end.
      exists d. split; [reflexivity |]. split; qc2q; lra.
    + match goal with
      | |- in_closed_range _ _
             (Math_max2 (Fin ?lo) (Math_min2 (Fin ?hi) (Fin ?y))) =>
          destruct (clamp_range lo hi y) as [d [E [H1 H2]]];
            [discriminate | rewrite E]
      end.
      exists d. split; [reflexivity |]. split; qc2q; lra.
Qed.

Lemma unit_draws_same (w w' : World) :
  random_draws w' = random_draws w -> unit_draws w -> unit_draws w'.
Proof. unfold unit_draws. intros ->. trivial. Qed.

(** The loop over the counters [steps]. *)
Lemma chain_loop_run (currentPrice : number) (steps : list Z) :
  forall (calls puts : list OptionContract) (w : World),
  exists cs qs w',
    for_async (chain_step currentPrice) steps (calls, puts) w
    = (Resolved ((calls ++ cs)%list, (puts ++ qs)%list), w')
    /\ random_draws w' = random_draws w
    /\ random_count w' = (20 * length steps + random_count w)%nat
    /\ map strike cs = map (strike_at currentPrice) steps
    /\ map strike qs = map (strike_at currentPrice) steps
    /\ (unit_draws w -> Forall quotes_ok cs /\ Forall quotes_ok qs)
    /\ (forall p : Qc, currentPrice = Fin p -> p <> Q2Qc 0 ->
        Forall (fun c => in_closed_range 0 1 (delta c)) cs
        /\ Forall (fun c => in_closed_range (-1) 0 (delta c)) qs).
Proof.
  induction steps as [| i steps IH]; intros calls puts w.
  - exists [], [], w. cbn [for_async]. unfold ret. rewrite !app_nil_r.
    repeat split; constructor.
  - destruct (chain_step_run currentPrice calls puts i w)
      as [c [q [w1 [E [Hd [Hn [Hc [Hq [Hquotes Hdelta]]]]]]]]].
    destruct (IH (calls ++ [c])%list (puts ++ [q])%list w1)
      as [cs [qs [w2 [E2 [Hd2 [Hn2 [Hcs [Hqs [Hquotes2 Hdelta2]]]]]]]]].
    exists (c :: cs), (q :: qs), w2.
    cbn [for_async]. unfold bind at 1. rewrite E, E2, <- !app_assoc.
    split; [reflexivity |].
    split; [congruence |].
    split; [rewrite Hn2, Hn; cbn [length]; lia |].
    split; [cbn [map]; congruence |].
    split; [cbn [map]; congruence |].
    split.
    + intros Hw. destruct (Hquotes Hw) as [Q1 Q2].
      destruct (Hquotes2 (unit_draws_same _ _ Hd Hw)) as [Q3 Q4].
      split; constructor; assumption.
    + intros p Ep Hp. destruct (Hdelta p Ep Hp) as [D1 D2].
      destruct (Hdelta2 p Ep Hp) as [D3 D4].
      split; constructor; assumption.
Qed.

(** What a run of [generateOptionsChains] gives, for every price, list of
    expirations and world. *)
Lemma generateOptionsChains_run (currentPrice : number)
      (expirations : list string) :
  forall w : World,
  exists chains w',
    generateOptionsChains currentPrice expirations w = (Resolved chains, w')
    /\ random_draws w' = random_draws w
    /\ random_count w' = (420 * length expirations + random_count w)%nat
    /\ map expiration chains = expirations
    /\ Forall (chain_shape currentPrice) chains
    /\ (unit_draws w ->
        Forall (fun ch => Forall quotes_ok (calls ch)
                          /\ Forall quotes_ok (puts ch)) chains)
    /\ (forall p : Qc, currentPrice = Fin p -> p <> Q2Qc 0 ->
        Forall (fun ch =>
                  Forall (fun c => in_closed_range 0 1 (delta c)) (calls ch)
                  /\ Forall (fun c => in_closed_range (-1) 0 (delta c))
                            (puts ch)) chains).
Proof.
  unfold generateOptionsChains.
  induction expirations as [| e expirations IH]; intros w.
  - exists [], w. cbn [map_async]. unfold ret.
    repeat split; constructor.
  - destruct (chain_loop_run currentPrice strike_counters [] [] w)
      as [cs [qs [w1 [E [Hd [Hn [Hcs [Hqs [Hquotes Hdelta]]]]]]]]].
    destruct (IH w1)
      as [chains [w2 [E2 [Hd2 [Hn2 [He [Hshape [Hquotes2 Hdelta2]]]]]]]].
    exists ({| expiration := e; calls := cs; puts := qs |} :: chains), w2.
    cbn [map_async]. unfold bind at 1 2. rewrite E. cbn [app].
    unfold ret at 1. unfold bind at 1. rewrite E2. unfold ret.
    split; [reflexivity |].
    split; [congruence |].
    split.
    { rewrite Hn2, Hn. cbn [length].
      change (length strike_counters) with 21%nat. lia. }
    split; [cbn [map expiration]; congruence |].
    split.
    { constructor; [| exact Hshape].
      unfold chain_shape. cbn [calls puts].
      split; [rewrite <- (length_map strike), Hcs; reflexivity |].
      split; [rewrite <- (length_map strike), Hqs; reflexivity |].
      split; [exact Hcs | congruence]. }
    split.
    + intros Hw. constructor.
      * cbn [calls puts]. exact (Hquotes Hw).
      * exact (Hquotes2 (unit_draws_same _ _ Hd Hw)).
    + intros p Ep Hp. constructor.
      * cbn [calls puts]. exact (Hdelta p Ep Hp).
      * exact (Hdelta2 p Ep Hp).
Qed.

(** X22.  For every price (finite or not), every list of expirations and
    every state of [Math.random], [generateOptionsChains] returns one chain
    per expiration, in order; every chain has 21 calls and 21 puts, the
    strikes of both are [Math.round(price + i * price * 0.025)] for
    [i = -10 .. 10] in this order, and 420 numbers are drawn per
    expiration. *)
Theorem generateOptionsChains_shape (currentPrice : number)
        (expirations : list string) (w : World) :
  exists chains w',
    generateOptionsChains currentPrice expirations w = (Resolved chains, w')
    /\ random_count w' = (420 * length expirations + random_count w)%nat
    /\ map expiration chains = expirations
    /\ Forall (chain_shape currentPrice) chains.
Proof.
  destruct (generateOptionsChains_run currentPrice expirations w)
    as [chains [w' [E [_ [Hn [He [Hshape _]]]]]]].
  exists chains, w'. repeat split; assumption.
Qed.

(** X23.  When [Math.random] keeps its contract and the price is finite and
    not 0, every contract [generateOptionsChains] makes up has an implied
    volatility in [0.25, 0.55), a bid in [0.05, 5], an ask in [0.1, 6], a
    last price in [0.05, 5.5], a volume in [0, 1000) and an open interest
    in [0, 5000); the delta of every call is in [0, 1] and the delta of
    every put in [-1, 0]. *)
Theorem generateOptionsChains_ranges (p : Qc) (expirations : list string)
        (w : World) :
  unit_draws w -> p <> Q2Qc 0 ->
  exists chains w',
    generateOptionsChains (Fin p) expirations w = (Resolved chains, w')
    /\ Forall chain_ok chains.
Proof.
  intros Hw Hp.
  destruct (generateOptionsChains_run (Fin p) expirations w)
    as [chains [w' [E [_ [_ [_ [_ [Hquotes Hdelta]]]]]]]].
  exists chains, w'. split; [exact E |].
  specialize (Hquotes Hw). specialize (Hdelta p eq_refl Hp).
  clear E. induction chains as [| ch chains IH]; constructor.
  - inversion Hquotes as [| ? ? [Qc1 Qp1] _]; subst.
    inversion Hdelta as [| ? ? [Dc1 Dp1] _]; subst.
    unfold chain_ok, call_ok, put_ok. split.
    + clear - Qc1 Dc1. induction (calls ch) as [| c cs IHc]; constructor.
      * inversion Qc1; inversion Dc1; subst. split; assumption.
      * inversion Qc1; inversion Dc1; subst. apply IHc; assumption.
    + clear - Qp1 Dp1. induction (puts ch) as [| c cs IHc]; constructor.
      * inversion Qp1; inversion Dp1; subst. split; assumption.
      * inversion Qp1; inversion Dp1; subst. apply IHc; assumption.
  - inversion Hquotes; inversion Hdelta; subst. apply IH; assumption.
Qed.

Lemma generateOptionsChains_ranges_witness :
  exists chains w',
    generateOptionsChains (Fin (Q2Qc 100)) ["2025-01-17"%string] calm_world
    = (Resolved chains, w')
    /\ Forall chain_ok chains.
Proof.
  apply (generateOptionsChains_ranges (Q2Qc 100) ["2025-01-17"%string]
                                      calm_world).
  - intros i. split; vm_compute; [discriminate | reflexivity].
  - discriminate.
Defined.

(** X24.  For a finite price that is not negative and at most
    [largest_price] (far below the overflow of binary64) the strike of
    [generateOptionsChains] never decreases with the loop counter, from -10
    to 10, so the strikes of a chain are in ascending order (two counters
    may give the same strike when the price is small); strikes are whole
    numbers, and the middle strike (counter 0) is the rounded price, for
    every finite price. *)
Theorem strike_at_ascending (p : Qc) (i j : Z) :
  ((Q2Qc 0 <= p)%Qc -> (p <= largest_price)%Qc ->
   (-10 <= i)%Z -> (i <= j)%Z -> (j <= 10)%Z ->
   exists a b : Z,
     strike_at (Fin p) i = Fin (Q2Qc (inject_Z a))
     /\ strike_at (Fin p) j = Fin (Q2Qc (inject_Z b))
     /\ (a <= b)%Z)
  /\ strike_at (Fin p) 0 = Math_round (Fin p).
Proof.
  split.
  - intros Hp _ _ Hij _. unfold strike_at, of_Z, lit.
    cbn [add mul Math_round].
    eexists. eexists. split; [reflexivity |]. split; [reflexivity |].
    apply Qfloor_resp_le.
    assert (Hq : (inject_Z i <= inject_Z j)%Q)
      by (rewrite <- Zle_Qle; exact Hij).
    set (x := inject_Z i) in *. set (y := inject_Z j) in *. clearbody x y.
    qc2q. nra.
  - unfold strike_at, of_Z, lit. cbn [add mul Math_round].
    do 3 f_equal. apply Qfloor_comp. qc2q.
    change (inject_Z 0) with 0%Q. ring.
Qed.

Lemma strike_at_ascending_witness :
  exists a b : Z,
    strike_at (Fin (Q2Qc 100)) (-10) = Fin (Q2Qc (inject_Z a))
    /\ strike_at (Fin (Q2Qc 100)) 10 = Fin (Q2Qc (inject_Z b))
    /\ (a <= b)%Z.
Proof.
  apply (proj1 (strike_at_ascending (Q2Qc 100) (-10) 10)).
  - discriminate.
  - vm_compute. discriminate.
  - lia.
  - lia.
  - lia.
Defined.

(** Chains of 21 calls each hold 21 calls per chain. *)
Lemma call_count (currentPrice : number) (chains : list OptionsChain) :
  Forall (chain_shape currentPrice) chains ->
  length (flat_map calls chains) = (21 * length chains)%nat.
Proof.
  induction 1 as [| ch chains [Hcalls _] _ IH]; [reflexivity |].
  cbn [flat_map length]. rewrite length_app, Hcalls, IH. lia.
Qed.

(** X25.  The two functions composed as [fetchOptionsData] composes them:
    from the chains of [generateOptionsChains], for every number given as
    the price and every state of [Math.random],
    [calculateImpliedVolatility] counts 21 calls per expiration; with at
    least one expiration its result is the sum its two loops accumulate
    divided by 21 times the number of expirations, and the default 0.25 is
    returned for the empty list of expirations only. *)
Theorem implied_volatility_of_generated_chains (currentPrice : number)
        (expirations : list string) (w : World) :
  exists chains w',
    generateOptionsChains currentPrice expirations w = (Resolved chains, w')
    /\ snd (iv_accumulate chains) = (21 * length expirations)%nat
    /\ calculateImpliedVolatility chains
       = match expirations with
         | [] => lit 0.25
         | _ :: _ =>
             fst (iv_accumulate chains) / of_nat (21 * length expirations)
         end.
Proof.
  destruct (generateOptionsChains_run currentPrice expirations w)
    as [chains [w' [E [_ [_ [He [Hshape _]]]]]]].
  exists chains, w'. split; [exact E |].
  assert (Hlen : length chains = length expirations)
    by (rewrite <- He; symmetry; apply length_map).
  assert (Hcount : snd (iv_accumulate chains) = (21 * length expirations)%nat).
  { unfold iv_accumulate. rewrite ImpliedVolatilityTheorems.iv_outer.
    cbn [snd Nat.add]. unfold call_volatilities.
    rewrite length_map, <- Hlen.
    apply (call_count currentPrice), Hshape. }
  split; [exact Hcount |].
  unfold calculateImpliedVolatility.
  destruct (iv_accumulate chains) as [totalIV count]. cbn [fst snd] in *.
  subst count. rewrite Hlen.
  destruct expirations as [| e expirations]; [reflexivity |].
  reflexivity.
Qed.

End ChainTheorems.

(** ** Mock fundamentals and the term structure: ranges *)

Module MoreMockTheorems.
Import NumFacts.
Local Open Scope js_scope.

(** X26.  When [Math.random] keeps its contract, [fetchFundamentalData]
    resolves, after exactly eleven draws, with finite fields in these
    closed intervals (rounding reaches some of the upper ends at the largest
    draw): [eps] in [5, 15], [revenue] in [5e10, 1.5e11], [netIncome] in
    [1e10, 3e10], [ebitda] in [1.5e10, 4e10], [peRatio] in [15, 35],
    [priceToSales] in [2, 10] and [forwardPE] in [12, 30]; the two margins,
    the free cash flow yield and the PEG ratio are positive, the first three
    below 1 and the last below 3; so net income and EBITDA are always below
    the revenue. *)
Theorem fetchFundamentalData_ranges (sym : string) (w : World) :
  unit_draws w ->
  exists d w',
    fetchFundamentalData sym w = (Resolved d, w')
    /\ random_count w' = (11 + random_count w)%nat
    /\ in_closed_range 5 15 (eps d)
    /\ in_closed_range 50000000000 150000000000 (revenue d)
    /\ in_closed_range 10000000000 30000000000 (netIncome d)
    /\ in_closed_range 15000000000 40000000000 (ebitda d)
    /\ in_closed_range 15 35 (peRatio d)
    /\ in_closed_range 2 10 (priceToSales d)
    /\ below (lit 0) (grossMargin d) /\ below (grossMargin d) (lit 1)
    /\ below (lit 0) (operatingMargin d) /\ below (operatingMargin d) (lit 1)
    /\ below (lit 0) (freeCashFlowYield d)
    /\ below (freeCashFlowYield d) (lit 1)
    /\ below (lit 0) (pegRatio d) /\ below (pegRatio d) (lit 3)
    /\ in_closed_range 12 30 (forwardPE d)
    /\ below (netIncome d) (revenue d)
    /\ below (ebitda d) (revenue d).
Proof.
  intros Hdraws. unfold fetchFundamentalData.
  rewrite ChainTheorems.bind_random_first. cbv beta zeta.
  repeat (rewrite ChainTheorems.bind_random_next; cbv beta zeta).
  unfold ret. eexists. eexists. split; [reflexivity |].
  split; [reflexivity |].
  cbn [eps revenue netIncome ebitda peRatio priceToSales grossMargin
       operatingMargin freeCashFlowYield pegRatio forwardPE].
  set (n := random_count w).
  assert (R : forall k, (Q2Qc 0 <= random_draws w k)%Qc
                        /\ (random_draws w k < Q2Qc 1)%Qc)
    by exact Hdraws.
  repeat match goal with
         | |- context [random_draws w ?k] =>
             let A := fresh "A" in
             let B := fresh "B" in
             let r := fresh "r" in
             destruct (R k) as [A B];
             set (r := random_draws w k) in *; clearbody r
         end.
  clear R Hdraws.
  repeat (split;
          [first [ MockRangeTheorems.in_range_tac
                 | unfold below, lit; cbn [add mul]; eexists; eexists;
                   split; [reflexivity |]; split; [reflexivity |];
                   qc2q; lra ] |]).
  unfold below, lit. cbn [add mul]. eexists. eexists.
  split; [reflexivity |]. split; [reflexivity |]. qc2q. lra.
Qed.

Lemma fetchFundamentalData_ranges_witness :
  exists d w',
    fetchFundamentalData "AAPL" calm_world = (Resolved d, w')
    /\ random_count w' = (11 + random_count calm_world)%nat
    /\ in_closed_range 5 15 (eps d)
    /\ in_closed_range 50000000000 150000000000 (revenue d)
    /\ in_closed_range 10000000000 30000000000 (netIncome d)
    /\ in_closed_range 15000000000 40000000000 (ebitda d)
    /\ in_closed_range 15 35 (peRatio d)
    /\ in_closed_range 2 10 (priceToSales d)
    /\ below (lit 0) (grossMargin d) /\ below (grossMargin d) (lit 1)
    /\ below (lit 0) (operatingMargin d) /\ below (operatingMargin d) (lit 1)
    /\ below (lit 0) (freeCashFlowYield d)
    /\ below (freeCashFlowYield d) (lit 1)
    /\ below (lit 0) (pegRatio d) /\ below (pegRatio d) (lit 3)
    /\ in_closed_range 12 30 (forwardPE d)
    /\ below (netIncome d) (revenue d)
    /\ below (ebitda d) (revenue d).
Proof.
  apply (fetchFundamentalData_ranges "AAPL" calm_world).
  intros i. split; vm_compute; [discriminate | reflexivity].
Defined.

(** [Math.ceil] gives the least whole number that is not below its
    argument. *)
Lemma Math_ceil_least (q : Qc) :
  exists d : Z,
    Math_ceil (Fin q) = Fin (Q2Qc (inject_Z d))
    /\ (Q2Qc (inject_Z d) - Q2Qc 1 < q)%Qc
    /\ (q <= Q2Qc (inject_Z d))%Qc.
Proof.
  exists (Qceiling q). split; [reflexivity |].
  pose proof (Qle_ceiling q) as Hle. pose proof (Qceiling_lt q) as Hlt.
  unfold Z.sub in Hlt. rewrite inject_Z_plus in Hlt.
  change (inject_Z (- (1))%Z) with (-1 # 1)%Q in Hlt.
  set (c := inject_Z (Qceiling q)) in *. clearbody c.
  split; qc2q; lra.
Qed.

Lemma ms_per_day_product :
  lit 1000 * lit 60 * lit 60 * lit 24 = Fin ms_per_day.
Proof.
  unfold lit, ms_per_day. cbn [mul]. f_equal; apply Qc_is_canon; reflexivity.
Qed.

Section WithDates.
Variable Date_getTime : string -> number.

(** The day count of one expiration. *)
Lemma days_to_expiry_ok (e : string) (t0 : Qc) (r : number) :
  days_ok Date_getTime t0
          {| tsp_expiration := e;
             daysToExpiry :=
               Math_ceil ((Date_getTime e - Fin t0)
                          / (lit 1000 * lit 60 * lit 60 * lit 24));
             tsp_impliedVolatility := r |}.
Proof.
  unfold days_ok. cbn [tsp_expiration daysToExpiry].
  rewrite ms_per_day_product. split.
  - intros t ->. rewrite sub_Fin.
    assert (Hms : ms_per_day <> Q2Qc 0) by discriminate.
    rewrite (div_Fin _ _ Hms).
    destruct (Math_ceil_least ((t - t0) / ms_per_day)%Qc)
      as [d [Ed [Hlo Hhi]]].
    exists d. split; [exact Ed |].
    assert (Hpos : (Q2Qc 0 < ms_per_day)%Qc) by reflexivity.
    assert (Ex : ((t - t0) / ms_per_day * ms_per_day = t - t0)%Qc)
      by (field; exact Hms).
    set (x := ((t - t0) / ms_per_day)%Qc) in *. clearbody x.
    set (c := Q2Qc (inject_Z d)) in *. clearbody c.
    set (m := ms_per_day) in *. clearbody m.
    assert (Et : t = (t0 + x * m)%Qc) by (rewrite Ex; ring).
    rewrite Et. clear Ex Et Ed Hms.
    split; qc2q; nra.

  - intros ->. reflexivity.
Qed.

Lemma generateTermStructure_run (expirations : list string) :
  forall w : World,
  exists pts w',
    generateTermStructure Date_getTime expirations w = (Resolved pts, w')
    /\ random_draws w' = random_draws w
    /\ now w' = now w
    /\ random_count w' = (length expirations + random_count w)%nat
    /\ map tsp_expiration pts = expirations
    /\ Forall (days_ok Date_getTime (now w)) pts
    /\ (unit_draws w ->
        Forall (fun pt => in_range 0.2 0.6 (tsp_impliedVolatility pt)) pts).
Proof.
  unfold generateTermStructure.
  induction expirations as [| e expirations IH]; intros w.
  - exists [], w. cbn [map_async]. unfold ret. repeat split; constructor.
  - cbn [map_async].
    unfold bind at 1 2 3, Date_now at 1, Math_random at 1, ret at 1.
    cbn [random_draws random_count now network].
    match goal with
    | |- context [bind _ _ ?w1] =>
        destruct (IH w1)
          as [pts [w2 [E2 [Hd2 [Hnow2 [Hn2 [He [Hdays Hiv]]]]]]]]
    end.
    cbn [random_draws random_count now network] in *.
    unfold bind at 1. rewrite E2. unfold ret.
    eexists. eexists. split; [reflexivity |].
    split; [exact Hd2 |]. split; [exact Hnow2 |].
    split; [rewrite Hn2; cbn [length]; lia |].
    split; [cbn [map tsp_expiration]; congruence |].
    split.
    + constructor; [apply days_to_expiry_ok | exact Hdays].
    + intros Hw. constructor.
      * cbn [tsp_impliedVolatility].
        destruct (Hw (random_count w)) as [A0 A1].
        set (r := random_draws w (random_count w)) in *.
        MockRangeTheorems.in_range_tac.
      * apply Hiv. exact Hw.
Qed.


End WithDates.


End MoreMockTheorems.
